(** * OTA-over-MQTT demo: topic classifier, job actions, buffer pool and
      command bridge of [source/ota_over_mqtt_demo.c].

    The C functions are embedded as Rocq functions.  C strings are lists of
    characters, integers of a fixed width are [Z] with the wrap-around written
    where the source can reach it, pointers that the source tests against
    NULL are options, and code with side effects runs in a small monad over
    the module's global state that can stop at a failed [configASSERT]. *)

From Stdlib Require Import ZArith Ascii String Lia.
From stdpp Require Import base tactics option list.

Local Open Scope Z_scope.

(** ** C strings *)

(** A [cstring] holds the bytes found at a [char *]; the byte after the last
    element is the terminating NUL, so reading past the end yields NUL. *)
Abbreviation cstring := (list ascii).

Definition lit (s : string) : cstring := list_ascii_of_string s.

Definition NUL : ascii := Ascii.zero.

(** [p[i]].  The storage of a string ends with its terminator, at index
    [length p]; a read outside it has no defined value and yields [None]. *)
Definition char_at (p : cstring) (i : Z) : option ascii :=
  if (0 <=? i) && (i <=? Z.of_nat (length p))
  then Some (nth (Z.to_nat i) p NUL)
  else None.

Definition uchar (c : ascii) : Z := Z.of_nat (nat_of_ascii c).

Definition uint16_t (z : Z) : Z := z mod 65536.

(** [strlen]: number of bytes before the first NUL. *)
Fixpoint strlen (s : cstring) : nat :=
  match s with
  | [] => O
  | c :: s' => if Ascii.eqb c NUL then O else S (strlen s')
  end.

(** [strncmp s1 s2 n]: compares at most [n] bytes and stops after a NUL;
    the sign of the result is that of the first differing pair of bytes. *)
Fixpoint strncmp (s1 s2 : cstring) (n : nat) : Z :=
  match n with
  | O => 0
  | S n' =>
      let c1 := hd NUL s1 in
      let c2 := hd NUL s2 in
      if Ascii.eqb c1 c2
      then if Ascii.eqb c1 NUL then 0 else strncmp (tl s1) (tl s2) n'
      else uchar c1 - uchar c2
  end.

(** ** Topic classifier *)

Definition OTA_TOPIC_PREFIX : cstring := lit "$aws/things/".
Definition OTA_TOPIC_PREFIX_LENGTH : Z :=
  uint16_t (Z.of_nat (length OTA_TOPIC_PREFIX)).
Definition OTA_TOPIC_JOBS : cstring := lit "jobs".
Definition OTA_TOPIC_STREAM : cstring := lit "streams".

Definition EXIT_SUCCESS : Z := 0.
Definition EXIT_FAILURE : Z := 1.

Inductive OtaMessageType_t : Set :=
| OtaMessageTypeJob
| OtaMessageTypeStream
| OtaNumOfMessageType.

Definition OtaMessageType_to_Z (t : OtaMessageType_t) : Z :=
  match t with
  | OtaMessageTypeJob => 0
  | OtaMessageTypeStream => 1
  | OtaNumOfMessageType => 2
  end.

(** The assignment [retMesageType = i], reached only with [i] below
    [OtaNumOfMessageType]. *)
Definition OtaMessageType_of_Z (i : Z) : OtaMessageType_t :=
  if i =? 0 then OtaMessageTypeJob
  else if i =? 1 then OtaMessageTypeStream
  else OtaNumOfMessageType.

Definition pOtaMessageStrings : list cstring :=
  [OTA_TOPIC_JOBS; OTA_TOPIC_STREAM].

(** The loop [for( ; stringIndex < topicFilterLength; stringIndex++ )] that
    stops at a slash and counts the bytes before it.  It occurs twice in
    [getOtaMessageType]; both counters are [uint16_t].  [fuel] bounds the
    number of iterations; [topicFilterLength] iterations always suffice
    (lemma [extractField_fuel]).  [None]: the loop read outside the string. *)
Fixpoint extractField (fuel : nat) (pTopicFilter : cstring)
    (topicFilterLength stringIndex fieldLength : Z) : option (Z * Z) :=
  match fuel with
  | O => Some (stringIndex, fieldLength)
  | S fuel' =>
      if stringIndex <? topicFilterLength
      then
        match char_at pTopicFilter stringIndex with
        | None => None
        | Some c =>
            if Ascii.eqb c "/"%char
            then Some (stringIndex, fieldLength)
            else extractField fuel' pTopicFilter topicFilterLength
                   (uint16_t (stringIndex + 1)) (uint16_t (fieldLength + 1))
        end
      else Some (stringIndex, fieldLength)
  end.

(** The loop [for( i = 0; i < OtaNumOfMessageType; i++ )] over the lookup
    table: the index of the first entry that [strncmp] accepts, or the
    table's size. *)
Fixpoint matchMessageString (field : cstring) (fieldLength : nat)
    (table : list cstring) (i : Z) : Z :=
  match table with
  | [] => i
  | s :: table' =>
      if strncmp field s fieldLength =? 0 then i
      else matchMessageString field fieldLength table' (i + 1)
  end.

(** [&p[i]], defined for positions inside the string's storage. *)
Definition ptr_at (p : cstring) (i : Z) : option cstring :=
  if (0 <=? i) && (i <=? Z.of_nat (length p))
  then Some (drop (Z.to_nat i) p)
  else None.

Section Classifier.

(** The thing name the demo is built for; the macro comes from the demo
    configuration, which is not part of this file. *)
Variable democonfigCLIENT_IDENTIFIER : cstring.

(** The second block of [getOtaMessageType]: extract the thing name and
    check it.  Returns [retStatus] and [stringIndex]. *)
Definition checkThingName (pTopicFilter : cstring)
    (topicFilterLength stringIndex : Z) : option (Z * Z) :=
  '(stringIndex, fieldLength) ←
    extractField (Z.to_nat topicFilterLength) pTopicFilter
      topicFilterLength stringIndex 0;
  if 0 <? fieldLength
  then
    field ← ptr_at pTopicFilter (stringIndex - fieldLength);
    if strncmp field democonfigCLIENT_IDENTIFIER (Z.to_nat fieldLength) =? 0
    then Some (EXIT_SUCCESS, uint16_t (stringIndex + 1))
    else Some (EXIT_FAILURE, stringIndex)
  else Some (EXIT_FAILURE, stringIndex).

(** The third block: extract the topic type and look it up. *)
Definition checkMessageType (pTopicFilter : cstring)
    (topicFilterLength stringIndex : Z) : option OtaMessageType_t :=
  '(stringIndex, fieldLength) ←
    extractField (Z.to_nat topicFilterLength) pTopicFilter
      topicFilterLength stringIndex 0;
  if 0 <? fieldLength
  then
    field ← ptr_at pTopicFilter (stringIndex - fieldLength);
    let i :=
      matchMessageString field (Z.to_nat fieldLength) pOtaMessageStrings 0 in
    if i <? OtaMessageType_to_Z OtaNumOfMessageType
    then Some (OtaMessageType_of_Z i)
    else Some OtaNumOfMessageType
  else Some OtaNumOfMessageType.

(** [None]: the function read outside the string it was given. *)
Definition getOtaMessageType (pTopicFilter : cstring)
    (topicFilterLength : Z) : option OtaMessageType_t :=
  (* Check topic prefix is valid. *)
  let '(retStatus, stringIndex) :=
    if strncmp pTopicFilter OTA_TOPIC_PREFIX
         (Z.to_nat OTA_TOPIC_PREFIX_LENGTH) =? 0
    then (EXIT_SUCCESS, OTA_TOPIC_PREFIX_LENGTH)
    else (EXIT_FAILURE, 0) in
  (* Check if thing name is valid. *)
  '(retStatus, stringIndex) ←
    (if retStatus =? EXIT_SUCCESS
     then checkThingName pTopicFilter topicFilterLength stringIndex
     else Some (retStatus, stringIndex));
  (* Check the message type from topic. *)
  if retStatus =? EXIT_SUCCESS
  then checkMessageType pTopicFilter topicFilterLength stringIndex
  else Some OtaNumOfMessageType.

End Classifier.

(** ** Job actions *)

Inductive JobActionType : Set :=
| JOB_ACTION_PRINT
| JOB_ACTION_PUBLISH
| JOB_ACTION_EXIT
| JOB_ACTION_UNKNOWN.

(** [pcAction] is the (non-NULL, asserted by the source) pointer to the
    action value inside the job document. *)
Definition prvGetAction (pcAction : cstring) (xActionLength : nat)
    : JobActionType :=
  if strncmp pcAction (lit "print") xActionLength =? 0
  then JOB_ACTION_PRINT
  else if strncmp pcAction (lit "publish") xActionLength =? 0
  then JOB_ACTION_PUBLISH
  else if strncmp pcAction (lit "exit") xActionLength =? 0
  then JOB_ACTION_EXIT
  else JOB_ACTION_UNKNOWN.

(** ** Types of the libraries the demo calls *)

(** Modelled from the spec: the transport's result codes.  [MQTTStatus_t] is
    declared by the MQTT library, outside this file; the codes the source
    names are constructors of their own and every other code of the library
    is an [MQTTOtherStatus]. *)
Inductive MQTTStatus_t : Set :=
| MQTTSuccess
| MQTTBadParameter
| MQTTSendFailed
| MQTTRecvFailed
| MQTTOtherStatus (code : Z).

Definition MQTTStatus_eqb (a b : MQTTStatus_t) : bool :=
  match a, b with
  | MQTTSuccess, MQTTSuccess => true
  | MQTTBadParameter, MQTTBadParameter => true
  | MQTTSendFailed, MQTTSendFailed => true
  | MQTTRecvFailed, MQTTRecvFailed => true
  | MQTTOtherStatus x, MQTTOtherStatus y => x =? y
  | _, _ => false
  end.

(** The result codes of the update engine's connection interface that the
    source returns. *)
Inductive OtaMqttStatus_t : Set :=
| OtaMqttSuccess
| OtaMqttPublishFailed
| OtaMqttSubscribeFailed
| OtaMqttUnsubscribeFailed.

(** The job-service topic kinds the source tests for; any other kind the
    jobs library can report is [JobsOtherTopic]. *)
Inductive JobsTopic_t : Set :=
| JobsNextJobChanged
| JobsStartNextFailed
| JobsDescribeSuccess
| JobsUpdateSuccess
| JobsUpdateFailed
| JobsOtherTopic.

Inductive JobsStatus_t : Set :=
| JobsSuccess
| JobsNoMatch
| JobsBadParameter.

(** What [Jobs_MatchTopic] hands back: its status and the three output
    parameters ([pJobId] stays NULL when the topic carries no job id). *)
Record JobsMatch : Type := mkJobsMatch {
  match_status : JobsStatus_t;
  match_api : JobsTopic_t;
  match_pJobId : option cstring;
  match_jobIdLength : Z
}.

(** The keys the demo searches job messages for.  The macros that give
    their text come from the demo configuration. *)
Inductive QueryKey : Set :=
| jobsexampleQUERY_KEY_FOR_ACTION
| jobsexampleQUERY_KEY_FOR_MESSAGE
| jobsexampleQUERY_KEY_FOR_TOPIC
| jobsexampleQUERY_KEY_FOR_JOB_ID
| jobsexampleQUERY_KEY_FOR_JOBS_DOC.

Inductive OtaEventId : Set :=
| OtaAgentEventStart
| OtaAgentEventReceivedJobDocument
| OtaAgentEventReceivedFileBlock.

Inductive OtaJobEvent_t : Set :=
| OtaJobEventActivate
| OtaJobEventFail
| OtaJobEventStartTest
| OtaJobEventProcessed
| OtaJobEventSelfTestFailed
| OtaJobEventOther.

(** The two receive callbacks, as the values of [otaMessageCallback]. *)
Inductive IncomingPubCallback_t : Set :=
| cb_prvProcessIncomingJobMessage
| cb_prvProcessIncomingData.

Record MQTTPublishInfo_t : Type := mkPublishInfo {
  pTopicName : cstring;
  pPayload : option cstring
}.

Definition payloadLength (info : MQTTPublishInfo_t) : Z :=
  Z.of_nat (length (default [] (pPayload info))).

(** One slot of the pool, with the three fields the source touches. *)
Record OtaEventData_t : Type := mkEventData {
  data : cstring;
  dataLength : Z;
  bufferUsed : bool
}.

Definition set_bufferUsed (u : bool) (b : OtaEventData_t) : OtaEventData_t :=
  {| data := data b; dataLength := dataLength b; bufferUsed := u |}.

(** [memcpy( b->data, src, n )] followed by [b->dataLength = n]. *)
Definition fill_buffer (src : cstring) (b : OtaEventData_t) : OtaEventData_t :=
  {| data := src ++ drop (length src) (data b);
     dataLength := Z.of_nat (length src);
     bufferUsed := bufferUsed b |}.

(** ** Effects *)

Inductive LogLevel : Set :=
  LogError | LogWarn | LogInfo | LogDebug | configPRINTF.

(** What a run leaves behind outside the module: log lines, commands handed
    to the MQTT agent, changes of the subscription registry and events sent
    to the update engine, in the order of the calls. *)
Inductive Event : Type :=
| Log (lvl : LogLevel) (msg : string)
| LogStatus (lvl : LogLevel) (msg : string) (st : MQTTStatus_t)
| OTA_SignalEvent (eventId : OtaEventId) (pEventData : option nat)
| OTA_Shutdown
| OTA_ActivateNewImage
| OTA_SetImageState
| MQTTAgent_Publish (topic payload : cstring) (qos : Z)
| MQTTAgent_Subscribe (filter : cstring) (qos : Z)
| MQTTAgent_Unsubscribe (filter : cstring) (qos : Z)
| MQTTAgent_Terminate
| addSubscription (filter : cstring) (cb : option IncomingPubCallback_t)
| removeSubscription (filter : cstring)
| xPublishToTopic (topic msg : cstring).

(** The module's global state. *)
Record World : Type := mkWorld {
  eventBuffer : list OtaEventData_t;
  xDemoEncounteredError : bool;
  xExitActionJobReceived : bool;
  trace : list Event
}.

(** The answers of the functions the module calls but does not define.
    Each answer is fixed for the length of one call into the module, where
    every one of them is asked at most once (the JSON and jobs queries are
    functions of their arguments). *)
Record Externals : Type := mkExternals {
  ext_xSemaphoreTake : bool;
  ext_MQTTAgent_Publish : MQTTStatus_t;
  ext_MQTTAgent_Subscribe : MQTTStatus_t;
  ext_MQTTAgent_Unsubscribe : MQTTStatus_t;
  (** [None]: the wait timed out; [Some st]: the completion callback ran
      with return code [st] and notified the waiting task. *)
  ext_xTaskNotifyWait : option MQTTStatus_t;
  ext_addSubscription : bool;
  ext_xPublishToTopic : bool;
  (** [true]: [OTA_SetImageState] returned [OtaErrNone]. *)
  ext_OTA_SetImageState : bool;
  ext_Jobs_Update : cstring -> cstring -> option cstring;
  ext_Jobs_MatchTopic : cstring -> cstring -> JobsMatch;
  ext_JSON_Validate : cstring -> bool;
  ext_JSON_Search : cstring -> QueryKey -> option cstring
}.

(** How a call ends: it returns, it stops at a failed [configASSERT], or it
    reads outside the storage it was given. *)
Inductive outcome (A : Type) : Type :=
| Returned (a : A)
| AssertFailed
| OutOfBounds.
Arguments Returned {A} a.
Arguments AssertFailed {A}.
Arguments OutOfBounds {A}.

(** A computation of the demo: it runs on the global state and either
    returns or stops at a failed [configASSERT]. *)
Definition demoM (A : Type) : Type := World -> outcome (A * World).

#[global] Instance demoM_ret : MRet demoM := fun A a w => Returned (a, w).

#[global] Instance demoM_bind : MBind demoM := fun A B f m w =>
  match m w with
  | Returned (a, w') => f a w'
  | AssertFailed => AssertFailed
  | OutOfBounds => OutOfBounds
  end.

Definition out_of_bounds {A : Type} : demoM A := fun _ => OutOfBounds.

(** The test [p != NULL]. *)
Definition not_NULL {A : Type} (p : option A) : bool :=
  match p with
  | Some _ => true
  | None => false
  end.

Definition configASSERT (b : bool) : demoM unit :=
  fun w => if b then Returned (tt, w) else AssertFailed.

Definition emit (e : Event) : demoM unit := fun w =>
  Returned (tt, {| eventBuffer := eventBuffer w;
                   xDemoEncounteredError := xDemoEncounteredError w;
                   xExitActionJobReceived := xExitActionJobReceived w;
                   trace := trace w ++ [e] |}).

Definition get_eventBuffer : demoM (list OtaEventData_t) :=
  fun w => Returned (eventBuffer w, w).

Definition put_eventBuffer (bufs : list OtaEventData_t) : demoM unit := fun w =>
  Returned (tt, {| eventBuffer := bufs;
                   xDemoEncounteredError := xDemoEncounteredError w;
                   xExitActionJobReceived := xExitActionJobReceived w;
                   trace := trace w |}).

Definition set_xDemoEncounteredError (b : bool) : demoM unit := fun w =>
  Returned (tt, {| eventBuffer := eventBuffer w;
                   xDemoEncounteredError := b;
                   xExitActionJobReceived := xExitActionJobReceived w;
                   trace := trace w |}).

Definition set_xExitActionJobReceived (b : bool) : demoM unit := fun w =>
  Returned (tt, {| eventBuffer := eventBuffer w;
                   xDemoEncounteredError := xDemoEncounteredError w;
                   xExitActionJobReceived := b;
                   trace := trace w |}).

(** Modelled from the spec: the status report sent for a job, a small JSON
    object with a status field (the macro [MAKE_STATUS_REPORT] comes from the
    demo configuration). *)
Definition MAKE_STATUS_REPORT (x : string) : cstring :=
  let q := ascii_of_nat 34 in
  lit "{" ++ [q] ++ lit "status" ++ [q] ++ lit ":" ++ [q] ++ lit x ++ [q] ++ lit "}".

Definition MQTTQoS1 : Z := 1.

(** The scan of [prvOTAEventBufferGet] over the array: the index of the
    first slot whose [bufferUsed] is false. *)
Fixpoint firstFreeBuffer (ulIndex : nat) (bufs : list OtaEventData_t)
    : option nat :=
  match bufs with
  | [] => None
  | b :: bufs' =>
      if negb (bufferUsed b) then Some ulIndex
      else firstFreeBuffer (S ulIndex) bufs'
  end.

Section Demo.

Variable democonfigCLIENT_IDENTIFIER : cstring.
Variable OTA_DATA_BLOCK_SIZE : Z.
Variable JOBS_JOBID_MAX_LENGTH : Z.
Variable ext : Externals.

(** *** Buffer pool.  A pointer into [eventBuffer] is the slot's index. *)

Definition prvOTAEventBufferFree (pxBuffer : nat) : demoM unit :=
  if ext_xSemaphoreTake ext
  then
    bufs ← get_eventBuffer;
    if bool_decide (pxBuffer < length bufs)%nat
    then put_eventBuffer (alter (set_bufferUsed false) pxBuffer bufs)
    else out_of_bounds
  else emit (Log LogError "Failed to get buffer semaphore.").

Definition prvOTAEventBufferGet : demoM (option nat) :=
  if ext_xSemaphoreTake ext
  then
    bufs ← get_eventBuffer;
    match firstFreeBuffer 0 bufs with
    | Some ulIndex =>
        put_eventBuffer (alter (set_bufferUsed true) ulIndex bufs);;
        mret (Some ulIndex)
    | None => mret None
    end
  else
    emit (Log LogError "Failed to get buffer semaphore.");;
    mret None.

Definition otaAppCallback (event : OtaJobEvent_t) (pData : option nat)
    : demoM unit :=
  match event with
  | OtaJobEventActivate =>
      emit (Log LogInfo "Received OtaJobEventActivate callback from OTA Agent.");;
      emit OTA_ActivateNewImage;;
      emit (Log LogError "New image activation failed.");;
      emit OTA_Shutdown
  | OtaJobEventFail =>
      emit (Log LogInfo "Received an OtaJobEventFail notification from OTA Agent.")
  | OtaJobEventStartTest =>
      emit (Log LogInfo "Received OtaJobEventStartTest callback from OTA Agent.");;
      emit OTA_SetImageState;;
      if ext_OTA_SetImageState ext
      then emit (Log LogInfo "New image validation succeeded in self test mode.")
      else emit (Log LogError "Failed to set image state as accepted.")
  | OtaJobEventProcessed =>
      emit (Log LogDebug "OTA Event processing completed. Freeing the event buffer to pool.");;
      configASSERT (not_NULL pData);;
      match pData with
      | Some pxBuffer => prvOTAEventBufferFree pxBuffer
      | None => mret tt
      end
  | OtaJobEventSelfTestFailed =>
      emit (Log LogDebug "Received OtaJobEventSelfTestFailed callback from OTA Agent.");;
      emit (Log LogError "OTA Self-test failed for new image. shutting down OTA Agent.");;
      emit OTA_Shutdown
  | OtaJobEventOther =>
      emit (Log LogWarn "Received an unhandled callback event from OTA Agent")
  end.

(** Stores the payload in slot [i] and sends the event to the update
    engine: the body shared by both receive callbacks once a buffer has
    been obtained. *)
Definition stage_and_signal (eventId : OtaEventId) (payload : cstring)
    (i : nat) : demoM unit :=
  bufs ← get_eventBuffer;
  put_eventBuffer (alter (fill_buffer payload) i bufs);;
  emit (OTA_SignalEvent eventId (Some i)).

Definition prvProcessIncomingData (pPublishInfo : option MQTTPublishInfo_t)
    : demoM unit :=
  configASSERT (not_NULL pPublishInfo);;
  match pPublishInfo with
  | None => mret tt
  | Some info =>
      emit (Log LogDebug "Received OTA image block.");;
      configASSERT (payloadLength info <=? OTA_DATA_BLOCK_SIZE);;
      pData ← prvOTAEventBufferGet;
      match pData with
      | Some i =>
          stage_and_signal OtaAgentEventReceivedFileBlock
            (default [] (pPayload info)) i
      | None => emit (Log LogError "Error: No OTA data buffers available.")
      end
  end.

(** *** Command bridge *)

(** [Some st] from the wait means the agent ran the completion callback
    [prvCommandCallback] with return code [st]; the callback only passes
    the code on as the notification value. *)
Definition xTaskNotifyWait_publish : demoM (option MQTTStatus_t) :=
  mret (ext_xTaskNotifyWait ext).

Definition prvSubscriptionCommandCallback (isSubscribe : bool)
    (pTopicFilter : cstring)
    (pxIncomingPublishCallback : option IncomingPubCallback_t)
    (returnCode : MQTTStatus_t) : demoM unit :=
  if MQTTStatus_eqb returnCode MQTTSuccess
  then
    if isSubscribe
    then
      emit (addSubscription pTopicFilter pxIncomingPublishCallback);;
      if ext_addSubscription ext then mret tt
      else emit (Log LogError "Failed to register an incoming publish callback for topic.")
    else emit (removeSubscription pTopicFilter)
  else mret tt.

(** The wait of subscribe and unsubscribe: when the completion arrives
    within the bound, [prvSubscriptionCommandCallback] has run on the
    agent's side before the task is woken. *)
Definition xTaskNotifyWait_subscription (isSubscribe : bool)
    (pTopicFilter : cstring) (cb : option IncomingPubCallback_t)
    : demoM (option MQTTStatus_t) :=
  match ext_xTaskNotifyWait ext with
  | Some st =>
      prvSubscriptionCommandCallback isSubscribe pTopicFilter cb st;;
      mret (Some st)
  | None => mret None
  end.

Definition prvSubscribeToTopic (xQoS : Z) (pcTopicFilter : cstring)
    (pCallback : IncomingPubCallback_t) : demoM MQTTStatus_t :=
  emit (Log LogInfo "Subscribing to topic filter");;
  emit (MQTTAgent_Subscribe pcTopicFilter xQoS);;
  let mqttStatus := ext_MQTTAgent_Subscribe ext in
  if MQTTStatus_eqb mqttStatus MQTTSuccess
  then
    result ← xTaskNotifyWait_subscription true pcTopicFilter (Some pCallback);
    match result with
    | Some ulNotifiedValue => mret ulNotifiedValue
    | None => mret MQTTRecvFailed
    end
  else mret mqttStatus.

Definition otaMessageCallback : list IncomingPubCallback_t :=
  [cb_prvProcessIncomingJobMessage; cb_prvProcessIncomingData].

Definition prvMQTTSubscribe (pTopicFilter : option cstring)
    (topicFilterLength : Z) (ucQoS : Z) : demoM OtaMqttStatus_t :=
  configASSERT (not_NULL pTopicFilter);;
  configASSERT (0 <? topicFilterLength);;
  let filter := default [] pTopicFilter in
  match getOtaMessageType democonfigCLIENT_IDENTIFIER filter topicFilterLength with
  | None => out_of_bounds
  | Some otaMessageType =>
      configASSERT (OtaMessageType_to_Z otaMessageType
                    <? OtaMessageType_to_Z OtaNumOfMessageType);;
      match otaMessageCallback !! Z.to_nat (OtaMessageType_to_Z otaMessageType) with
      | None => out_of_bounds
      | Some cb =>
          mqttStatus ← prvSubscribeToTopic ucQoS filter cb;
          if negb (MQTTStatus_eqb mqttStatus MQTTSuccess)
          then
            emit (LogStatus LogError "Failed to SUBSCRIBE to topic with error" mqttStatus);;
            mret OtaMqttSubscribeFailed
          else
            emit (Log LogInfo "SUBSCRIBE topic to broker.");;
            mret OtaMqttSuccess
      end
  end.

(** The value of [mqttStatus] in [prvMQTTPublish] after the enqueue and
    the bounded wait. *)
Definition prvMQTTPublish_mqttStatus (pacTopic pMsg : cstring) (qos : Z)
    : demoM MQTTStatus_t :=
  emit (MQTTAgent_Publish pacTopic pMsg qos);;
  let mqttStatus := ext_MQTTAgent_Publish ext in
  if MQTTStatus_eqb mqttStatus MQTTSuccess
  then
    result ← xTaskNotifyWait_publish;
    match result with
    | None => mret MQTTSendFailed
    | Some ulNotifiedValue => mret ulNotifiedValue
    end
  else mret mqttStatus.

Definition prvMQTTPublish (pacTopic pMsg : cstring) (qos : Z)
    : demoM OtaMqttStatus_t :=
  mqttStatus ← prvMQTTPublish_mqttStatus pacTopic pMsg qos;
  if negb (MQTTStatus_eqb mqttStatus MQTTSuccess)
  then
    emit (LogStatus LogError "Failed to send PUBLISH packet to broker with error" mqttStatus);;
    mret OtaMqttPublishFailed
  else
    emit (Log LogInfo "Sent PUBLISH packet to broker.");;
    mret OtaMqttSuccess.

Definition prvUnSubscribeFromTopic (xQoS : Z) (pcTopicFilter : cstring)
    : demoM MQTTStatus_t :=
  emit (Log LogInfo "Unsubscribing to topic filter");;
  emit (MQTTAgent_Unsubscribe pcTopicFilter xQoS);;
  let mqttStatus := ext_MQTTAgent_Unsubscribe ext in
  if MQTTStatus_eqb mqttStatus MQTTSuccess
  then
    result ← xTaskNotifyWait_subscription false pcTopicFilter None;
    match result with
    | Some ulNotifiedValue => mret ulNotifiedValue
    | None => mret MQTTRecvFailed
    end
  else mret mqttStatus.

Definition prvMQTTUnsubscribe (pTopicFilter : option cstring)
    (topicFilterLength : Z) (ucQoS : Z) : demoM OtaMqttStatus_t :=
  configASSERT (not_NULL pTopicFilter);;
  configASSERT (0 <? topicFilterLength);;
  mqttStatus ← prvUnSubscribeFromTopic ucQoS (default [] pTopicFilter);
  if negb (MQTTStatus_eqb mqttStatus MQTTSuccess)
  then
    emit (LogStatus LogError "Failed to UNSUBSCRIBE from topic with error" mqttStatus);;
    mret OtaMqttUnsubscribeFailed
  else
    emit (Log LogInfo "UNSUBSCRIBED from topic.");;
    mret OtaMqttSuccess.

(** *** Job action dispatcher.  A buffer handed over as pointer and length
    is one optional string: [None] is the NULL pointer and the length is
    the string's. *)

Definition strlenZ (p : option cstring) : Z :=
  Z.of_nat (length (default [] p)).

Definition prvSendUpdateForJob (pcJobId : option cstring)
    (pcJobStatusReport : option cstring) : demoM unit :=
  configASSERT (not_NULL pcJobId && (0 <? strlenZ pcJobId));;
  configASSERT (not_NULL pcJobStatusReport);;
  match ext_Jobs_Update ext democonfigCLIENT_IDENTIFIER (default [] pcJobId) with
  | Some pUpdateJobTopic =>
      (* The status of the enqueue and of the wait is computed by the
         source and then dropped: the function returns nothing. *)
      emit (MQTTAgent_Publish pUpdateJobTopic (default [] pcJobStatusReport)
              MQTTQoS1)
  | None =>
      emit (Log LogError "Failed to generate Publish topic string for sending job update")
  end.

Definition prvProcessJobDocument (pcJobId pcJobDocument : option cstring)
    : demoM unit :=
  configASSERT (not_NULL pcJobId);;
  configASSERT (0 <? strlenZ pcJobId);;
  configASSERT (not_NULL pcJobDocument);;
  configASSERT (0 <? strlenZ pcJobDocument);;
  let doc := default [] pcJobDocument in
  match ext_JSON_Search ext doc jobsexampleQUERY_KEY_FOR_ACTION with
  | None =>
      emit (Log LogError "Job document schema is invalid. Missing expected action key in document.");;
      prvSendUpdateForJob pcJobId (Some (MAKE_STATUS_REPORT "FAILED"))
  | Some pcAction =>
      match prvGetAction pcAction (length pcAction) with
      | JOB_ACTION_EXIT =>
          emit (Log LogInfo "Received job contains exit action. Updating state of demo.");;
          set_xExitActionJobReceived true;;
          prvSendUpdateForJob pcJobId (Some (MAKE_STATUS_REPORT "SUCCEEDED"));;
          emit MQTTAgent_Terminate
      | JOB_ACTION_PRINT =>
          emit (Log LogInfo "Received job contains print action.");;
          match ext_JSON_Search ext doc jobsexampleQUERY_KEY_FOR_MESSAGE with
          | Some pcMessage =>
              emit (Log LogInfo (string_of_list_ascii pcMessage));;
              prvSendUpdateForJob pcJobId (Some (MAKE_STATUS_REPORT "SUCCEEDED"))
          | None =>
              emit (Log LogError "Job document schema is invalid. Missing message for print action type.");;
              prvSendUpdateForJob pcJobId (Some (MAKE_STATUS_REPORT "FAILED"))
          end
      | JOB_ACTION_PUBLISH =>
          emit (Log LogInfo "Received job contains publish action.");;
          match ext_JSON_Search ext doc jobsexampleQUERY_KEY_FOR_TOPIC with
          | None =>
              emit (Log LogError "Job document schema is invalid. Missing topic key for publish action type.");;
              prvSendUpdateForJob pcJobId (Some (MAKE_STATUS_REPORT "FAILED"))
          | Some pcTopic =>
              match ext_JSON_Search ext doc jobsexampleQUERY_KEY_FOR_MESSAGE with
              | Some pcMessage =>
                  emit (xPublishToTopic pcTopic pcMessage);;
                  (if ext_xPublishToTopic ext then mret tt
                   else
                     set_xDemoEncounteredError true;;
                     emit (Log LogError "Failed to execute job with publish action: Failed to publish to topic."));;
                  prvSendUpdateForJob pcJobId (Some (MAKE_STATUS_REPORT "SUCCEEDED"))
              | None =>
                  emit (Log LogError "Job document schema is invalid. Missing message key for publish action type.");;
                  prvSendUpdateForJob pcJobId (Some (MAKE_STATUS_REPORT "FAILED"))
              end
          end
      | JOB_ACTION_UNKNOWN =>
          emit (Log configPRINTF "Received Job document with unknown action")
      end
  end.

(** The cast of a [size_t] length to the [uint16_t] parameter of
    [prvProcessJobDocument]. *)
Definition truncate16 (s : cstring) : cstring :=
  take (Z.to_nat (uint16_t (Z.of_nat (length s)))) s.

Definition prvNextJobHandler (pxPublishInfo : option MQTTPublishInfo_t)
    : demoM unit :=
  configASSERT (not_NULL pxPublishInfo);;
  match pxPublishInfo with
  | None => mret tt
  | Some info =>
      configASSERT (not_NULL (pPayload info)
                    && (0 <? payloadLength info));;
      let payload := default [] (pPayload info) in
      if negb (ext_JSON_Validate ext payload)
      then emit (Log LogError "Received invalid JSON payload from AWS IoT Jobs service")
      else
        match ext_JSON_Search ext payload jobsexampleQUERY_KEY_FOR_JOB_ID with
        | None =>
            emit (Log LogWarn "Failed to parse Job ID in message received from AWS IoT Jobs service")
        | Some pcJobId =>
            configASSERT (Z.of_nat (length pcJobId) <? JOBS_JOBID_MAX_LENGTH);;
            emit (Log LogInfo "Received a Job from AWS IoT Jobs service");;
            match ext_JSON_Search ext payload jobsexampleQUERY_KEY_FOR_JOBS_DOC with
            | None =>
                emit (Log LogWarn "Failed to parse document of next job received from AWS IoT Jobs service")
            | Some pcJobDocLoc =>
                prvProcessJobDocument (Some (truncate16 pcJobId))
                  (Some (truncate16 pcJobDocLoc))
            end
        end
  end.

(** *** Inbound dispatch of job messages *)

Definition prvProcessIncomingJobMessage
    (pPublishInfo : option MQTTPublishInfo_t) : demoM unit :=
  configASSERT (not_NULL pPublishInfo);;
  match pPublishInfo with
  | None => mret tt
  | Some info =>
      emit (Log LogInfo "Received job message callback.");;
      configASSERT (payloadLength info <=? OTA_DATA_BLOCK_SIZE);;
      (* Determine if this is an OTA or a custom job. *)
      let m := ext_Jobs_MatchTopic ext (pTopicName info)
                 democonfigCLIENT_IDENTIFIER in
      let api := match_api m in
      configASSERT (match match_status m with JobsSuccess => true | _ => false end);;
      (* The third argument of [strncmp] is the value of the comparison
         [strlen( "AFR_OTA" ) == 0], as the source brackets it. *)
      if negb (strncmp (default [] (match_pJobId m)) (lit "AFR_OTA")
                 (if Nat.eqb (strlen (lit "AFR_OTA")) 0 then 1%nat else 0%nat)
               =? 0)
      then
        pData ← prvOTAEventBufferGet;
        match pData with
        | Some i =>
            stage_and_signal OtaAgentEventReceivedJobDocument
              (default [] (pPayload info)) i
        | None => emit (Log LogError "Error: No OTA data buffers available.")
        end
      else
        match api with
        | JobsDescribeSuccess | JobsNextJobChanged =>
            prvNextJobHandler pPublishInfo
        | JobsUpdateSuccess =>
            emit (Log LogInfo "Job update status request has been accepted by AWS Iot Jobs service.")
        | JobsStartNextFailed =>
            emit (Log LogWarn "Request for next job description rejected.")
        | JobsUpdateFailed =>
            emit (Log LogWarn "Request for job update rejected.");;
            emit (Log LogError "Terminating demo as request to update job status has been rejected by AWS IoT Jobs service...")
        | JobsOtherTopic =>
            emit (Log LogWarn "Received an unexpected messages from AWS IoT Jobs service")
        end
  end.

End Demo.

(** * Vocabulary of the properties *)

(** The text up to the first slash. *)
Fixpoint segment (s : cstring) : cstring :=
  match s with
  | [] => []
  | c :: s' => if Ascii.eqb c "/"%char then [] else c :: segment s'
  end.

(** The text after the slash that ends the first segment. *)
Definition after_segment (s : cstring) : cstring :=
  drop (S (length (segment s))) s.

Definition thing_segment (topic : cstring) : cstring :=
  segment (drop (length OTA_TOPIC_PREFIX) topic).

Definition category_segment (topic : cstring) : cstring :=
  segment (after_segment (drop (length OTA_TOPIC_PREFIX) topic)).

(** The state after more events and with another pool. *)
Definition emitted (es : list Event) (w : World) : World :=
  {| eventBuffer := eventBuffer w;
     xDemoEncounteredError := xDemoEncounteredError w;
     xExitActionJobReceived := xExitActionJobReceived w;
     trace := trace w ++ es |}.

Definition with_eventBuffer (bufs : list OtaEventData_t) (w : World) : World :=
  {| eventBuffer := bufs;
     xDemoEncounteredError := xDemoEncounteredError w;
     xExitActionJobReceived := xExitActionJobReceived w;
     trace := trace w |}.

Definition all_used (bufs : list OtaEventData_t) : Prop :=
  Forall (fun b => bufferUsed b = true) bufs.

Definition all_free (bufs : list OtaEventData_t) : Prop :=
  Forall (fun b => bufferUsed b = false) bufs.

(** [n] acquires in a row, with the handles they return. *)
Fixpoint acquire_n (ext : Externals) (n : nat) : demoM (list (option nat)) :=
  match n with
  | O => mret []
  | S n' =>
      h ← prvOTAEventBufferGet ext;
      hs ← acquire_n ext n';
      mret (h :: hs)
  end.

(** Sample inputs: every external call succeeds, except that no completion
    arrives within the bound of the wait. *)
Definition sample_JobsMatch : JobsMatch :=
  {| match_status := JobsSuccess;
     match_api := JobsUpdateSuccess;
     match_pJobId := Some (lit "AFR_OTA-demo");
     match_jobIdLength := 12 |}.

Definition ext_timeout : Externals :=
  {| ext_xSemaphoreTake := true;
     ext_MQTTAgent_Publish := MQTTSuccess;
     ext_MQTTAgent_Subscribe := MQTTSuccess;
     ext_MQTTAgent_Unsubscribe := MQTTSuccess;
     ext_xTaskNotifyWait := None;
     ext_addSubscription := true;
     ext_xPublishToTopic := true;
     ext_OTA_SetImageState := true;
     ext_Jobs_Update := fun thing jobId =>
       Some (OTA_TOPIC_PREFIX ++ thing ++ lit "/jobs/" ++ jobId ++ lit "/update");
     ext_Jobs_MatchTopic := fun _ _ => sample_JobsMatch;
     ext_JSON_Validate := fun _ => true;
     ext_JSON_Search := fun _ _ => None |}.

Definition free_slot : OtaEventData_t :=
  {| data := []; dataLength := 0; bufferUsed := false |}.

(** The state after start-up with a pool of [n] slots. *)
Definition fresh_world (n : nat) : World :=
  {| eventBuffer := replicate n free_slot;
     xDemoEncounteredError := false;
     xExitActionJobReceived := false;
     trace := [] |}.

Definition ext_refused : Externals :=
  {| ext_xSemaphoreTake := true;
     ext_MQTTAgent_Publish := MQTTBadParameter;
     ext_MQTTAgent_Subscribe := MQTTBadParameter;
     ext_MQTTAgent_Unsubscribe := MQTTBadParameter;
     ext_xTaskNotifyWait := None;
     ext_addSubscription := true;
     ext_xPublishToTopic := false;
     ext_OTA_SetImageState := true;
     ext_Jobs_Update := fun _ _ => None;
     ext_Jobs_MatchTopic := fun _ _ => sample_JobsMatch;
     ext_JSON_Validate := fun _ => true;
     ext_JSON_Search := fun _ _ => None |}.

(** The one event [prvSendUpdateForJob] adds to the trace.  Only in the
    first case is a status handed to the agent: the publish of the report on
    the job's update topic at QoS 1.  When the jobs library cannot build
    that topic the event is the log line of that failure, and no status is
    reported. *)
Definition report_event (thing : cstring) (ext : Externals)
    (jobId report : cstring) : Event :=
  match ext_Jobs_Update ext thing jobId with
  | Some pUpdateJobTopic => MQTTAgent_Publish pUpdateJobTopic report MQTTQoS1
  | None =>
      Log LogError "Failed to generate Publish topic string for sending job update"
  end.

Definition error_flagged (w : World) : World :=
  {| eventBuffer := eventBuffer w;
     xDemoEncounteredError := true;
     xExitActionJobReceived := xExitActionJobReceived w;
     trace := trace w |}.

(** A job document, as the answers of the JSON search for its fields. *)
Definition json_fields (fields : list (QueryKey * cstring))
    (_ : cstring) (key : QueryKey) : option cstring :=
  snd <$> find (fun kv =>
    match fst kv, key with
    | jobsexampleQUERY_KEY_FOR_ACTION, jobsexampleQUERY_KEY_FOR_ACTION
    | jobsexampleQUERY_KEY_FOR_MESSAGE, jobsexampleQUERY_KEY_FOR_MESSAGE
    | jobsexampleQUERY_KEY_FOR_TOPIC, jobsexampleQUERY_KEY_FOR_TOPIC
    | jobsexampleQUERY_KEY_FOR_JOB_ID, jobsexampleQUERY_KEY_FOR_JOB_ID
    | jobsexampleQUERY_KEY_FOR_JOBS_DOC, jobsexampleQUERY_KEY_FOR_JOBS_DOC => true
    | _, _ => false
    end) fields.

Definition with_JSON_Search (search : cstring -> QueryKey -> option cstring)
    (ext : Externals) : Externals :=
  {| ext_xSemaphoreTake := ext_xSemaphoreTake ext;
     ext_MQTTAgent_Publish := ext_MQTTAgent_Publish ext;
     ext_MQTTAgent_Subscribe := ext_MQTTAgent_Subscribe ext;
     ext_MQTTAgent_Unsubscribe := ext_MQTTAgent_Unsubscribe ext;
     ext_xTaskNotifyWait := ext_xTaskNotifyWait ext;
     ext_addSubscription := ext_addSubscription ext;
     ext_xPublishToTopic := ext_xPublishToTopic ext;
     ext_OTA_SetImageState := ext_OTA_SetImageState ext;
     ext_Jobs_Update := ext_Jobs_Update ext;
     ext_Jobs_MatchTopic := ext_Jobs_MatchTopic ext;
     ext_JSON_Validate := ext_JSON_Validate ext;
     ext_JSON_Search := search |}.

(** The job document with the single field action, of value bogus. *)
Definition ext_bogus_job : Externals :=
  with_JSON_Search
    (json_fields [(jobsexampleQUERY_KEY_FOR_ACTION, lit "bogus")]) ext_timeout.

(** A job that relays the message hello to the topic demo/out, while the
    relay publish fails. *)
Definition ext_publish_job : Externals :=
  with_JSON_Search
    (json_fields [(jobsexampleQUERY_KEY_FOR_ACTION, lit "publish");
                  (jobsexampleQUERY_KEY_FOR_TOPIC, lit "demo/out");
                  (jobsexampleQUERY_KEY_FOR_MESSAGE, lit "hello")])
    {| ext_xSemaphoreTake := true;
       ext_MQTTAgent_Publish := MQTTSuccess;
       ext_MQTTAgent_Subscribe := MQTTSuccess;
       ext_MQTTAgent_Unsubscribe := MQTTSuccess;
       ext_xTaskNotifyWait := Some MQTTSuccess;
       ext_addSubscription := true;
       ext_xPublishToTopic := false;
       ext_OTA_SetImageState := true;
       ext_Jobs_Update := ext_Jobs_Update ext_timeout;
       ext_Jobs_MatchTopic := fun _ _ => sample_JobsMatch;
       ext_JSON_Validate := fun _ => true;
       ext_JSON_Search := fun _ _ => None |}.

(** A computation that leaves the pool as it found it. *)
Definition keeps_pool {A : Type} (m : demoM A) : Prop :=
  forall w a w', m w = Returned (a, w') -> eventBuffer w' = eventBuffer w.

Definition sample_job_message : MQTTPublishInfo_t :=
  {| pTopicName := lit "$aws/things/dev1/jobs/AFR_OTA-demo/update/accepted";
     pPayload := Some (lit "{}") |}.

(** What makes the classifier accept a topic under a keyword: the prefix,
    a thing-name segment that is a non-empty beginning of the device's name,
    and a category segment that is a non-empty beginning of the keyword. *)
Definition accepted_under (thing keyword topic : cstring) : Prop :=
  OTA_TOPIC_PREFIX `prefix_of` topic
  /\ thing_segment topic <> []
  /\ thing_segment topic `prefix_of` thing
  /\ category_segment topic <> []
  /\ category_segment topic `prefix_of` keyword.

(** Every call succeeds and is acknowledged, except that the subscription
    registry refuses new entries. *)
Definition ext_acknowledged : Externals :=
  {| ext_xSemaphoreTake := true;
     ext_MQTTAgent_Publish := MQTTSuccess;
     ext_MQTTAgent_Subscribe := MQTTSuccess;
     ext_MQTTAgent_Unsubscribe := MQTTSuccess;
     ext_xTaskNotifyWait := Some MQTTSuccess;
     ext_addSubscription := false;
     ext_xPublishToTopic := true;
     ext_OTA_SetImageState := true;
     ext_Jobs_Update := ext_Jobs_Update ext_timeout;
     ext_Jobs_MatchTopic := fun _ _ => sample_JobsMatch;
     ext_JSON_Validate := fun _ => true;
     ext_JSON_Search := fun _ _ => None |}.

(** The events that are log lines. *)
Definition is_log (e : Event) : bool :=
  match e with
  | Log _ _ | LogStatus _ _ _ => true
  | _ => false
  end.

(** The publish commands handed to the agent. *)
Definition is_agent_publish (e : Event) : bool :=
  match e with
  | MQTTAgent_Publish _ _ _ => true
  | _ => false
  end.

(** The events sent to the update engine. *)
Definition is_signal (e : Event) : bool :=
  match e with
  | OTA_SignalEvent _ _ => true
  | _ => false
  end.

Definition exit_flagged (w : World) : World :=
  {| eventBuffer := eventBuffer w;
     xDemoEncounteredError := xDemoEncounteredError w;
     xExitActionJobReceived := true;
     trace := trace w |}.

(** A computation that only adds events of one kind to the trace. *)
Definition only_emits {A : Type} (P : Event -> bool) (m : demoM A) : Prop :=
  forall w a w', m w = Returned (a, w') ->
    exists es, trace w' = trace w ++ es /\ forallb P es = true.

(** A job whose action is a beginning of print, with a message. *)
Definition ext_print_job : Externals :=
  with_JSON_Search
    (json_fields [(jobsexampleQUERY_KEY_FOR_ACTION, lit "pri");
                  (jobsexampleQUERY_KEY_FOR_MESSAGE, lit "hi")])
    ext_timeout.

(** A job with the exit action. *)
Definition ext_exit_job : Externals :=
  with_JSON_Search
    (json_fields [(jobsexampleQUERY_KEY_FOR_ACTION, lit "exit")]) ext_timeout.

(** A job message whose payload passes the JSON check and carries the job
    identifier job-1 but no job document. *)
Definition ext_no_document : Externals :=
  with_JSON_Search
    (json_fields [(jobsexampleQUERY_KEY_FOR_JOB_ID, lit "job-1")]) ext_timeout.

(** A job message that carries the job identifier job-1 and a document with
    the exit action. *)
Definition ext_exit_message : Externals :=
  with_JSON_Search
    (json_fields [(jobsexampleQUERY_KEY_FOR_JOB_ID, lit "job-1");
                  (jobsexampleQUERY_KEY_FOR_JOBS_DOC, lit "{action:exit}");
                  (jobsexampleQUERY_KEY_FOR_ACTION, lit "exit")]) ext_timeout.

Definition sample_next_job : MQTTPublishInfo_t :=
  {| pTopicName := lit "$aws/things/dev1/jobs/notify-next";
     pPayload := Some (lit "{execution:{jobId:job-1}}") |}.

(** The events other than those sent to the update engine. *)
Definition not_signal (e : Event) : bool := negb (is_signal e).

(** The job message of the samples, answered by the jobs library as a
    rejected status update. *)
Definition ext_update_rejected : Externals :=
  {| ext_xSemaphoreTake := true;
     ext_MQTTAgent_Publish := MQTTSuccess;
     ext_MQTTAgent_Subscribe := MQTTSuccess;
     ext_MQTTAgent_Unsubscribe := MQTTSuccess;
     ext_xTaskNotifyWait := Some MQTTSuccess;
     ext_addSubscription := true;
     ext_xPublishToTopic := true;
     ext_OTA_SetImageState := true;
     ext_Jobs_Update := ext_Jobs_Update ext_timeout;
     ext_Jobs_MatchTopic := fun _ _ =>
       {| match_status := JobsSuccess;
          match_api := JobsUpdateFailed;
          match_pJobId := Some (lit "job-1");
          match_jobIdLength := 5 |};
     ext_JSON_Validate := fun _ => true;
     ext_JSON_Search := fun _ _ => None |}.

(** The jobs library does not match the topic of the message. *)
Definition ext_no_match : Externals :=
  {| ext_xSemaphoreTake := true;
     ext_MQTTAgent_Publish := MQTTSuccess;
     ext_MQTTAgent_Subscribe := MQTTSuccess;
     ext_MQTTAgent_Unsubscribe := MQTTSuccess;
     ext_xTaskNotifyWait := Some MQTTSuccess;
     ext_addSubscription := true;
     ext_xPublishToTopic := true;
     ext_OTA_SetImageState := true;
     ext_Jobs_Update := ext_Jobs_Update ext_timeout;
     ext_Jobs_MatchTopic := fun _ _ =>
       {| match_status := JobsNoMatch;
          match_api := JobsOtherTopic;
          match_pJobId := None;
          match_jobIdLength := 0 |};
     ext_JSON_Validate := fun _ => true;
     ext_JSON_Search := fun _ _ => None |}.

(** * The life cycle of the demo tasks

    [vSuspendOTACodeSigningDemo], [vResumeOTACodeSigningDemo] and
    [prvOTADemoTask] poll the state of the update engine.  A run is given
    the answers of the successive calls of [OTA_GetState]; it ends with the
    calls it made to the engine and the kernel and the answers it did not
    use, or with [None] when it is still polling after the last answer. *)

(** The states the source tests for; every other state of the engine is
    [OtaAgentStateOther]. *)
Inductive OtaState_t : Set :=
| OtaAgentStateSuspended
| OtaAgentStateStopped
| OtaAgentStateOther.

Definition OtaState_eqb (a b : OtaState_t) : bool :=
  match a, b with
  | OtaAgentStateSuspended, OtaAgentStateSuspended => true
  | OtaAgentStateStopped, OtaAgentStateStopped => true
  | OtaAgentStateOther, OtaAgentStateOther => true
  | _, _ => false
  end.

Definition otaexampleTASK_DELAY_MS : Z := 1000.

(** A call of a task to the engine or the kernel; [DemoEvent] carries the
    log lines and the events sent to the engine. *)
Inductive TaskCall : Type :=
| DemoEvent (e : Event)
| xSemaphoreCreateMutex
| OTA_Init
| xTaskCreate (name : string)
| OTA_GetStatistics
| vTaskDelay (ms : Z)
| vTaskDelete
| OTA_Suspend
| OTA_Resume.

Definition polled (A : Type) : Type :=
  list OtaState_t -> option (A * list OtaState_t).

Definition OTA_GetState : polled OtaState_t := fun answers =>
  match answers with
  | [] => None
  | s :: rest => Some (s, rest)
  end.

(** The condition
    [( OTA_GetState() != OtaAgentStateSuspended ) && ( OTA_GetState() != OtaAgentStateStopped )]:
    two calls, the second made only when the first comparison holds. *)
Definition neither_suspended_nor_stopped : polled bool := fun answers =>
  match OTA_GetState answers with
  | None => None
  | Some (s1, rest) =>
      if negb (OtaState_eqb s1 OtaAgentStateSuspended)
      then
        match OTA_GetState rest with
        | None => None
        | Some (s2, rest') =>
            Some (negb (OtaState_eqb s2 OtaAgentStateStopped), rest')
        end
      else Some (false, rest)
  end.

(** The loop of [vSuspendOTACodeSigningDemo].  Every iteration uses an
    answer, so as many iterations as there are answers, and one more, are
    always enough. *)
Fixpoint suspend_loop (fuel : nat) (answers : list OtaState_t)
    (calls : list TaskCall) : option (list TaskCall * list OtaState_t) :=
  match fuel with
  | O => None
  | S fuel' =>
      match neither_suspended_nor_stopped answers with
      | None => None
      | Some (true, rest) =>
          suspend_loop fuel' rest (calls ++ [vTaskDelay otaexampleTASK_DELAY_MS])
      | Some (false, rest) => Some (calls, rest)
      end
  end.

Definition vSuspendOTACodeSigningDemo (answers : list OtaState_t)
    : option (list TaskCall * list OtaState_t) :=
  match neither_suspended_nor_stopped answers with
  | None => None
  | Some (true, rest) => suspend_loop (S (length rest)) rest [OTA_Suspend]
  | Some (false, rest) => Some ([], rest)
  end.

(** The loop [while( OTA_GetState() == OtaAgentStateSuspended )]. *)
Fixpoint resume_loop (answers : list OtaState_t) (calls : list TaskCall)
    : option (list TaskCall * list OtaState_t) :=
  match answers with
  | [] => None
  | s :: rest =>
      if OtaState_eqb s OtaAgentStateSuspended
      then resume_loop rest (calls ++ [vTaskDelay otaexampleTASK_DELAY_MS])
      else Some (calls, rest)
  end.

Definition vResumeOTACodeSigningDemo (answers : list OtaState_t)
    : option (list TaskCall * list OtaState_t) :=
  match OTA_GetState answers with
  | None => None
  | Some (s, rest) =>
      if OtaState_eqb s OtaAgentStateSuspended
      then resume_loop rest [OTA_Resume]
      else Some ([], rest)
  end.

(** What the start-up calls of [prvOTADemoTask] answer: whether the mutex
    was created, whether [OTA_Init] returned [OtaErrNone], whether
    [xTaskCreate] returned [pdPASS]. *)
Record TaskExternals : Type := mkTaskExternals {
  ext_xSemaphoreCreateMutex : bool;
  ext_OTA_Init : bool;
  ext_xTaskCreate : bool
}.

(** [memset( eventBuffer, 0x00, sizeof( eventBuffer ) )]. *)
Definition memset_zero (b : OtaEventData_t) : OtaEventData_t :=
  {| data := replicate (length (data b)) NUL;
     dataLength := 0;
     bufferUsed := false |}.

(** One round of the loop of [prvOTADemoTask]. *)
Definition statistics_round : list TaskCall :=
  [OTA_GetStatistics;
   DemoEvent (Log LogInfo "Received: Queued: Processed: Dropped:");
   vTaskDelay otaexampleTASK_DELAY_MS].

(** The loop [while( ( state = OTA_GetState() ) != OtaAgentStateStopped )]. *)
Fixpoint statistics_loop (answers : list OtaState_t) (calls : list TaskCall)
    : option (list TaskCall * list OtaState_t) :=
  match answers with
  | [] => None
  | s :: rest =>
      if negb (OtaState_eqb s OtaAgentStateStopped)
      then statistics_loop rest (calls ++ statistics_round)
      else Some (calls, rest)
  end.

(** [prvOTADemoTask], on the pool and the answers of [OTA_GetState]; the
    wiring of the interface tables by [setOtaInterfaces] has no part in
    it. *)
Definition prvOTADemoTask (text : TaskExternals) (pool : list OtaEventData_t)
    (answers : list OtaState_t)
    : option (list OtaEventData_t * list TaskCall * list OtaState_t) :=
  let calls :=
    [DemoEvent (Log LogInfo "OTA over MQTT demo, Application version");
     xSemaphoreCreateMutex] in
  let xResult := ext_xSemaphoreCreateMutex text in
  let '(xResult, pool, calls) :=
    if xResult
    then
      if ext_OTA_Init text
      then (true, memset_zero <$> pool, calls ++ [OTA_Init])
      else (false, memset_zero <$> pool,
            calls ++ [OTA_Init;
                      DemoEvent (Log LogError "Failed to initialize OTA Agent, exiting")])
    else (false, pool, calls) in
  let '(xResult, calls) :=
    if xResult
    then
      if ext_xTaskCreate text
      then (true, calls ++ [xTaskCreate "OTAAgentTask"])
      else (false,
            calls ++ [xTaskCreate "OTAAgentTask";
                      DemoEvent (Log LogError "Failed to start OTA Agent task")])
    else (false, calls) in
  match
    (if xResult
     then statistics_loop answers
            (calls ++ [DemoEvent (OTA_SignalEvent OtaAgentEventStart None)])
     else Some (calls, answers))
  with
  | None => None
  | Some (calls, rest) =>
      Some (pool,
            calls ++ [DemoEvent (Log LogInfo "OTA agent task stopped. Exiting OTA demo.");
                      vTaskDelete],
            rest)
  end.

(** The loop, entered after [j] further polls that find the engine in
    another state. *)
Definition suspend_loop_returns_after (j : nat) : Prop :=
  forall (fuel : nat) (tail : list OtaState_t) (calls : list TaskCall),
    (j < fuel)%nat ->
    suspend_loop fuel
      (replicate j OtaAgentStateOther
       ++ OtaAgentStateSuspended :: OtaAgentStateSuspended :: tail) calls
    = Some (calls ++ replicate (Nat.div2 (S j))
                       (vTaskDelay otaexampleTASK_DELAY_MS),
            if Nat.even j then OtaAgentStateSuspended :: tail else tail).

(** * Properties *)

(** ** Strings *)

Lemma uchar_diff (c1 c2 : ascii) : c1 <> c2 -> uchar c1 - uchar c2 <> 0.
Proof.
  intros Hne Hz. apply Hne.
  rewrite <- (ascii_nat_embedding c1), <- (ascii_nat_embedding c2).
  f_equal. unfold uchar in Hz. lia.
Qed.

Lemma strncmp_step_diff (c1 c2 : ascii) :
  Ascii.eqb c1 c2 = false -> (uchar c1 - uchar c2 =? 0) = false.
Proof.
  intros H. apply Z.eqb_neq, uchar_diff. intros ->.
  rewrite Ascii.eqb_refl in H. discriminate.
Qed.

(** A string compares equal to anything that starts with it, over its own
    length. *)
Lemma strncmp_app_same (s r1 r2 : cstring) :
  strncmp (s ++ r1) (s ++ r2) (length s) = 0.
Proof.
  induction s as [|c s IH]; simpl; [reflexivity|].
  rewrite Ascii.eqb_refl. destruct (Ascii.eqb c NUL); [reflexivity|apply IH].
Qed.

Lemma strncmp_S (s1 s2 : cstring) (n : nat) :
  strncmp s1 s2 (S n) =
  if Ascii.eqb (hd NUL s1) (hd NUL s2)
  then if Ascii.eqb (hd NUL s1) NUL then 0 else strncmp (tl s1) (tl s2) n
  else uchar (hd NUL s1) - uchar (hd NUL s2).
Proof. reflexivity. Qed.

(** Over the length of a key without NUL, [strncmp] accepts exactly the
    strings that start with the key. *)
Lemma strncmp_zero_prefix (k t : cstring) :
  NUL ∉ k -> strncmp t k (length k) = 0 -> k `prefix_of` t.
Proof.
  revert t. induction k as [|c k IH]; intros t Hnul H.
  - apply prefix_nil.
  - apply not_elem_of_cons in Hnul as [Hc Hk].
    cbn [length] in H. rewrite strncmp_S in H. cbn [hd tl] in H.
    destruct (Ascii.eqb (hd NUL t) c) eqn:E.
    + apply Ascii.eqb_eq in E.
      destruct t as [|d t]; cbn [hd tl] in *; [congruence|]. subst d.
      destruct (Ascii.eqb c NUL) eqn:E0.
      { apply Ascii.eqb_eq in E0. congruence. }
      apply prefix_cons, IH; assumption.
    + exfalso. revert H. apply Z.eqb_neq, strncmp_step_diff, E.
Qed.

Lemma OTA_TOPIC_PREFIX_no_NUL : NUL ∉ OTA_TOPIC_PREFIX.
Proof.
  unfold OTA_TOPIC_PREFIX, lit; simpl.
  rewrite !not_elem_of_cons. repeat split; try discriminate.
  apply not_elem_of_nil.
Qed.

Lemma prefix_check_spec (topic : cstring) :
  (strncmp topic OTA_TOPIC_PREFIX (Z.to_nat OTA_TOPIC_PREFIX_LENGTH) =? 0) = true
  <-> OTA_TOPIC_PREFIX `prefix_of` topic.
Proof.
  change (Z.to_nat OTA_TOPIC_PREFIX_LENGTH) with (length OTA_TOPIC_PREFIX).
  rewrite Z.eqb_eq. split.
  - apply strncmp_zero_prefix, OTA_TOPIC_PREFIX_no_NUL.
  - intros [r ->]. rewrite <- (app_nil_r OTA_TOPIC_PREFIX) at 2.
    apply strncmp_app_same.
Qed.

(** ** Path segments of a topic *)

Lemma segment_split (s : cstring) :
  s = segment s ++ drop (length (segment s)) s.
Proof.
  induction s as [|c s IH]; simpl; [reflexivity|].
  destruct (Ascii.eqb c "/"%char); simpl; [reflexivity|].
  f_equal. exact IH.
Qed.

Lemma segment_no_slash (s : cstring) : "/"%char ∉ segment s.
Proof.
  induction s as [|c s IH]; simpl.
  - apply not_elem_of_nil.
  - destruct (Ascii.eqb c "/"%char) eqn:E.
    + apply not_elem_of_nil.
    + apply not_elem_of_cons. split; [|exact IH].
      intros <-. rewrite Ascii.eqb_refl in E. discriminate.
Qed.

Lemma segment_rest (s : cstring) :
  drop (length (segment s)) s = []
  \/ exists r, drop (length (segment s)) s = "/"%char :: r.
Proof.
  induction s as [|c s IH]; simpl.
  - left; reflexivity.
  - destruct (Ascii.eqb c "/"%char) eqn:E; simpl.
    + right. apply Ascii.eqb_eq in E. subst c. eexists; reflexivity.
    + exact IH.
Qed.

(** ** The scanning loop *)

Lemma char_at_middle (pre rest : cstring) (c : ascii) :
  char_at (pre ++ c :: rest) (Z.of_nat (length pre)) = Some c.
Proof.
  unfold char_at. rewrite Nat2Z.id, nth_middle, length_app.
  cbn [length].
  replace ((0 <=? Z.of_nat (length pre))
           && (Z.of_nat (length pre) <=? Z.of_nat (length pre + S (length rest))))
    with true; [reflexivity|].
  symmetry. apply andb_true_intro. split; apply Z.leb_le; lia.
Qed.

Lemma ptr_at_app (pre rest : cstring) :
  ptr_at (pre ++ rest) (Z.of_nat (length pre)) = Some rest.
Proof.
  unfold ptr_at. rewrite Nat2Z.id, drop_app_length, length_app.
  replace ((0 <=? Z.of_nat (length pre))
           && (Z.of_nat (length pre) <=? Z.of_nat (length pre + length rest)))
    with true; [reflexivity|].
  symmetry. apply andb_true_intro. split; apply Z.leb_le; lia.
Qed.

Lemma uint16_t_small (z : Z) : 0 <= z < 65536 -> uint16_t z = z.
Proof. intros H. unfold uint16_t. apply Z.mod_small, H. Qed.

(** From the start of a segment the loop stops at its end, having counted
    its bytes and read nothing outside the string. *)
Lemma extractField_segment (seg : cstring) :
  forall (topic pre rest : cstring) (fuel : nat) (fl : Z),
    topic = pre ++ seg ++ rest ->
    "/"%char ∉ seg ->
    (rest = [] \/ exists r, rest = "/"%char :: r) ->
    Z.of_nat (length topic) <= 65535 ->
    0 <= fl -> fl + Z.of_nat (length seg) <= 65535 ->
    (length seg <= fuel)%nat ->
    extractField fuel topic (Z.of_nat (length topic)) (Z.of_nat (length pre)) fl
    = Some (Z.of_nat (length pre) + Z.of_nat (length seg),
            fl + Z.of_nat (length seg)).
Proof.
  induction seg as [|c seg IH]; intros topic pre rest fuel fl Ht Hs Hr Hlen Hfl Hfl' Hfuel.
  - cbn [length]. rewrite !Z.add_0_r.
    destruct fuel as [|fuel]; [reflexivity|]. cbn [extractField].
    cbn [app] in Ht. destruct Hr as [->|[r ->]].
    + rewrite app_nil_r in Ht. subst topic.
      rewrite Z.ltb_irrefl. reflexivity.
    + subst topic. rewrite char_at_middle. cbn.
      destruct (_ <? _); reflexivity.
  - destruct fuel as [|fuel]; [cbn [length] in Hfuel; lia|].
    apply not_elem_of_cons in Hs as [Hc Hs].
    cbn [length] in *. cbn [extractField].
    assert (Hlt : Z.of_nat (length pre) < Z.of_nat (length topic)).
    { subst topic. rewrite !length_app. cbn [length]. lia. }
    apply Z.ltb_lt in Hlt as Hlt'. rewrite Hlt'.
    assert (Hch : char_at topic (Z.of_nat (length pre)) = Some c).
    { subst topic. cbn [app]. apply char_at_middle. }
    rewrite Hch.
    destruct (Ascii.eqb c "/"%char) eqn:E.
    { apply Ascii.eqb_eq in E. congruence. }
    rewrite (uint16_t_small (Z.of_nat (length pre) + 1)) by lia.
    rewrite (uint16_t_small (fl + 1)) by lia.
    replace (Z.of_nat (length pre) + 1) with (Z.of_nat (length (pre ++ [c])))
      by (rewrite length_app; cbn [length]; lia).
    rewrite (IH topic (pre ++ [c]) rest fuel (fl + 1)); try assumption; try lia.
    + rewrite length_app. cbn [length]. f_equal. f_equal; lia.
    + subst topic. rewrite <- app_assoc. reflexivity.
Qed.

(** Once [topicFilterLength - stringIndex] iterations are allowed, more fuel
    changes nothing: the loop has ended by itself. *)
Lemma extractField_fuel_S (p : cstring) (len : Z) (fuel : nat) :
  forall si fl : Z,
    0 <= si -> len <= 65535 -> (Z.to_nat (len - si) <= fuel)%nat ->
    extractField (S fuel) p len si fl = extractField fuel p len si fl.
Proof.
  induction fuel as [|fuel IH]; intros si fl Hsi Hlen Hfuel.
  - cbn [extractField].
    replace (si <? len) with false; [reflexivity|].
    symmetry. apply Z.ltb_ge. lia.
  - change (extractField (S (S fuel)) p len si fl) with
      (if si <? len
       then match char_at p si with
            | None => None
            | Some c =>
                if Ascii.eqb c "/"%char then Some (si, fl)
                else extractField (S fuel) p len (uint16_t (si + 1))
                       (uint16_t (fl + 1))
            end
       else Some (si, fl)).
    cbn [extractField].
    destruct (si <? len) eqn:Hlt; [|reflexivity].
    apply Z.ltb_lt in Hlt.
    destruct (char_at p si) as [c|]; [|reflexivity].
    destruct (Ascii.eqb c "/"%char); [reflexivity|].
    rewrite (uint16_t_small (si + 1)) by lia.
    apply IH; lia.
Qed.

Lemma extractField_fuel (p : cstring) (len si fl : Z) (k : nat) :
  0 <= si -> len <= 65535 ->
  extractField (Z.to_nat len + k) p len si fl
  = extractField (Z.to_nat len) p len si fl.
Proof.
  intros Hsi Hlen. induction k as [|k IH].
  - rewrite Nat.add_0_r. reflexivity.
  - rewrite Nat.add_succ_r, extractField_fuel_S by lia. exact IH.
Qed.

(** ** The blocks of the classifier on a topic split into segments *)

Lemma OTA_TOPIC_PREFIX_LENGTH_eq :
  OTA_TOPIC_PREFIX_LENGTH = Z.of_nat (length OTA_TOPIC_PREFIX).
Proof. reflexivity. Qed.

Lemma checkThingName_spec (thing topic seg rest : cstring) :
  topic = OTA_TOPIC_PREFIX ++ seg ++ rest ->
  "/"%char ∉ seg ->
  (rest = [] \/ exists r, rest = "/"%char :: r) ->
  Z.of_nat (length topic) <= 65535 ->
  checkThingName thing topic (Z.of_nat (length topic)) OTA_TOPIC_PREFIX_LENGTH
  = Some (if (0 <? Z.of_nat (length seg))
             && (strncmp (seg ++ rest) thing (length seg) =? 0)
          then (EXIT_SUCCESS,
                uint16_t (OTA_TOPIC_PREFIX_LENGTH + Z.of_nat (length seg) + 1))
          else (EXIT_FAILURE, OTA_TOPIC_PREFIX_LENGTH + Z.of_nat (length seg))).
Proof.
  intros Ht Hs Hr Hlen. unfold checkThingName.
  rewrite OTA_TOPIC_PREFIX_LENGTH_eq.
  assert (Hseg : Z.of_nat (length seg) <= Z.of_nat (length topic)).
  { subst topic. rewrite !length_app. lia. }
  rewrite (extractField_segment seg topic OTA_TOPIC_PREFIX rest);
    try assumption; try lia.
  cbn [mbind option_bind]. rewrite Z.add_0_l.
  destruct (0 <? Z.of_nat (length seg)); [|reflexivity].
  replace (Z.of_nat (length OTA_TOPIC_PREFIX) + Z.of_nat (length seg)
           - Z.of_nat (length seg))
    with (Z.of_nat (length OTA_TOPIC_PREFIX)) by lia.
  rewrite Ht at 1. rewrite ptr_at_app. cbn [mbind option_bind].
  rewrite Nat2Z.id. cbn [andb].
  destruct (_ =? 0); reflexivity.
Qed.

Lemma checkMessageType_spec (topic pre seg rest : cstring) :
  topic = pre ++ seg ++ rest ->
  "/"%char ∉ seg ->
  (rest = [] \/ exists r, rest = "/"%char :: r) ->
  Z.of_nat (length topic) <= 65535 ->
  checkMessageType topic (Z.of_nat (length topic)) (Z.of_nat (length pre))
  = Some (if 0 <? Z.of_nat (length seg)
          then
            let i := matchMessageString (seg ++ rest) (length seg)
                       pOtaMessageStrings 0 in
            if i <? OtaMessageType_to_Z OtaNumOfMessageType
            then OtaMessageType_of_Z i
            else OtaNumOfMessageType
          else OtaNumOfMessageType).
Proof.
  intros Ht Hs Hr Hlen. unfold checkMessageType.
  assert (Hseg : Z.of_nat (length seg) <= Z.of_nat (length topic)).
  { subst topic. rewrite !length_app. lia. }
  rewrite (extractField_segment seg topic pre rest); try assumption; try lia.
  cbn [mbind option_bind]. rewrite Z.add_0_l.
  destruct (0 <? Z.of_nat (length seg)); [|reflexivity].
  replace (Z.of_nat (length pre) + Z.of_nat (length seg) - Z.of_nat (length seg))
    with (Z.of_nat (length pre)) by lia.
  rewrite Ht at 1. rewrite ptr_at_app. cbn [mbind option_bind].
  rewrite Nat2Z.id. cbv zeta.
  destruct (_ <? _); reflexivity.
Qed.

(** Started at or after the end of the topic, the third block finds an
    empty field. *)
Lemma checkMessageType_past_end (topic : cstring) (len si : Z) :
  len <= si -> checkMessageType topic len si = Some OtaNumOfMessageType.
Proof.
  intros H. unfold checkMessageType.
  replace (extractField (Z.to_nat len) topic len si 0) with (Some (si, 0)).
  - reflexivity.
  - destruct (Z.to_nat len); cbn [extractField]; [reflexivity|].
    replace (si <? len) with false; [reflexivity|].
    symmetry. apply Z.ltb_ge, H.
Qed.

Lemma getOtaMessageType_no_prefix (thing topic : cstring) (len : Z) :
  ~ OTA_TOPIC_PREFIX `prefix_of` topic ->
  getOtaMessageType thing topic len = Some OtaNumOfMessageType.
Proof.
  intros Hp. unfold getOtaMessageType.
  destruct (strncmp topic OTA_TOPIC_PREFIX (Z.to_nat OTA_TOPIC_PREFIX_LENGTH) =? 0)
    eqn:E; [|reflexivity].
  apply prefix_check_spec in E. contradiction.
Qed.

Lemma getOtaMessageType_prefix (thing topic : cstring) (len : Z) :
  OTA_TOPIC_PREFIX `prefix_of` topic ->
  getOtaMessageType thing topic len =
  '(retStatus, stringIndex) ←
    checkThingName thing topic len OTA_TOPIC_PREFIX_LENGTH;
  if retStatus =? EXIT_SUCCESS
  then checkMessageType topic len stringIndex
  else Some OtaNumOfMessageType.
Proof.
  intros Hp. apply prefix_check_spec in Hp. unfold getOtaMessageType.
  rewrite Hp. reflexivity.
Qed.

(** After a wrap of [stringIndex] to zero the third block reads the first
    segment of the prefix, which is no message keyword. *)
Lemma checkMessageType_from_start (topic : cstring) :
  OTA_TOPIC_PREFIX `prefix_of` topic ->
  Z.of_nat (length topic) <= 65535 ->
  checkMessageType topic (Z.of_nat (length topic)) 0
  = Some OtaNumOfMessageType.
Proof.
  intros [r Hr] Hlen.
  change 0 with (Z.of_nat (length (@nil ascii))).
  rewrite (checkMessageType_spec topic [] (lit "$aws") (lit "/things/" ++ r));
    try assumption.
  - reflexivity.
  - unfold lit; simpl. rewrite !not_elem_of_cons.
    repeat split; try discriminate. apply not_elem_of_nil.
  - right. eexists. reflexivity.
Qed.

Lemma segment_nil_inv (s : cstring) :
  segment s = [] -> s = [] \/ exists r, s = "/"%char :: r.
Proof.
  destruct s as [|c s]; [left; reflexivity|]. cbn [segment].
  destruct (Ascii.eqb c "/"%char) eqn:E; [|discriminate].
  apply Ascii.eqb_eq in E. subst c. right. eexists. reflexivity.
Qed.

(** The split of a topic that starts with the prefix into the prefix, the
    thing-name segment and what follows it. *)
Lemma topic_split (topic : cstring) :
  OTA_TOPIC_PREFIX `prefix_of` topic ->
  let rest := drop (length (thing_segment topic))
                (drop (length OTA_TOPIC_PREFIX) topic) in
  topic = OTA_TOPIC_PREFIX ++ thing_segment topic ++ rest
  /\ ("/"%char ∉ thing_segment topic)
  /\ (rest = [] \/ exists r, rest = "/"%char :: r).
Proof.
  intros [t1 Ht]. cbv zeta. unfold thing_segment.
  split; [|split].
  - rewrite <- segment_split. rewrite Ht at 1. f_equal.
    rewrite Ht. symmetry. apply drop_app_length.
  - apply segment_no_slash.
  - apply segment_rest.
Qed.

(** C8.  A topic that is shorter than the control-plane prefix, or does not
    begin with it, or has an empty thing-name segment, or has an empty
    category segment, is classified as unrecognized, and the classifier
    reads nothing outside the topic string on the way. *)
Theorem getOtaMessageType_unrecognized (thing topic : cstring) :
  Z.of_nat (length topic) <= 65535 ->
  ((length topic < length OTA_TOPIC_PREFIX)%nat
   \/ ~ (OTA_TOPIC_PREFIX `prefix_of` topic)
   \/ thing_segment topic = []
   \/ category_segment topic = []) ->
  getOtaMessageType thing topic (Z.of_nat (length topic))
  = Some OtaNumOfMessageType.
Proof.
  intros Hlen H.
  destruct (strncmp topic OTA_TOPIC_PREFIX (Z.to_nat OTA_TOPIC_PREFIX_LENGTH) =? 0)
    eqn:E.
  2:{ apply getOtaMessageType_no_prefix. intros Hp.
      apply prefix_check_spec in Hp. congruence. }
  apply prefix_check_spec in E.
  destruct (topic_split topic E) as (Ht & Hs & Hr).
  set (seg := thing_segment topic) in *.
  set (rest := drop (length seg) (drop (length OTA_TOPIC_PREFIX) topic)) in *.
  rewrite (getOtaMessageType_prefix _ _ _ E).
  rewrite (checkThingName_spec thing topic seg rest Ht Hs Hr Hlen).
  destruct H as [Hshort|[Hnp|[Hthing|Hcat]]].
  - exfalso. apply prefix_length in E. lia.
  - contradiction.
  - fold seg in Hthing. rewrite Hthing. reflexivity.
  - destruct ((0 <? Z.of_nat (length seg))
              && (strncmp (seg ++ rest) thing (length seg) =? 0));
      [|reflexivity].
    cbn [mbind option_bind]. rewrite Z.eqb_refl.
    assert (Hl : Z.of_nat (length topic)
                 = OTA_TOPIC_PREFIX_LENGTH + Z.of_nat (length seg)
                   + Z.of_nat (length rest)).
    { rewrite Ht at 1. rewrite !length_app, OTA_TOPIC_PREFIX_LENGTH_eq. lia. }
    assert (HP : OTA_TOPIC_PREFIX_LENGTH = 12) by reflexivity.
    destruct Hr as [Hr|[r Hr]].
    + rewrite Hr in Hl. cbn [length] in Hl. rewrite Z.add_0_r in Hl.
      rewrite <- Hl.
      destruct (Z.eq_dec (Z.of_nat (length topic)) 65535) as [Hmax|Hmax].
      * replace (uint16_t (Z.of_nat (length topic) + 1)) with 0
          by (rewrite Hmax; reflexivity).
        apply checkMessageType_from_start; assumption.
      * rewrite uint16_t_small by lia.
        apply checkMessageType_past_end. lia.
    + assert (Hr' : segment r = []).
      { unfold category_segment, after_segment in Hcat.
        fold (thing_segment topic) in Hcat. fold seg in Hcat.
        replace (drop (S (length seg)) (drop (length OTA_TOPIC_PREFIX) topic))
          with r in Hcat; [exact Hcat|].
        change (S (length seg)) with (1 + length seg)%nat.
        rewrite Nat.add_comm, <- drop_drop. fold rest. rewrite Hr.
        reflexivity. }
      rewrite Hr in Hl. cbn [length] in Hl.
      rewrite uint16_t_small by lia.
      replace (OTA_TOPIC_PREFIX_LENGTH + Z.of_nat (length seg) + 1)
        with (Z.of_nat (length (OTA_TOPIC_PREFIX ++ seg ++ ["/"%char])))
        by (rewrite !length_app, OTA_TOPIC_PREFIX_LENGTH_eq; cbn [length]; lia).
      rewrite (checkMessageType_spec topic _ [] r); try assumption.
      * reflexivity.
      * rewrite Ht at 1. rewrite Hr. cbn [app].
        rewrite <- !app_assoc. reflexivity.
      * apply not_elem_of_nil.
      * apply segment_nil_inv, Hr'.
Qed.

Lemma getOtaMessageType_unrecognized_witness :
  getOtaMessageType (lit "dev1") (lit "$aws/things/dev1//x")
    (Z.of_nat (length (lit "$aws/things/dev1//x")))
  = Some OtaNumOfMessageType.
Proof.
  apply getOtaMessageType_unrecognized.
  - simpl. lia.
  - right; right; right. reflexivity.
Defined.

(** ** Keywords are matched over the length of the field only *)

Lemma prefix_cons_cases {A : Type} (l k : list A) (x : A) :
  l `prefix_of` x :: k -> l = [] \/ exists l', l = x :: l' /\ l' `prefix_of` k.
Proof.
  destruct l as [|y l]; [left; reflexivity|]. intros H. right.
  pose proof (prefix_cons_inv_1 _ _ _ _ H) as ->.
  apply prefix_cons_inv_2 in H. eauto.
Qed.

(** Splits a hypothesis [l `prefix_of` k], for a literal [k], into the
    cases of [l]. *)
Ltac prefix_cases H :=
  unfold lit in H; cbn [list_ascii_of_string] in H;
  repeat
    (let l' := fresh "l" in
     let E := fresh "E" in
     apply prefix_cons_cases in H as [E|(l' & E & H)]; subst;
     [|try (apply prefix_nil_inv in H; subst)]).

(** A topic with the prefix, the device's own (non-empty) name and a category segment
    that is a non-empty beginning of a keyword is classified under that
    keyword; the whole keyword is one such beginning. *)
Lemma getOtaMessageType_keyword_prefix (thing topic : cstring) :
  Z.of_nat (length topic) <= 65535 ->
  OTA_TOPIC_PREFIX `prefix_of` topic ->
  thing <> [] ->
  thing_segment topic = thing ->
  category_segment topic <> [] ->
  (category_segment topic `prefix_of` OTA_TOPIC_JOBS ->
   getOtaMessageType thing topic (Z.of_nat (length topic))
   = Some OtaMessageTypeJob)
  /\ (category_segment topic `prefix_of` OTA_TOPIC_STREAM ->
      getOtaMessageType thing topic (Z.of_nat (length topic))
      = Some OtaMessageTypeStream).
Proof.
  intros Hlen Hp Hthing_ne Hthing Hcat.
  destruct (topic_split topic Hp) as (Ht & Hs & Hr).
  rewrite Hthing in Ht, Hs, Hr.
  set (rest := drop (length thing) (drop (length OTA_TOPIC_PREFIX) topic)) in *.
  assert (HP : OTA_TOPIC_PREFIX_LENGTH = 12) by reflexivity.
  assert (Hl : Z.of_nat (length topic)
               = OTA_TOPIC_PREFIX_LENGTH + Z.of_nat (length thing)
                 + Z.of_nat (length rest)).
  { rewrite Ht at 1. rewrite !length_app, OTA_TOPIC_PREFIX_LENGTH_eq. lia. }
  assert (Hcat' : category_segment topic = segment (drop 1 rest)).
  { unfold category_segment, after_segment. fold (thing_segment topic).
    rewrite Hthing. change (S (length thing)) with (1 + length thing)%nat.
    rewrite Nat.add_comm, <- drop_drop. reflexivity. }
  destruct Hr as [Hr|[r Hr]].
  { rewrite Hcat', Hr in Hcat. exfalso. apply Hcat. reflexivity. }
  rewrite Hr in Hcat'. change (drop 1 ("/"%char :: r)) with r in Hcat'.
  assert (Hstart :
    getOtaMessageType thing topic (Z.of_nat (length topic))
    = checkMessageType topic (Z.of_nat (length topic))
        (Z.of_nat (length (OTA_TOPIC_PREFIX ++ thing ++ ["/"%char])))).
  { rewrite (getOtaMessageType_prefix _ _ _ Hp).
    rewrite (checkThingName_spec thing topic thing rest Ht Hs
               (or_intror (ex_intro _ r Hr)) Hlen).
    replace (0 <? Z.of_nat (length thing)) with true
      by (symmetry; apply Z.ltb_lt; destruct thing; [congruence|cbn [length]; lia]).
    rewrite <- (app_nil_r thing) at 2. rewrite strncmp_app_same.
    cbn [andb Z.eqb mbind option_bind].
    rewrite Hr in Hl. cbn [length] in Hl.
    rewrite uint16_t_small by lia.
    rewrite !length_app, OTA_TOPIC_PREFIX_LENGTH_eq. cbn [length].
    f_equal. lia. }
  rewrite Hstart.
  assert (Hsplit : topic = (OTA_TOPIC_PREFIX ++ thing ++ ["/"%char])
                           ++ segment r ++ drop (length (segment r)) r).
  { rewrite <- segment_split. rewrite Ht at 1. rewrite Hr.
    rewrite <- !app_assoc. reflexivity. }
  rewrite (checkMessageType_spec topic _ _ _ Hsplit (segment_no_slash r)
             (segment_rest r) Hlen).
  rewrite Hcat' in Hcat |- *. clear Hstart Hsplit Hcat'.
  revert Hcat. generalize (segment r) as cat. intros cat Hcat.
  split; intros Hk;
    [unfold OTA_TOPIC_JOBS in Hk | unfold OTA_TOPIC_STREAM in Hk];
    prefix_cases Hk;
    first [reflexivity | exfalso; apply Hcat; reflexivity].
Qed.

Example getOtaMessageType_jobs :
  getOtaMessageType (lit "dev1") (lit "$aws/things/dev1/jobs/notify-next") 33
  = Some OtaMessageTypeJob.
Proof. reflexivity. Qed.

Example getOtaMessageType_streams :
  getOtaMessageType (lit "dev1") (lit "$aws/things/dev1/streams/x/data/cbor") 36
  = Some OtaMessageTypeStream.
Proof. reflexivity. Qed.

Example getOtaMessageType_shadow :
  getOtaMessageType (lit "dev1") (lit "$aws/things/dev1/shadow/update") 30
  = Some OtaNumOfMessageType.
Proof. reflexivity. Qed.

Example getOtaMessageType_other_thing :
  getOtaMessageType (lit "dev1") (lit "$aws/things/dev2/jobs/notify-next") 33
  = Some OtaNumOfMessageType.
Proof. reflexivity. Qed.

(** C5.  The category segment [j] is no keyword, yet the topic is classified
    as a job topic: the comparison runs over the length of the segment, and
    [j] agrees with the keyword over that length. *)
Theorem getOtaMessageType_prefix_of_keyword_accepted :
  thing_segment (lit "$aws/things/dev1/j/x") = lit "dev1"
  /\ category_segment (lit "$aws/things/dev1/j/x") = lit "j"
  /\ getOtaMessageType (lit "dev1") (lit "$aws/things/dev1/j/x")
       (Z.of_nat (length (lit "$aws/things/dev1/j/x")))
     = Some OtaMessageTypeJob.
Proof. repeat split. Qed.

(** ** Job actions *)

(** C10.  [prvGetAction] compares over the action's own length: every
    action that is a beginning of the first keyword, the empty one
    included, is a print; a beginning of a later keyword that is not one of
    an earlier keyword is that keyword's action.  The bytes that follow the
    action in the document play no part. *)
Theorem prvGetAction_prefix (action rest : cstring) :
  (action `prefix_of` lit "print" ->
   prvGetAction (action ++ rest) (length action) = JOB_ACTION_PRINT)
  /\ (action `prefix_of` lit "publish" -> ~ (action `prefix_of` lit "print") ->
      prvGetAction (action ++ rest) (length action) = JOB_ACTION_PUBLISH)
  /\ (action `prefix_of` lit "exit" -> ~ (action `prefix_of` lit "print") ->
      ~ (action `prefix_of` lit "publish") ->
      prvGetAction (action ++ rest) (length action) = JOB_ACTION_EXIT).
Proof.
  split; [|split].
  - intros H. prefix_cases H; reflexivity.
  - intros H Hn. prefix_cases H; try reflexivity;
      exfalso; apply Hn; unfold lit; cbn [list_ascii_of_string];
      eexists; reflexivity.
  - intros H Hn _. prefix_cases H; try reflexivity;
      exfalso; apply Hn; unfold lit; cbn [list_ascii_of_string];
      eexists; reflexivity.
Qed.

Lemma not_prefix_by_head {A : Type} (x y : A) (l k : list A) :
  x <> y -> ~ (x :: l `prefix_of` y :: k).
Proof. intros Hne H. apply Hne. exact (prefix_cons_inv_1 _ _ _ _ H). Qed.

Lemma prvGetAction_prefix_witness :
  prvGetAction (lit "") 0 = JOB_ACTION_PRINT
  /\ prvGetAction (lit "pri") 3 = JOB_ACTION_PRINT
  /\ prvGetAction (lit "pub") 3 = JOB_ACTION_PUBLISH
  /\ prvGetAction (lit "ex") 2 = JOB_ACTION_EXIT.
Proof.
  split; [|split; [|split]].
  - apply (proj1 (prvGetAction_prefix [] [])). apply prefix_nil.
  - apply (proj1 (prvGetAction_prefix (lit "pri") [])).
    exists (lit "nt"). reflexivity.
  - apply (proj1 (proj2 (prvGetAction_prefix (lit "pub") []))).
    + exists (lit "lish"). reflexivity.
    + unfold lit; cbn [list_ascii_of_string].
      intros H. apply prefix_cons_inv_2 in H.
      revert H. apply not_prefix_by_head. discriminate.
  - apply (proj2 (proj2 (prvGetAction_prefix (lit "ex") []))).
    + exists (lit "it"). reflexivity.
    + apply not_prefix_by_head. discriminate.
    + apply not_prefix_by_head. discriminate.
Defined.

(** * The effectful part *)

Lemma with_eventBuffer_same (w : World) : with_eventBuffer (eventBuffer w) w = w.
Proof. destruct w; reflexivity. Qed.

Lemma with_eventBuffer_twice (b1 b2 : list OtaEventData_t) (w : World) :
  with_eventBuffer b2 (with_eventBuffer b1 w) = with_eventBuffer b2 w.
Proof. reflexivity. Qed.

(** ** Buffer pool *)

Lemma firstFreeBuffer_all_used (bufs : list OtaEventData_t) (k : nat) :
  all_used bufs -> firstFreeBuffer k bufs = None.
Proof.
  intros H. revert k. induction H as [|b bufs Hb _ IH]; intros k; cbn.
  - reflexivity.
  - rewrite Hb. cbn. apply IH.
Qed.

Lemma firstFreeBuffer_after_used (U rest : list OtaEventData_t)
    (b : OtaEventData_t) (k : nat) :
  all_used U -> bufferUsed b = false ->
  firstFreeBuffer k (U ++ b :: rest) = Some (k + length U)%nat.
Proof.
  intros H Hb. revert k. induction H as [|u U Hu _ IH]; intros k; cbn.
  - rewrite Hb. cbn. f_equal. lia.
  - rewrite Hu. cbn. rewrite IH. f_equal. lia.
Qed.

Lemma alter_middle {A : Type} (f : A -> A) (l1 l2 : list A) (x : A) :
  alter f (length l1) (l1 ++ x :: l2) = l1 ++ f x :: l2.
Proof. induction l1 as [|y l1 IH]; cbn; [reflexivity|]. f_equal. exact IH. Qed.

Lemma set_bufferUsed_same (b : OtaEventData_t) :
  set_bufferUsed (bufferUsed b) b = b.
Proof. destruct b; reflexivity. Qed.

(** An acquire with the semaphore taken, on a pool whose first free slot
    follows the used slots [U]: that slot is handed out and marked. *)
Lemma prvOTAEventBufferGet_first_free (ext : Externals) (w : World)
    (U rest : list OtaEventData_t) (b : OtaEventData_t) :
  ext_xSemaphoreTake ext = true ->
  eventBuffer w = U ++ b :: rest -> all_used U -> bufferUsed b = false ->
  prvOTAEventBufferGet ext w
  = Returned (Some (length U),
              with_eventBuffer (U ++ set_bufferUsed true b :: rest) w).
Proof.
  intros Hsem Hw HU Hb. unfold prvOTAEventBufferGet. rewrite Hsem.
  unfold mbind, demoM_bind, get_eventBuffer. rewrite Hw.
  rewrite firstFreeBuffer_after_used by assumption. cbn.
  rewrite alter_middle. reflexivity.
Qed.

(** An acquire on a pool without a free slot returns NULL and changes
    nothing. *)
Lemma prvOTAEventBufferGet_exhausted (ext : Externals) (w : World) :
  ext_xSemaphoreTake ext = true -> all_used (eventBuffer w) ->
  prvOTAEventBufferGet ext w = Returned (None, w).
Proof.
  intros Hsem HU. unfold prvOTAEventBufferGet. rewrite Hsem.
  unfold mbind, demoM_bind, get_eventBuffer.
  rewrite firstFreeBuffer_all_used by assumption. reflexivity.
Qed.

(** A release with the semaphore taken clears the flag of the slot. *)
Lemma prvOTAEventBufferFree_slot (ext : Externals) (w : World)
    (l1 l2 : list OtaEventData_t) (b : OtaEventData_t) :
  ext_xSemaphoreTake ext = true ->
  eventBuffer w = l1 ++ b :: l2 ->
  prvOTAEventBufferFree ext (length l1) w
  = Returned (tt, with_eventBuffer (l1 ++ set_bufferUsed false b :: l2) w).
Proof.
  intros Hsem Hw. unfold prvOTAEventBufferFree. rewrite Hsem.
  unfold mbind, demoM_bind, get_eventBuffer. rewrite Hw.
  rewrite bool_decide_eq_true_2
    by (rewrite length_app; cbn [length]; lia).
  cbn. rewrite alter_middle. reflexivity.
Qed.

Lemma acquire_n_free_tail (ext : Externals) (F : list OtaEventData_t) :
  ext_xSemaphoreTake ext = true ->
  forall (w : World) (U : list OtaEventData_t),
    eventBuffer w = U ++ F -> all_used U -> all_free F ->
    exists F',
      acquire_n ext (length F) w
      = Returned (Some <$> seq (length U) (length F),
                  with_eventBuffer (U ++ F') w)
      /\ all_used F' /\ length F' = length F.
Proof.
  intros Hsem. induction F as [|b F IH]; intros w U Hw HU HF.
  - exists []. cbn. rewrite app_nil_r in *. rewrite <- Hw.
    rewrite with_eventBuffer_same. repeat split. constructor.
  - apply Forall_cons in HF as [Hb HF].
    destruct (IH (with_eventBuffer (U ++ set_bufferUsed true b :: F) w)
                (U ++ [set_bufferUsed true b])) as (F' & Hrun & HF' & Hlen).
    { cbn. rewrite <- app_assoc. reflexivity. }
    { apply Forall_app. split; [exact HU|]. repeat constructor. }
    { exact HF. }
    exists (set_bufferUsed true b :: F'). split; [|split].
    + cbn [acquire_n length]. unfold mbind at 1, demoM_bind at 1.
      rewrite (prvOTAEventBufferGet_first_free ext w U F b Hsem Hw HU Hb).
      unfold mbind at 1, demoM_bind at 1. rewrite Hrun.
      rewrite length_app, Nat.add_1_r. cbn [length].
      rewrite with_eventBuffer_twice, <- app_assoc. reflexivity.
    + constructor; [reflexivity|exact HF'].
    + cbn [length]. f_equal. exact Hlen.
Qed.

(** C7.  From a pool of N free slots, N acquires in a row succeed and hand
    out the slots 0 to N-1; then every slot is used and one more acquire
    returns NULL; and after the release of any slot an acquire succeeds and
    hands out that slot. *)
Theorem pool_exhaustion_and_reuse (ext : Externals) (w : World) :
  ext_xSemaphoreTake ext = true ->
  all_free (eventBuffer w) ->
  let N := length (eventBuffer w) in
  exists wN,
    acquire_n ext N w = Returned (Some <$> seq 0 N, wN)
    /\ all_used (eventBuffer wN)
    /\ length (eventBuffer wN) = N
    /\ prvOTAEventBufferGet ext wN = Returned (None, wN)
    /\ forall i, (i < N)%nat ->
         exists w1 w2,
           prvOTAEventBufferFree ext i wN = Returned (tt, w1)
           /\ prvOTAEventBufferGet ext w1 = Returned (Some i, w2).
Proof.
  intros Hsem Hfree N.
  destruct (acquire_n_free_tail ext (eventBuffer w) Hsem w [] eq_refl
              (Forall_nil_2 _) Hfree) as (F' & Hrun & HF' & Hlen).
  cbn [app length] in Hrun.
  exists (with_eventBuffer F' w). split; [exact Hrun|].
  split; [exact HF'|]. split; [exact Hlen|].
  split; [apply prvOTAEventBufferGet_exhausted; assumption|].
  intros i Hi. fold N in Hlen. rewrite <- Hlen in Hi.
  destruct (lookup_lt_is_Some_2 F' i Hi) as [b Hb].
  pose proof (take_drop_middle F' i b Hb) as Hsplit.
  assert (Hli : length (take i F') = i) by (apply length_take_le; lia).
  assert (HU : all_used (take i F')) by (apply Forall_take, HF').
  pose proof (prvOTAEventBufferFree_slot ext (with_eventBuffer F' w)
                (take i F') (drop (S i) F') b Hsem (eq_sym Hsplit)) as Hrel.
  pose proof (prvOTAEventBufferGet_first_free ext
                (with_eventBuffer
                   (take i F' ++ set_bufferUsed false b :: drop (S i) F')
                   (with_eventBuffer F' w))
                (take i F') (drop (S i) F') (set_bufferUsed false b)
                Hsem eq_refl HU eq_refl) as Hget.
  rewrite Hli in Hrel, Hget.
  eexists _, _. split; [exact Hrel|exact Hget].
Qed.

Lemma pool_exhaustion_and_reuse_witness :
  exists wN,
    acquire_n ext_timeout 3 (fresh_world 3)
    = Returned ([Some 0; Some 1; Some 2]%nat, wN)
    /\ prvOTAEventBufferGet ext_timeout wN = Returned (None, wN).
Proof.
  destruct (pool_exhaustion_and_reuse ext_timeout (fresh_world 3) eq_refl)
    as (wN & H1 & _ & _ & H2 & _).
  - repeat constructor.
  - exists wN. split; assumption.
Defined.

(** C4, as stated, fails: the release of a slot that is already free
    returns like any other release. *)
Lemma prvOTAEventBufferFree_double_release_returns :
  bufferUsed <$> eventBuffer (fresh_world 2) !! 0%nat = Some false
  /\ prvOTAEventBufferFree ext_timeout 0 (fresh_world 2)
     = Returned (tt, fresh_world 2)
  /\ prvOTAEventBufferFree ext_timeout 0 (fresh_world 2) <> AssertFailed.
Proof. repeat split. discriminate. Qed.

Lemma alter_lookup_same {A : Type} (f : A -> A) (l : list A) (i : nat) (x : A) :
  l !! i = Some x -> f x = x -> alter f i l = l.
Proof.
  revert i. induction l as [|y l IH]; intros [|i] Hl Hf; cbn in *;
    try discriminate.
  - injection Hl as ->. rewrite Hf. reflexivity.
  - f_equal. eapply IH; eassumption.
Qed.

(** A release of a free slot is a release like any other, and it changes
    nothing. *)
Lemma prvOTAEventBufferFree_free_slot (ext : Externals) (w : World)
    (i : nat) (b : OtaEventData_t) :
  eventBuffer w !! i = Some b -> bufferUsed b = false ->
  prvOTAEventBufferFree ext i w
  = Returned (tt, if ext_xSemaphoreTake ext then w
                  else emitted [Log LogError "Failed to get buffer semaphore."] w).
Proof.
  intros Hi Hb. unfold prvOTAEventBufferFree.
  destruct (ext_xSemaphoreTake ext); [|reflexivity].
  unfold mbind, demoM_bind, get_eventBuffer.
  rewrite bool_decide_eq_true_2 by (eapply lookup_lt_Some; exact Hi).
  unfold put_eventBuffer.
  rewrite (alter_lookup_same _ _ i b Hi)
    by (rewrite <- Hb; apply set_bufferUsed_same).
  destruct w; reflexivity.
Qed.

(** C4, amended.  The release of a slot that is already free stops at no
    assertion: it returns, and the pool and the rest of the state are as
    before (without the semaphore, the release logs the failure). *)
Theorem prvOTAEventBufferFree_already_free (ext : Externals) (w : World)
    (i : nat) (b : OtaEventData_t) :
  eventBuffer w !! i = Some b -> bufferUsed b = false ->
  exists w',
    prvOTAEventBufferFree ext i w = Returned (tt, w')
    /\ eventBuffer w' = eventBuffer w
    /\ (ext_xSemaphoreTake ext = true -> w' = w).
Proof.
  intros Hi Hb. eexists. split; [|split].
  - apply (prvOTAEventBufferFree_free_slot ext w i b Hi Hb).
  - destruct (ext_xSemaphoreTake ext); reflexivity.
  - intros ->. reflexivity.
Qed.

Lemma prvOTAEventBufferFree_already_free_witness :
  exists w',
    prvOTAEventBufferFree ext_timeout 1 (fresh_world 2) = Returned (tt, w')
    /\ eventBuffer w' = eventBuffer (fresh_world 2)
    /\ (ext_xSemaphoreTake ext_timeout = true -> w' = fresh_world 2).
Proof.
  exact (prvOTAEventBufferFree_already_free ext_timeout (fresh_world 2) 1
           free_slot eq_refl eq_refl).
Defined.

(** The only caller of the release asserts that the buffer is not NULL and
    nothing about its flag. *)
Lemma otaAppCallback_processed_free_slot (ext : Externals) (w : World)
    (i : nat) (b : OtaEventData_t) :
  ext_xSemaphoreTake ext = true ->
  eventBuffer w !! i = Some b -> bufferUsed b = false ->
  otaAppCallback ext OtaJobEventProcessed (Some i) w
  = Returned (tt,
      emitted [Log LogDebug "OTA Event processing completed. Freeing the event buffer to pool."] w).
Proof.
  intros Hsem Hi Hb. unfold otaAppCallback.
  unfold mbind at 1, demoM_bind at 1, emit at 1.
  unfold mbind, demoM_bind, configASSERT. cbn [not_NULL].
  rewrite (prvOTAEventBufferFree_free_slot ext _ i b) by assumption.
  rewrite Hsem. reflexivity.
Qed.

(** ** Command bridge *)

(** Runs the monad's plumbing in the goal. *)
Ltac demo_run :=
  unfold mbind, mret, demoM_bind, demoM_ret, emit, configASSERT,
    get_eventBuffer, put_eventBuffer, set_xDemoEncounteredError,
    set_xExitActionJobReceived, out_of_bounds, emitted, with_eventBuffer;
  cbn.

(** Brings the trace of the goal's state into the form [trace w ++ events]. *)
Ltac trace_norm := rewrite <- ?app_assoc; cbn [app].

(** C3, as stated, fails for publish: enqueued and timed out, its status
    is the send-failed code, not the receive-failed one. *)
Lemma prvMQTTPublish_timeout_not_recv_failed :
  ext_MQTTAgent_Publish ext_timeout = MQTTSuccess
  /\ ext_xTaskNotifyWait ext_timeout = None
  /\ prvMQTTPublish_mqttStatus ext_timeout (lit "t") (lit "m") 1 (fresh_world 1)
     = Returned (MQTTSendFailed,
                 emitted [MQTTAgent_Publish (lit "t") (lit "m") 1] (fresh_world 1))
  /\ prvMQTTPublish ext_timeout (lit "t") (lit "m") 1 (fresh_world 1)
     = Returned (OtaMqttPublishFailed,
                 emitted [MQTTAgent_Publish (lit "t") (lit "m") 1;
                          LogStatus LogError
                            "Failed to send PUBLISH packet to broker with error"
                            MQTTSendFailed] (fresh_world 1))
  /\ MQTTSendFailed <> MQTTRecvFailed.
Proof. repeat split. discriminate. Qed.

(** C3, amended.  Enqueued and timed out, subscribe and unsubscribe yield
    the receive-failed code and publish yields the send-failed code; both
    differ from success, and publish returns its failure code. *)
Theorem bridge_timeout_results (ext : Externals) :
  ext_xTaskNotifyWait ext = None ->
  (ext_MQTTAgent_Subscribe ext = MQTTSuccess ->
   forall qos filter cb w,
     prvSubscribeToTopic ext qos filter cb w
     = Returned (MQTTRecvFailed,
                 emitted [Log LogInfo "Subscribing to topic filter";
                          MQTTAgent_Subscribe filter qos] w))
  /\ (ext_MQTTAgent_Unsubscribe ext = MQTTSuccess ->
      forall qos filter w,
        prvUnSubscribeFromTopic ext qos filter w
        = Returned (MQTTRecvFailed,
                    emitted [Log LogInfo "Unsubscribing to topic filter";
                             MQTTAgent_Unsubscribe filter qos] w))
  /\ (ext_MQTTAgent_Publish ext = MQTTSuccess ->
      forall topic msg qos w,
        prvMQTTPublish_mqttStatus ext topic msg qos w
        = Returned (MQTTSendFailed, emitted [MQTTAgent_Publish topic msg qos] w)
        /\ prvMQTTPublish ext topic msg qos w
           = Returned (OtaMqttPublishFailed,
                       emitted [MQTTAgent_Publish topic msg qos;
                                LogStatus LogError
                                  "Failed to send PUBLISH packet to broker with error"
                                  MQTTSendFailed] w))
  /\ MQTTRecvFailed <> MQTTSuccess
  /\ MQTTSendFailed <> MQTTSuccess.
Proof.
  intros Hwait. repeat split; try discriminate.
  - intros Henq qos filter cb w.
    unfold prvSubscribeToTopic, xTaskNotifyWait_subscription.
    rewrite Henq, Hwait. demo_run. trace_norm. reflexivity.
  - intros Henq qos filter w.
    unfold prvUnSubscribeFromTopic, xTaskNotifyWait_subscription.
    rewrite Henq, Hwait. demo_run. trace_norm. reflexivity.
  - unfold prvMQTTPublish_mqttStatus, xTaskNotifyWait_publish.
    rewrite H, Hwait. reflexivity.
  - unfold prvMQTTPublish, prvMQTTPublish_mqttStatus, xTaskNotifyWait_publish.
    rewrite H, Hwait. demo_run. trace_norm. reflexivity.
Qed.

Lemma bridge_timeout_results_witness :
  prvSubscribeToTopic ext_timeout 1 (lit "f") cb_prvProcessIncomingData
    (fresh_world 1)
  = Returned (MQTTRecvFailed,
              emitted [Log LogInfo "Subscribing to topic filter";
                       MQTTAgent_Subscribe (lit "f") 1] (fresh_world 1)).
Proof.
  exact (proj1 (bridge_timeout_results ext_timeout eq_refl) eq_refl
           1 (lit "f") cb_prvProcessIncomingData (fresh_world 1)).
Defined.

(** C9.  A topic filter that the classifier does not recognise stops
    [prvMQTTSubscribe] at an assertion; and when [prvMQTTSubscribe] returns
    the subscribe-failed code, the filter was classified as a job or as a
    stream topic. *)
Theorem prvMQTTSubscribe_unrecognized_asserts (thing : cstring)
    (ext : Externals) :
  (forall filter len qos w,
     getOtaMessageType thing filter len = Some OtaNumOfMessageType ->
     prvMQTTSubscribe thing ext (Some filter) len qos w = AssertFailed)
  /\ (forall p len qos w w',
        prvMQTTSubscribe thing ext p len qos w
        = Returned (OtaMqttSubscribeFailed, w') ->
        exists filter,
          p = Some filter
          /\ (getOtaMessageType thing filter len = Some OtaMessageTypeJob
              \/ getOtaMessageType thing filter len = Some OtaMessageTypeStream)).
Proof.
  split.
  - intros filter len qos w Hcls. unfold prvMQTTSubscribe.
    cbn [from_option id]. rewrite Hcls. demo_run.
    destruct (0 <? len); reflexivity.
  - intros [filter|] len qos w w' Hrun; [|discriminate].
    exists filter. split; [reflexivity|].
    unfold prvMQTTSubscribe in Hrun. cbn [from_option id] in Hrun.
    destruct (getOtaMessageType thing filter len) as [[| |]|].
    + left; reflexivity.
    + right; reflexivity.
    + revert Hrun. demo_run. destruct (0 <? len); discriminate.
    + revert Hrun. demo_run. destruct (0 <? len); discriminate.
Qed.

Lemma prvMQTTSubscribe_unrecognized_asserts_witness :
  prvMQTTSubscribe (lit "dev1") ext_timeout
    (Some (lit "$aws/things/dev1/shadow/update")) 30 1 (fresh_world 1)
  = AssertFailed
  /\ exists filter,
       Some (lit "$aws/things/dev1/jobs/notify-next") = Some filter
       /\ (getOtaMessageType (lit "dev1") filter 33 = Some OtaMessageTypeJob
           \/ getOtaMessageType (lit "dev1") filter 33
              = Some OtaMessageTypeStream).
Proof.
  split.
  - apply (proj1 (prvMQTTSubscribe_unrecognized_asserts (lit "dev1") ext_timeout)).
    reflexivity.
  - eapply (proj2 (prvMQTTSubscribe_unrecognized_asserts (lit "dev1") ext_refused)
              _ 33 1 (fresh_world 1)).
    cbv. reflexivity.
Defined.

(** ** Job action dispatcher *)

Lemma strlenZ_pos (s : cstring) : s <> [] -> (0 <? strlenZ (Some s)) = true.
Proof.
  intros H. apply Z.ltb_lt. unfold strlenZ. cbn [from_option id].
  destruct s; [congruence|]. cbn [length]. lia.
Qed.

Lemma prvSendUpdateForJob_spec (thing : cstring) (ext : Externals)
    (jobId report : cstring) (w : World) :
  jobId <> [] ->
  prvSendUpdateForJob thing ext (Some jobId) (Some report) w
  = Returned (tt, emitted [report_event thing ext jobId report] w).
Proof.
  intros Hj. unfold prvSendUpdateForJob, report_event.
  rewrite (strlenZ_pos jobId Hj). cbn [not_NULL andb from_option id].
  destruct (ext_Jobs_Update ext thing jobId); reflexivity.
Qed.

(** A document without the action field: the failure is reported. *)
Lemma prvProcessJobDocument_missing_action (thing : cstring) (ext : Externals)
    (jobId doc : cstring) (w : World) :
  jobId <> [] -> doc <> [] ->
  ext_JSON_Search ext doc jobsexampleQUERY_KEY_FOR_ACTION = None ->
  prvProcessJobDocument thing ext (Some jobId) (Some doc) w
  = Returned (tt,
      emitted [Log LogError "Job document schema is invalid. Missing expected action key in document.";
               report_event thing ext jobId (MAKE_STATUS_REPORT "FAILED")] w).
Proof.
  intros Hj Hd Ha. unfold prvProcessJobDocument.
  rewrite (strlenZ_pos jobId Hj), (strlenZ_pos doc Hd).
  cbn [not_NULL from_option id]. rewrite Ha.
  unfold mbind, demoM_bind, configASSERT, emit.
  rewrite prvSendUpdateForJob_spec by assumption.
  unfold emitted. cbn. trace_norm. reflexivity.
Qed.

(** A document whose action is none of the keywords: one line is printed
    and nothing else happens; no status is reported for the job. *)
Lemma prvProcessJobDocument_unknown_action (thing : cstring) (ext : Externals)
    (jobId doc action : cstring) (w : World) :
  jobId <> [] -> doc <> [] ->
  ext_JSON_Search ext doc jobsexampleQUERY_KEY_FOR_ACTION = Some action ->
  prvGetAction action (length action) = JOB_ACTION_UNKNOWN ->
  prvProcessJobDocument thing ext (Some jobId) (Some doc) w
  = Returned (tt,
      emitted [Log configPRINTF "Received Job document with unknown action"] w).
Proof.
  intros Hj Hd Ha Hact. unfold prvProcessJobDocument.
  rewrite (strlenZ_pos jobId Hj), (strlenZ_pos doc Hd).
  cbn [not_NULL from_option id]. rewrite Ha, Hact. reflexivity.
Qed.

(** C2.  For a job whose document names the unknown action bogus, the
    dispatcher prints one line and publishes no status report: the job is
    left without a terminal status. *)
Theorem prvProcessJobDocument_unknown_action_not_reported :
  prvGetAction (lit "bogus") 5 = JOB_ACTION_UNKNOWN
  /\ prvProcessJobDocument (lit "dev1") ext_bogus_job
       (Some (lit "job-1")) (Some (lit "{action:bogus}")) (fresh_world 1)
     = Returned (tt,
         emitted [Log configPRINTF "Received Job document with unknown action"]
           (fresh_world 1)).
Proof. split; reflexivity. Qed.

(** The run of a job with the publish action, whatever the jobs library
    answers when asked for the update topic. *)
Lemma prvProcessJobDocument_publish_run (thing : cstring) (ext : Externals)
    (jobId doc : cstring) (w : World) :
  jobId <> [] -> doc <> [] ->
  ext_JSON_Search ext doc jobsexampleQUERY_KEY_FOR_ACTION = Some (lit "publish") ->
  prvProcessJobDocument thing ext (Some jobId) (Some doc) w
  = Returned (tt,
      match ext_JSON_Search ext doc jobsexampleQUERY_KEY_FOR_TOPIC,
            ext_JSON_Search ext doc jobsexampleQUERY_KEY_FOR_MESSAGE with
      | None, _ =>
          emitted [Log LogInfo "Received job contains publish action.";
                   Log LogError "Job document schema is invalid. Missing topic key for publish action type.";
                   report_event thing ext jobId (MAKE_STATUS_REPORT "FAILED")] w
      | Some _, None =>
          emitted [Log LogInfo "Received job contains publish action.";
                   Log LogError "Job document schema is invalid. Missing message key for publish action type.";
                   report_event thing ext jobId (MAKE_STATUS_REPORT "FAILED")] w
      | Some pcTopic, Some pcMessage =>
          if ext_xPublishToTopic ext
          then
            emitted [Log LogInfo "Received job contains publish action.";
                     xPublishToTopic pcTopic pcMessage;
                     report_event thing ext jobId (MAKE_STATUS_REPORT "SUCCEEDED")] w
          else
            emitted [Log LogInfo "Received job contains publish action.";
                     xPublishToTopic pcTopic pcMessage;
                     Log LogError "Failed to execute job with publish action: Failed to publish to topic.";
                     report_event thing ext jobId (MAKE_STATUS_REPORT "SUCCEEDED")]
              (error_flagged w)
      end).
Proof.
  intros Hj Hd Ha. unfold prvProcessJobDocument.
  rewrite (strlenZ_pos jobId Hj), (strlenZ_pos doc Hd).
  cbn [not_NULL from_option id]. rewrite Ha.
  change (prvGetAction (lit "publish") (length (lit "publish")))
    with JOB_ACTION_PUBLISH.
  unfold mbind, demoM_bind, configASSERT, emit.
  destruct (ext_JSON_Search ext doc jobsexampleQUERY_KEY_FOR_TOPIC) as [t|].
  - destruct (ext_JSON_Search ext doc jobsexampleQUERY_KEY_FOR_MESSAGE) as [m|].
    + destruct (ext_xPublishToTopic ext).
      * unfold mret, demoM_ret.
        rewrite prvSendUpdateForJob_spec by assumption.
        unfold emitted. cbn. trace_norm. reflexivity.
      * unfold set_xDemoEncounteredError.
        rewrite prvSendUpdateForJob_spec by assumption.
        unfold emitted, error_flagged. cbn. trace_norm. reflexivity.
    + rewrite prvSendUpdateForJob_spec by assumption.
      unfold emitted. cbn. trace_norm. reflexivity.
  - rewrite prvSendUpdateForJob_spec by assumption.
    unfold emitted. cbn. trace_norm. reflexivity.
Qed.

(** C6.  A job with the publish action, the jobs library yielding the
    update topic of the job: without the topic field or without the message
    field, the status FAILED is published on the update topic at QoS 1 and
    no relay publish is made; with both, the relay publish is made and the
    status SUCCEEDED is published on the update topic whether or not the
    relay publish succeeded, whose failure is logged and raises the error
    flag. *)
Theorem prvProcessJobDocument_publish (thing : cstring) (ext : Externals)
    (jobId doc pUpdateJobTopic : cstring) (w : World) :
  jobId <> [] -> doc <> [] ->
  ext_JSON_Search ext doc jobsexampleQUERY_KEY_FOR_ACTION = Some (lit "publish") ->
  ext_Jobs_Update ext thing jobId = Some pUpdateJobTopic ->
  prvProcessJobDocument thing ext (Some jobId) (Some doc) w
  = Returned (tt,
      match ext_JSON_Search ext doc jobsexampleQUERY_KEY_FOR_TOPIC,
            ext_JSON_Search ext doc jobsexampleQUERY_KEY_FOR_MESSAGE with
      | None, _ =>
          emitted [Log LogInfo "Received job contains publish action.";
                   Log LogError "Job document schema is invalid. Missing topic key for publish action type.";
                   MQTTAgent_Publish pUpdateJobTopic
                     (MAKE_STATUS_REPORT "FAILED") MQTTQoS1] w
      | Some _, None =>
          emitted [Log LogInfo "Received job contains publish action.";
                   Log LogError "Job document schema is invalid. Missing message key for publish action type.";
                   MQTTAgent_Publish pUpdateJobTopic
                     (MAKE_STATUS_REPORT "FAILED") MQTTQoS1] w
      | Some pcTopic, Some pcMessage =>
          if ext_xPublishToTopic ext
          then
            emitted [Log LogInfo "Received job contains publish action.";
                     xPublishToTopic pcTopic pcMessage;
                     MQTTAgent_Publish pUpdateJobTopic
                       (MAKE_STATUS_REPORT "SUCCEEDED") MQTTQoS1] w
          else
            emitted [Log LogInfo "Received job contains publish action.";
                     xPublishToTopic pcTopic pcMessage;
                     Log LogError "Failed to execute job with publish action: Failed to publish to topic.";
                     MQTTAgent_Publish pUpdateJobTopic
                       (MAKE_STATUS_REPORT "SUCCEEDED") MQTTQoS1]
              (error_flagged w)
      end).
Proof.
  intros Hj Hd Ha Hu.
  rewrite (prvProcessJobDocument_publish_run thing ext jobId doc w Hj Hd Ha).
  unfold report_event. rewrite Hu. reflexivity.
Qed.

Lemma prvProcessJobDocument_publish_witness :
  prvProcessJobDocument (lit "dev1") ext_publish_job
    (Some (lit "job-1")) (Some (lit "{action:publish,topic:demo/out,message:hello}"))
    (fresh_world 1)
  = Returned (tt,
      emitted [Log LogInfo "Received job contains publish action.";
               xPublishToTopic (lit "demo/out") (lit "hello");
               Log LogError "Failed to execute job with publish action: Failed to publish to topic.";
               MQTTAgent_Publish (lit "$aws/things/dev1/jobs/job-1/update")
                 (MAKE_STATUS_REPORT "SUCCEEDED") 1]
        (error_flagged (fresh_world 1))).
Proof.
  apply (prvProcessJobDocument_publish (lit "dev1") ext_publish_job
           (lit "job-1") (lit "{action:publish,topic:demo/out,message:hello}")
           (lit "$aws/things/dev1/jobs/job-1/update") (fresh_world 1)).
  - discriminate.
  - discriminate.
  - reflexivity.
  - reflexivity.
Defined.

(** ** Inbound dispatch of job messages *)

(** The test that guards the update engine's branch compares zero bytes,
    so it holds for no job identifier. *)
Lemma AFR_OTA_test_never_holds (pJobId : cstring) :
  negb (strncmp pJobId (lit "AFR_OTA")
          (if Nat.eqb (strlen (lit "AFR_OTA")) 0 then 1%nat else 0%nat)
        =? 0) = false.
Proof. reflexivity. Qed.

Lemma keeps_pool_bind {A B : Type} (m : demoM A) (f : A -> demoM B) :
  keeps_pool m -> (forall a, keeps_pool (f a)) -> keeps_pool (m ≫= f).
Proof.
  intros Hm Hf w b w' H. unfold mbind, demoM_bind in H.
  destruct (m w) as [[a w1]| |] eqn:E; try discriminate.
  rewrite (Hf a w1 b w' H). exact (Hm w a w1 E).
Qed.

Lemma keeps_pool_ret {A : Type} (a : A) : keeps_pool (mret a).
Proof. intros w b w' H. injection H as _ <-. reflexivity. Qed.

Lemma keeps_pool_emit (e : Event) : keeps_pool (emit e).
Proof. intros w b w' H. injection H as _ <-. reflexivity. Qed.

Lemma keeps_pool_configASSERT (b : bool) : keeps_pool (configASSERT b).
Proof.
  intros w a w' H. unfold configASSERT in H.
  destruct b; [|discriminate]. injection H as _ <-. reflexivity.
Qed.

Lemma keeps_pool_set_error (b : bool) : keeps_pool (set_xDemoEncounteredError b).
Proof. intros w a w' H. injection H as _ <-. reflexivity. Qed.

Lemma keeps_pool_set_exit (b : bool) : keeps_pool (set_xExitActionJobReceived b).
Proof. intros w a w' H. injection H as _ <-. reflexivity. Qed.

Create HintDb keeps_pool.
#[global] Hint Resolve keeps_pool_ret keeps_pool_emit keeps_pool_configASSERT
  keeps_pool_set_error keeps_pool_set_exit : keeps_pool.

(** Walks through a computation built from binds and case distinctions. *)
Ltac keeps_pool_walk :=
  repeat first
    [ solve [auto with keeps_pool]
    | progress cbv zeta
    | apply keeps_pool_bind; [|intros ?]
    | match goal with
      | |- keeps_pool (match ?x with _ => _ end) => destruct x
      end ].

Lemma prvSendUpdateForJob_keeps_pool (thing : cstring) (ext : Externals)
    (pcJobId pcJobStatusReport : option cstring) :
  keeps_pool (prvSendUpdateForJob thing ext pcJobId pcJobStatusReport).
Proof. unfold prvSendUpdateForJob. keeps_pool_walk. Qed.

#[global] Hint Resolve prvSendUpdateForJob_keeps_pool : keeps_pool.

Lemma prvProcessJobDocument_keeps_pool (thing : cstring) (ext : Externals)
    (pcJobId pcJobDocument : option cstring) :
  keeps_pool (prvProcessJobDocument thing ext pcJobId pcJobDocument).
Proof. unfold prvProcessJobDocument. keeps_pool_walk. Qed.

#[global] Hint Resolve prvProcessJobDocument_keeps_pool : keeps_pool.

Lemma prvNextJobHandler_keeps_pool (thing : cstring) (jobIdMax : Z)
    (ext : Externals) (pxPublishInfo : option MQTTPublishInfo_t) :
  keeps_pool (prvNextJobHandler thing jobIdMax ext pxPublishInfo).
Proof. unfold prvNextJobHandler. keeps_pool_walk. Qed.

#[global] Hint Resolve prvNextJobHandler_keeps_pool : keeps_pool.

(** Whatever the job identifier, the job-message callback takes no buffer
    from the pool. *)
Lemma prvProcessIncomingJobMessage_keeps_pool (thing : cstring)
    (blockSize jobIdMax : Z) (ext : Externals)
    (pPublishInfo : option MQTTPublishInfo_t) :
  keeps_pool (prvProcessIncomingJobMessage thing blockSize jobIdMax ext
                pPublishInfo).
Proof.
  unfold prvProcessIncomingJobMessage.
  apply keeps_pool_bind; [auto with keeps_pool|intros _].
  destruct pPublishInfo as [info|]; [|auto with keeps_pool].
  rewrite AFR_OTA_test_never_holds. keeps_pool_walk.
Qed.

(** C1.  A message whose job identifier begins with the update engine's
    prefix is handled on the custom-job path: it is logged as an accepted
    status update, no buffer of the pool is taken and no event is sent to
    the update engine. *)
Theorem prvProcessIncomingJobMessage_OTA_job_not_staged :
  lit "AFR_OTA" `prefix_of`
    default [] (match_pJobId
                  (ext_Jobs_MatchTopic ext_timeout
                     (pTopicName sample_job_message) (lit "dev1")))
  /\ prvProcessIncomingJobMessage (lit "dev1") 4096 64 ext_timeout
       (Some sample_job_message) (fresh_world 2)
     = Returned (tt,
         emitted [Log LogInfo "Received job message callback.";
                  Log LogInfo "Job update status request has been accepted by AWS Iot Jobs service."]
           (fresh_world 2)).
Proof.
  split.
  - exists (lit "-demo"). reflexivity.
  - reflexivity.
Qed.

(** * Further properties of the module *)

(** ** The classifier reads inside the topic *)

(** However it is started inside the topic, the scanning loop returns: it
    reads no byte at or after [topicFilterLength], moves both counters by
    the same amount, and stops at or before [topicFilterLength] if it moves
    at all. *)
Lemma extractField_in_bounds (p : cstring) (len : Z) (fuel : nat) :
  len <= Z.of_nat (length p) -> len <= 65535 ->
  forall si fl : Z,
    0 <= fl <= si ->
    exists si' fl',
      extractField fuel p len si fl = Some (si', fl')
      /\ si <= si' /\ fl' - fl = si' - si /\ (si' = si \/ si' <= len).
Proof.
  intros Hp Hlen. induction fuel as [|fuel IH]; intros si fl Hfl.
  - exists si, fl. cbn. repeat split; lia.
  - cbn [extractField]. destruct (si <? len) eqn:Hlt.
    2:{ exists si, fl. repeat split; lia. }
    apply Z.ltb_lt in Hlt.
    unfold char_at.
    replace ((0 <=? si) && (si <=? Z.of_nat (length p))) with true
      by (symmetry; apply andb_true_intro; split; apply Z.leb_le; lia).
    destruct (Ascii.eqb _ "/"%char).
    + exists si, fl. repeat split; lia.
    + rewrite (uint16_t_small (si + 1)), (uint16_t_small (fl + 1)) by lia.
      destruct (IH (si + 1) (fl + 1)) as (si' & fl' & -> & H1 & H2 & H3);
        [lia|].
      exists si', fl'. repeat split; lia.
Qed.

Lemma ptr_at_in_bounds (p : cstring) (i : Z) :
  0 <= i <= Z.of_nat (length p) -> ptr_at p i = Some (drop (Z.to_nat i) p).
Proof.
  intros H. unfold ptr_at.
  replace ((0 <=? i) && (i <=? Z.of_nat (length p))) with true; [reflexivity|].
  symmetry. apply andb_true_intro. split; apply Z.leb_le; lia.
Qed.

Lemma uint16_t_range (z : Z) : 0 <= uint16_t z < 65536.
Proof. unfold uint16_t. apply Z.mod_pos_bound. lia. Qed.

Lemma checkMessageType_in_bounds (p : cstring) (len si : Z) :
  len <= Z.of_nat (length p) -> len <= 65535 -> 0 <= si ->
  is_Some (checkMessageType p len si).
Proof.
  intros Hp Hlen Hsi. unfold checkMessageType.
  destruct (extractField_in_bounds p len (Z.to_nat len) Hp Hlen si 0)
    as (si' & fl' & -> & H1 & H2 & H3); [lia|].
  cbn [mbind option_bind].
  destruct (0 <? fl') eqn:Hpos; [|eexists; reflexivity].
  apply Z.ltb_lt in Hpos.
  rewrite ptr_at_in_bounds by lia. cbn [mbind option_bind].
  destruct (_ <? _); eexists; reflexivity.
Qed.

(** X1.  Given a length that does not exceed the string, the classifier
    returns a category: none of its reads, at any index it computes, falls
    outside the topic string and its terminator. *)
Theorem getOtaMessageType_reads_in_bounds (thing topic : cstring) (len : Z) :
  0 <= len <= Z.of_nat (length topic) ->
  Z.of_nat (length topic) <= 65535 ->
  is_Some (getOtaMessageType thing topic len).
Proof.
  intros Hlen Hmax. unfold getOtaMessageType.
  destruct (strncmp topic OTA_TOPIC_PREFIX (Z.to_nat OTA_TOPIC_PREFIX_LENGTH) =? 0);
    [|eexists; reflexivity].
  change (EXIT_SUCCESS =? EXIT_SUCCESS) with true. cbv iota.
  unfold checkThingName.
  destruct (extractField_in_bounds topic len (Z.to_nat len)
              ltac:(lia) ltac:(lia) OTA_TOPIC_PREFIX_LENGTH 0)
    as (si' & fl' & -> & H1 & H2 & H3); [cbv; split; discriminate|].
  cbn [mbind option_bind].
  assert (HP : OTA_TOPIC_PREFIX_LENGTH = 12) by reflexivity.
  destruct (0 <? fl') eqn:Hpos; [|eexists; reflexivity].
  apply Z.ltb_lt in Hpos.
  rewrite ptr_at_in_bounds by lia. cbn [mbind option_bind].
  destruct (strncmp _ thing _ =? 0); [|eexists; reflexivity].
  cbn [mbind option_bind]. change (EXIT_SUCCESS =? EXIT_SUCCESS) with true.
  cbv iota. apply checkMessageType_in_bounds; try lia.
  apply uint16_t_range.
Qed.

Lemma getOtaMessageType_reads_in_bounds_witness :
  is_Some (getOtaMessageType (lit "dev1") (lit "$aws/things/dev1/jobs/x") 17).
Proof.
  apply getOtaMessageType_reads_in_bounds; cbn; lia.
Defined.

(** ** What the classifier accepts *)

Lemma strncmp_prefix_zero (seg rest k : cstring) :
  seg `prefix_of` k -> strncmp (seg ++ rest) k (length seg) = 0.
Proof. intros [k' ->]. apply strncmp_app_same. Qed.

(** Over the length of a field without NUL, [strncmp] accepts a key only if
    the field is a beginning of the key. *)
Lemma strncmp_zero_inv (seg : cstring) :
  forall rest k : cstring,
    NUL ∉ seg -> strncmp (seg ++ rest) k (length seg) = 0 -> seg `prefix_of` k.
Proof.
  induction seg as [|c seg IH]; intros rest k Hnul H.
  - apply prefix_nil.
  - apply not_elem_of_cons in Hnul as [Hc Hnul].
    cbn [length app] in H. rewrite strncmp_S in H. cbn [hd tl] in H.
    destruct (Ascii.eqb c (hd NUL k)) eqn:E.
    + apply Ascii.eqb_eq in E.
      destruct k as [|d k]; cbn [hd tl] in *; [congruence|]. subst d.
      destruct (Ascii.eqb c NUL) eqn:E0.
      { apply Ascii.eqb_eq in E0. congruence. }
      apply prefix_cons, (IH rest k Hnul H).
    + exfalso. revert H. apply Z.eqb_neq, strncmp_step_diff, E.
Qed.

Lemma strncmp_zero_iff (seg rest k : cstring) :
  NUL ∉ seg ->
  (strncmp (seg ++ rest) k (length seg) =? 0) = true <-> seg `prefix_of` k.
Proof.
  intros Hnul. rewrite Z.eqb_eq. split.
  - apply strncmp_zero_inv, Hnul.
  - apply strncmp_prefix_zero.
Qed.

Lemma segment_elem_of (s : cstring) (x : ascii) : x ∈ segment s -> x ∈ s.
Proof.
  induction s as [|c s IH]; cbn [segment]; [trivial|].
  destruct (Ascii.eqb c "/"%char).
  - intros H. apply elem_of_nil in H. contradiction.
  - rewrite !elem_of_cons. intros [->|H]; [left; reflexivity|right; auto].
Qed.

Lemma thing_segment_no_NUL (topic : cstring) :
  NUL ∉ topic -> NUL ∉ thing_segment topic.
Proof.
  intros Hn H. apply Hn. unfold thing_segment in H.
  apply segment_elem_of in H. eapply subseteq_drop; eassumption.
Qed.

Lemma category_segment_no_NUL (topic : cstring) :
  NUL ∉ topic -> NUL ∉ category_segment topic.
Proof.
  intros Hn H. apply Hn. unfold category_segment, after_segment in H.
  apply segment_elem_of in H.
  eapply subseteq_drop. eapply subseteq_drop. eassumption.
Qed.

(** The classifier on a topic with the prefix, in terms of the topic's two
    segments. *)
Lemma getOtaMessageType_on_segments (thing topic : cstring) :
  Z.of_nat (length topic) <= 65535 ->
  OTA_TOPIC_PREFIX `prefix_of` topic ->
  exists rest tail,
    getOtaMessageType thing topic (Z.of_nat (length topic))
    = Some (if (0 <? Z.of_nat (length (thing_segment topic)))
               && (strncmp (thing_segment topic ++ rest) thing
                     (length (thing_segment topic)) =? 0)
            then
              if 0 <? Z.of_nat (length (category_segment topic))
              then
                let i := matchMessageString (category_segment topic ++ tail)
                           (length (category_segment topic))
                           pOtaMessageStrings 0 in
                if i <? OtaMessageType_to_Z OtaNumOfMessageType
                then OtaMessageType_of_Z i
                else OtaNumOfMessageType
              else OtaNumOfMessageType
            else OtaNumOfMessageType).
Proof.
  intros Hlen Hp.
  destruct (topic_split topic Hp) as (Ht & Hs & Hr).
  set (seg := thing_segment topic) in *.
  set (rest := drop (length seg) (drop (length OTA_TOPIC_PREFIX) topic)) in *.
  assert (Hcat : category_segment topic = segment (drop 1 rest)).
  { unfold category_segment, after_segment. fold (thing_segment topic).
    fold seg. change (S (length seg)) with (1 + length seg)%nat.
    rewrite Nat.add_comm, <- drop_drop. reflexivity. }
  exists rest, (drop (length (segment (drop 1 rest))) (drop 1 rest)).
  rewrite (getOtaMessageType_prefix _ _ _ Hp).
  rewrite (checkThingName_spec thing topic seg rest Ht Hs Hr Hlen).
  destruct ((0 <? Z.of_nat (length seg))
            && (strncmp (seg ++ rest) thing (length seg) =? 0));
    [|reflexivity].
  cbn [mbind option_bind]. rewrite Z.eqb_refl.
  assert (HP : OTA_TOPIC_PREFIX_LENGTH = 12) by reflexivity.
  assert (Hl : Z.of_nat (length topic)
               = OTA_TOPIC_PREFIX_LENGTH + Z.of_nat (length seg)
                 + Z.of_nat (length rest)).
  { rewrite Ht at 1. rewrite !length_app, OTA_TOPIC_PREFIX_LENGTH_eq. lia. }
  rewrite Hcat.
  destruct Hr as [Hr|[r Hr]].
  - rewrite Hr in Hl |- *. cbn [length] in Hl. rewrite Z.add_0_r in Hl.
    rewrite <- Hl. cbn.
    destruct (Z.eq_dec (Z.of_nat (length topic)) 65535) as [Hmax|Hmax].
    + replace (uint16_t (Z.of_nat (length topic) + 1)) with 0
        by (rewrite Hmax; reflexivity).
      apply checkMessageType_from_start; assumption.
    + rewrite uint16_t_small by lia.
      apply checkMessageType_past_end. lia.
  - rewrite Hr in Hl |- *. cbn [length] in Hl.
    change (drop 1 ("/"%char :: r)) with r.
    rewrite uint16_t_small by lia.
    replace (OTA_TOPIC_PREFIX_LENGTH + Z.of_nat (length seg) + 1)
      with (Z.of_nat (length (OTA_TOPIC_PREFIX ++ seg ++ ["/"%char])))
      by (rewrite !length_app, OTA_TOPIC_PREFIX_LENGTH_eq; cbn [length]; lia).
    apply (checkMessageType_spec topic _ (segment r)
             (drop (length (segment r)) r)).
    + rewrite <- segment_split. rewrite Ht at 1. rewrite Hr.
      rewrite <- !app_assoc. reflexivity.
    + apply segment_no_slash.
    + apply segment_rest.
    + exact Hlen.
Qed.

Lemma matchMessageString_table (field : cstring) (n : nat) :
  matchMessageString field n pOtaMessageStrings 0
  = if strncmp field OTA_TOPIC_JOBS n =? 0 then 0
    else if strncmp field OTA_TOPIC_STREAM n =? 0 then 1 else 2.
Proof. reflexivity. Qed.

Lemma nonempty_length_pos (s : cstring) :
  (0 <? Z.of_nat (length s)) = true <-> s <> [].
Proof.
  rewrite Z.ltb_lt. destruct s; cbn [length]; split; intros H;
    try lia; try congruence; try discriminate.
Qed.

(** A non-empty beginning of the second keyword is none of the first. *)
Lemma stream_prefix_not_jobs (cat : cstring) :
  cat <> [] -> cat `prefix_of` OTA_TOPIC_STREAM -> ~ cat `prefix_of` OTA_TOPIC_JOBS.
Proof.
  intros Hne Hs Hj. unfold OTA_TOPIC_STREAM in Hs. unfold OTA_TOPIC_JOBS in Hj.
  unfold lit in Hs, Hj. cbn [list_ascii_of_string] in Hs, Hj.
  destruct cat as [|c cat]; [congruence|].
  apply prefix_cons_inv_1 in Hs. apply prefix_cons_inv_1 in Hj.
  subst c. discriminate.
Qed.

(** X2.  For a topic without NUL, the classifier answers job exactly when
    the topic starts with the control prefix, its thing-name segment is a
    non-empty beginning of the device's name and its category segment is a
    non-empty beginning of the jobs keyword; and likewise stream for the
    streams keyword. *)
Theorem getOtaMessageType_accepts (thing topic : cstring) :
  Z.of_nat (length topic) <= 65535 ->
  NUL ∉ topic ->
  (getOtaMessageType thing topic (Z.of_nat (length topic))
   = Some OtaMessageTypeJob
   <-> accepted_under thing OTA_TOPIC_JOBS topic)
  /\ (getOtaMessageType thing topic (Z.of_nat (length topic))
      = Some OtaMessageTypeStream
      <-> accepted_under thing OTA_TOPIC_STREAM topic).
Proof.
  intros Hlen Hnul. unfold accepted_under.
  destruct (strncmp topic OTA_TOPIC_PREFIX (Z.to_nat OTA_TOPIC_PREFIX_LENGTH) =? 0)
    eqn:E.
  2:{ assert (Hp : ~ OTA_TOPIC_PREFIX `prefix_of` topic).
      { intros Hp. apply prefix_check_spec in Hp. congruence. }
      rewrite (getOtaMessageType_no_prefix _ _ _ Hp).
      split; (split; [discriminate|intros (H & _); contradiction]). }
  apply prefix_check_spec in E.
  destruct (getOtaMessageType_on_segments thing topic Hlen E)
    as (rest & tail & ->).
  pose proof (thing_segment_no_NUL topic Hnul) as Hn1.
  pose proof (category_segment_no_NUL topic Hnul) as Hn2.
  pose proof (nonempty_length_pos (thing_segment topic)) as Hs1.
  pose proof (nonempty_length_pos (category_segment topic)) as Hs2.
  pose proof (strncmp_zero_iff (thing_segment topic) rest thing Hn1) as Ht.
  pose proof (strncmp_zero_iff (category_segment topic) tail OTA_TOPIC_JOBS Hn2)
    as Hj.
  pose proof (strncmp_zero_iff (category_segment topic) tail OTA_TOPIC_STREAM Hn2)
    as Hst.
  pose proof (stream_prefix_not_jobs (category_segment topic)) as Hexcl.
  rewrite matchMessageString_table. cbv zeta.
  destruct (0 <? Z.of_nat (length (thing_segment topic)));
    destruct (strncmp (thing_segment topic ++ rest) thing
                (length (thing_segment topic)) =? 0);
    destruct (0 <? Z.of_nat (length (category_segment topic)));
    destruct (strncmp (category_segment topic ++ tail) OTA_TOPIC_JOBS
                (length (category_segment topic)) =? 0);
    destruct (strncmp (category_segment topic ++ tail) OTA_TOPIC_STREAM
                (length (category_segment topic)) =? 0);
    cbn; (split; (split; [try discriminate; intros _|intros (_ & A & B & C & D)]));
    try reflexivity; try (repeat split; tauto);
    try (exfalso; tauto); try (exfalso; intuition discriminate).
Qed.

Lemma getOtaMessageType_accepts_witness :
  getOtaMessageType (lit "dev1") (lit "$aws/things/de/str/x")
    (Z.of_nat (length (lit "$aws/things/de/str/x")))
  = Some OtaMessageTypeStream.
Proof.
  apply (proj2 (getOtaMessageType_accepts (lit "dev1")
                  (lit "$aws/things/de/str/x") ltac:(cbn; lia)
                  ltac:(unfold lit; cbn; rewrite !not_elem_of_cons;
                        repeat split; try discriminate; apply not_elem_of_nil))).
  repeat split.
  - exists (lit "de/str/x"). reflexivity.
  - discriminate.
  - exists (lit "v1"). reflexivity.
  - discriminate.
  - exists (lit "eams"). reflexivity.
Defined.

(** ** What [prvGetAction] accepts *)

(** Turns a decided comparison [b = true <-> P] into [P] or its negation. *)
Ltac settle_iff H :=
  match type of H with
  | (true = true) <-> ?P => assert P by (apply H; reflexivity)
  | (false = true) <-> ?P =>
      assert (~ P) by (let X := fresh in intros X; apply H in X; discriminate)
  end; clear H.

(** X3.  For an action without NUL, [prvGetAction] answers by the first
    keyword, in the order print, publish, exit, that the action is a
    beginning of, and unknown exactly when it is a beginning of none: an
    action that continues past a keyword is unknown. *)
Theorem prvGetAction_accepts (action rest : cstring) :
  NUL ∉ action ->
  let result := prvGetAction (action ++ rest) (length action) in
  (result = JOB_ACTION_PRINT <-> action `prefix_of` lit "print")
  /\ (result = JOB_ACTION_PUBLISH
      <-> ~ action `prefix_of` lit "print" /\ action `prefix_of` lit "publish")
  /\ (result = JOB_ACTION_EXIT
      <-> ~ action `prefix_of` lit "print" /\ ~ action `prefix_of` lit "publish"
          /\ action `prefix_of` lit "exit")
  /\ (result = JOB_ACTION_UNKNOWN
      <-> ~ action `prefix_of` lit "print" /\ ~ action `prefix_of` lit "publish"
          /\ ~ action `prefix_of` lit "exit").
Proof.
  intros Hnul result. subst result. unfold prvGetAction.
  pose proof (strncmp_zero_iff action rest (lit "print") Hnul) as H1.
  pose proof (strncmp_zero_iff action rest (lit "publish") Hnul) as H2.
  pose proof (strncmp_zero_iff action rest (lit "exit") Hnul) as H3.
  destruct (strncmp (action ++ rest) (lit "print") (length action) =? 0);
    destruct (strncmp (action ++ rest) (lit "publish") (length action) =? 0);
    destruct (strncmp (action ++ rest) (lit "exit") (length action) =? 0);
    settle_iff H1; settle_iff H2; settle_iff H3;
    repeat split; intros; try discriminate; try reflexivity; tauto.
Qed.

Lemma prvGetAction_accepts_witness :
  prvGetAction (lit "printer") 7 = JOB_ACTION_UNKNOWN.
Proof.
  apply (proj2 (proj2 (proj2 (prvGetAction_accepts (lit "printer") []
           ltac:(unfold lit; cbn; rewrite !not_elem_of_cons;
                 repeat split; try discriminate; apply not_elem_of_nil))))).
  unfold lit; cbn [list_ascii_of_string].
  repeat split; intros H.
  - do 5 apply prefix_cons_inv_2 in H. apply prefix_nil_inv in H. discriminate.
  - apply prefix_cons_inv_2 in H. revert H. apply not_prefix_by_head. discriminate.
  - revert H. apply not_prefix_by_head. discriminate.
Defined.

(** ** The pool under acquire and release *)

Lemma firstFreeBuffer_spec (bufs : list OtaEventData_t) :
  forall k i : nat,
    firstFreeBuffer k bufs = Some i ->
    (k <= i)%nat
    /\ (exists b, bufs !! (i - k)%nat = Some b /\ bufferUsed b = false)
    /\ (forall j b, (j < i - k)%nat -> bufs !! j = Some b -> bufferUsed b = true).
Proof.
  induction bufs as [|b0 bufs IH]; intros k i H; cbn in H; [discriminate|].
  destruct (bufferUsed b0) eqn:Hb0; cbn in H.
  - destruct (IH (S k) i H) as (Hle & (b & Hb & Hfree) & Hused).
    split; [lia|]. split.
    + exists b. replace (i - k)%nat with (S (i - S k)) by lia. split; assumption.
    + intros j b' Hj Hl. destruct j as [|j]; cbn in Hl.
      * injection Hl as <-. exact Hb0.
      * apply (Hused j b'); [lia|exact Hl].
  - injection H as <-. rewrite Nat.sub_diag. split; [lia|]. split.
    + exists b0. split; [reflexivity|exact Hb0].
    + intros j b' Hj. lia.
Qed.

Lemma prvOTAEventBufferGet_Some_inv (ext : Externals) (w w' : World)
    (i : nat) :
  prvOTAEventBufferGet ext w = Returned (Some i, w') ->
  (exists b, eventBuffer w !! i = Some b /\ bufferUsed b = false)
  /\ (forall j b, (j < i)%nat -> eventBuffer w !! j = Some b ->
                  bufferUsed b = true)
  /\ w' = with_eventBuffer (alter (set_bufferUsed true) i (eventBuffer w)) w.
Proof.
  unfold prvOTAEventBufferGet. destruct (ext_xSemaphoreTake ext).
  2:{ demo_run. discriminate. }
  unfold mbind, demoM_bind, get_eventBuffer.
  destruct (firstFreeBuffer 0 (eventBuffer w)) as [k|] eqn:Hk;
    [|demo_run; discriminate].
  demo_run. intros H. injection H as -> <-.
  destruct (firstFreeBuffer_spec _ _ _ Hk) as (_ & Hfree & Hused).
  rewrite Nat.sub_0_r in Hfree, Hused. repeat split; assumption.
Qed.

(** X4.  An acquire that hands out slot [i] found it free and every slot
    below it used; it marks that slot and changes nothing else. *)
Theorem prvOTAEventBufferGet_lowest_free (ext : Externals) (w w' : World)
    (i : nat) :
  prvOTAEventBufferGet ext w = Returned (Some i, w') ->
  (exists b, eventBuffer w !! i = Some b /\ bufferUsed b = false)
  /\ (forall j b, (j < i)%nat -> eventBuffer w !! j = Some b ->
                  bufferUsed b = true)
  /\ w' = with_eventBuffer (alter (set_bufferUsed true) i (eventBuffer w)) w.
Proof. exact (prvOTAEventBufferGet_Some_inv ext w w' i). Qed.

Lemma prvOTAEventBufferGet_lowest_free_witness :
  exists b, eventBuffer (fresh_world 2) !! 0%nat = Some b /\ bufferUsed b = false.
Proof.
  apply (prvOTAEventBufferGet_lowest_free ext_timeout (fresh_world 2)
           (with_eventBuffer [set_bufferUsed true free_slot; free_slot]
              (fresh_world 2)) 0 eq_refl).
Defined.

Lemma alter_alter_same {A : Type} (f g : A -> A) (l : list A) (i : nat) (x : A) :
  l !! i = Some x -> g (f x) = x -> alter g i (alter f i l) = l.
Proof.
  revert i. induction l as [|y l IH]; intros [|i] Hl Hgf; cbn in *;
    try discriminate.
  - injection Hl as ->. rewrite Hgf. reflexivity.
  - f_equal. eapply IH; eassumption.
Qed.

(** X5.  Released at once, an acquired slot leaves the whole state exactly
    as it was before the acquire. *)
Theorem acquire_release_round_trip (ext : Externals) (w w' : World) (i : nat) :
  prvOTAEventBufferGet ext w = Returned (Some i, w') ->
  prvOTAEventBufferFree ext i w' = Returned (tt, w).
Proof.
  intros Hget.
  assert (Hsem : ext_xSemaphoreTake ext = true).
  { unfold prvOTAEventBufferGet in Hget.
    destruct (ext_xSemaphoreTake ext); [reflexivity|].
    revert Hget. demo_run. discriminate. }
  destruct (prvOTAEventBufferGet_Some_inv ext w w' i Hget)
    as ((b & Hb & Hfree) & _ & ->).
  unfold prvOTAEventBufferFree. rewrite Hsem.
  unfold mbind, demoM_bind, get_eventBuffer. cbn [eventBuffer with_eventBuffer].
  rewrite bool_decide_eq_true_2
    by (rewrite length_alter; eapply lookup_lt_Some; exact Hb).
  unfold put_eventBuffer. cbn.
  rewrite (alter_alter_same _ _ _ i b Hb)
    by (destruct b; cbn in Hfree; subst; reflexivity).
  destruct w; reflexivity.
Qed.

Lemma acquire_release_round_trip_witness :
  prvOTAEventBufferFree ext_timeout 0
    (with_eventBuffer [set_bufferUsed true free_slot; free_slot] (fresh_world 2))
  = Returned (tt, fresh_world 2).
Proof.
  apply (acquire_release_round_trip ext_timeout (fresh_world 2)). reflexivity.
Defined.

(** X6.  Two acquires in a row, without a release between them, hand out
    different slots, the second above the first. *)
Theorem acquire_twice_distinct (ext : Externals) (w w1 w2 : World) (i j : nat) :
  prvOTAEventBufferGet ext w = Returned (Some i, w1) ->
  prvOTAEventBufferGet ext w1 = Returned (Some j, w2) ->
  (i < j)%nat.
Proof.
  intros H1 H2.
  destruct (prvOTAEventBufferGet_Some_inv ext w w1 i H1)
    as ((b & Hb & Hfree) & Hbelow & ->).
  destruct (prvOTAEventBufferGet_Some_inv ext _ w2 j H2)
    as ((b' & Hb' & Hfree') & _ & _).
  cbn [eventBuffer with_eventBuffer] in Hb'.
  destruct (Nat.lt_trichotomy i j) as [Hlt|[Heq|Hgt]]; [exact Hlt| |].
  - subst j. rewrite list_lookup_alter_eq, Hb in Hb'. cbn in Hb'.
    injection Hb' as <-. discriminate.
  - rewrite list_lookup_alter_ne in Hb' by lia.
    rewrite (Hbelow j b' Hgt Hb') in Hfree'. discriminate.
Qed.

Lemma acquire_twice_distinct_witness : (0 < 1)%nat.
Proof.
  apply (acquire_twice_distinct ext_timeout (fresh_world 2)
           (with_eventBuffer [set_bufferUsed true free_slot; free_slot]
              (fresh_world 2))
           (with_eventBuffer
              [set_bufferUsed true free_slot; set_bufferUsed true free_slot]
              (fresh_world 2)) 0 1); reflexivity.
Defined.

Lemma fmap_alter_preserved {A B : Type} (h : A -> B) (f : A -> A)
    (l : list A) (i : nat) :
  (forall x, h (f x) = h x) -> h <$> alter f i l = h <$> l.
Proof.
  intros Hf. revert i. induction l as [|y l IH]; intros [|i]; cbn;
    try reflexivity.
  - rewrite Hf. reflexivity.
  - f_equal. apply IH.
Qed.

(** X7.  Acquire and release touch the flags only: whatever they return,
    the number of slots, the stored data and the stored lengths are as
    before. *)
Theorem pool_contents_preserved (ext : Externals) (w w' : World) :
  (forall r, prvOTAEventBufferGet ext w = Returned (r, w') ->
             data <$> eventBuffer w' = data <$> eventBuffer w
             /\ dataLength <$> eventBuffer w' = dataLength <$> eventBuffer w)
  /\ (forall i, prvOTAEventBufferFree ext i w = Returned (tt, w') ->
                data <$> eventBuffer w' = data <$> eventBuffer w
                /\ dataLength <$> eventBuffer w' = dataLength <$> eventBuffer w).
Proof.
  split.
  - intros r. unfold prvOTAEventBufferGet.
    destruct (ext_xSemaphoreTake ext).
    2:{ demo_run. intros H. injection H as _ <-. split; reflexivity. }
    unfold mbind, demoM_bind, get_eventBuffer.
    destruct (firstFreeBuffer 0 (eventBuffer w)) as [k|].
    + demo_run. intros H. injection H as _ <-. cbn.
      split; apply fmap_alter_preserved; reflexivity.
    + demo_run. intros H. injection H as _ <-. split; reflexivity.
  - intros i. unfold prvOTAEventBufferFree.
    destruct (ext_xSemaphoreTake ext).
    2:{ demo_run. intros H. injection H as <-. split; reflexivity. }
    unfold mbind, demoM_bind, get_eventBuffer.
    destruct (bool_decide (i < length (eventBuffer w))%nat);
      [|demo_run; discriminate].
    demo_run. intros H. injection H as <-. cbn.
    split; apply fmap_alter_preserved; reflexivity.
Qed.

Lemma pool_contents_preserved_witness :
  data <$> eventBuffer
             (with_eventBuffer [set_bufferUsed true free_slot; free_slot]
                (fresh_world 2))
  = data <$> eventBuffer (fresh_world 2).
Proof.
  apply (proj1 (pool_contents_preserved ext_timeout (fresh_world 2) _)
           (Some 0%nat)).
  reflexivity.
Defined.

(** ** The data-block callback *)

(** A block whose payload exceeds the block size stops the data-block
    callback at an assertion, whatever the state of the pool; so does a NULL
    publish info. *)
Theorem prvProcessIncomingData_asserts (blockSize : Z) (ext : Externals)
    (w : World) :
  prvProcessIncomingData blockSize ext None w = AssertFailed
  /\ forall info, blockSize < payloadLength info ->
       prvProcessIncomingData blockSize ext (Some info) w = AssertFailed.
Proof.
  split; [reflexivity|]. intros info Hbig. unfold prvProcessIncomingData.
  demo_run. replace (payloadLength info <=? blockSize) with false; [reflexivity|].
  symmetry. apply Z.leb_gt, Hbig.
Qed.

Lemma prvProcessIncomingData_asserts_witness :
  prvProcessIncomingData 4 ext_timeout
    (Some {| pTopicName := lit "t"; pPayload := Some (lit "12345") |})
    (fresh_world 1)
  = AssertFailed.
Proof.
  apply (proj2 (prvProcessIncomingData_asserts 4 ext_timeout (fresh_world 1))).
  unfold payloadLength. cbn. lia.
Defined.

(** X8.  A block of at most the block size, arriving while the lowest free
    slot follows the used slots [U]: the payload is copied to the start of
    that slot's data, the length is set, the slot is marked, and a
    block-received event for that slot is sent to the update engine. *)
Theorem prvProcessIncomingData_stages (blockSize : Z) (ext : Externals)
    (w : World) (info : MQTTPublishInfo_t)
    (U rest : list OtaEventData_t) (b : OtaEventData_t) :
  ext_xSemaphoreTake ext = true ->
  payloadLength info <= blockSize ->
  eventBuffer w = U ++ b :: rest -> all_used U -> bufferUsed b = false ->
  let payload := default [] (pPayload info) in
  prvProcessIncomingData blockSize ext (Some info) w
  = Returned (tt,
      emitted [Log LogDebug "Received OTA image block.";
               OTA_SignalEvent OtaAgentEventReceivedFileBlock (Some (length U))]
        (with_eventBuffer
           (U ++ {| data := payload ++ drop (length payload) (data b);
                    dataLength := Z.of_nat (length payload);
                    bufferUsed := true |} :: rest) w)).
Proof.
  intros Hsem Hsize Hw HU Hb payload. unfold prvProcessIncomingData.
  unfold mbind at 1, demoM_bind at 1. cbn [configASSERT not_NULL].
  unfold mbind at 1, demoM_bind at 1, emit at 1.
  unfold mbind at 1, demoM_bind at 1.
  replace (payloadLength info <=? blockSize) with true
    by (symmetry; apply Z.leb_le, Hsize).
  cbn [configASSERT].
  unfold mbind at 1, demoM_bind at 1.
  rewrite (prvOTAEventBufferGet_first_free ext _ U rest b Hsem) by assumption.
  unfold stage_and_signal. demo_run. rewrite alter_middle.
  subst payload. unfold fill_buffer, set_bufferUsed. cbn. trace_norm.
  reflexivity.
Qed.

Lemma prvProcessIncomingData_stages_witness :
  prvProcessIncomingData 4096 ext_timeout
    (Some {| pTopicName := lit "t"; pPayload := Some (lit "block") |})
    (fresh_world 2)
  = Returned (tt,
      emitted [Log LogDebug "Received OTA image block.";
               OTA_SignalEvent OtaAgentEventReceivedFileBlock (Some 0%nat)]
        (with_eventBuffer
           [{| data := lit "block"; dataLength := 5; bufferUsed := true |};
            free_slot] (fresh_world 2))).
Proof.
  apply (prvProcessIncomingData_stages 4096 ext_timeout (fresh_world 2)
           {| pTopicName := lit "t"; pPayload := Some (lit "block") |}
           [] [free_slot] free_slot eq_refl).
  - unfold payloadLength. cbn. lia.
  - reflexivity.
  - constructor.
  - reflexivity.
Defined.

(** X9.  A block that arrives while every slot is used is dropped: an
    error is logged, the pool keeps its contents and no event is sent. *)
Theorem prvProcessIncomingData_drops (blockSize : Z) (ext : Externals)
    (w : World) (info : MQTTPublishInfo_t) :
  ext_xSemaphoreTake ext = true ->
  payloadLength info <= blockSize ->
  all_used (eventBuffer w) ->
  prvProcessIncomingData blockSize ext (Some info) w
  = Returned (tt,
      emitted [Log LogDebug "Received OTA image block.";
               Log LogError "Error: No OTA data buffers available."] w).
Proof.
  intros Hsem Hsize HU. unfold prvProcessIncomingData.
  unfold mbind at 1, demoM_bind at 1. cbn [configASSERT not_NULL].
  unfold mbind at 1, demoM_bind at 1, emit at 1.
  unfold mbind at 1, demoM_bind at 1.
  replace (payloadLength info <=? blockSize) with true
    by (symmetry; apply Z.leb_le, Hsize).
  cbn [configASSERT].
  unfold mbind at 1, demoM_bind at 1.
  rewrite prvOTAEventBufferGet_exhausted by assumption.
  demo_run. trace_norm. reflexivity.
Qed.

Lemma prvProcessIncomingData_drops_witness :
  prvProcessIncomingData 4096 ext_timeout
    (Some {| pTopicName := lit "t"; pPayload := Some (lit "block") |})
    (with_eventBuffer [set_bufferUsed true free_slot] (fresh_world 1))
  = Returned (tt,
      emitted [Log LogDebug "Received OTA image block.";
               Log LogError "Error: No OTA data buffers available."]
        (with_eventBuffer [set_bufferUsed true free_slot] (fresh_world 1))).
Proof.
  apply (prvProcessIncomingData_drops 4096 ext_timeout);
    [reflexivity|unfold payloadLength; cbn; lia|].
  repeat constructor.
Defined.

(** X10.  A block that is received and then reported as processed by the
    update engine leaves the flags of the pool as they were: the slot that
    held the block is free again. *)
Theorem receive_then_processed_frees (blockSize : Z) (ext : Externals)
    (w w1 : World) (info : MQTTPublishInfo_t) (i : nat) :
  prvProcessIncomingData blockSize ext (Some info) w = Returned (tt, w1) ->
  last (trace w1) = Some (OTA_SignalEvent OtaAgentEventReceivedFileBlock (Some i)) ->
  exists w2,
    otaAppCallback ext OtaJobEventProcessed (Some i) w1 = Returned (tt, w2)
    /\ bufferUsed <$> eventBuffer w2 = bufferUsed <$> eventBuffer w.
Proof.
  unfold prvProcessIncomingData.
  unfold mbind at 1, demoM_bind at 1. cbn [configASSERT not_NULL].
  unfold mbind at 1, demoM_bind at 1, emit at 1.
  unfold mbind at 1, demoM_bind at 1.
  destruct (payloadLength info <=? blockSize); [|discriminate].
  cbn [configASSERT]. unfold mbind at 1, demoM_bind at 1.
  destruct (prvOTAEventBufferGet ext _) as [[[k|] w0]| |] eqn:Hget;
    try discriminate.
  - destruct (prvOTAEventBufferGet_Some_inv ext _ w0 k Hget)
      as ((b & Hb & Hfree) & _ & ->).
    assert (Hsem : ext_xSemaphoreTake ext = true).
    { unfold prvOTAEventBufferGet in Hget.
      destruct (ext_xSemaphoreTake ext); [reflexivity|].
      revert Hget. demo_run. discriminate. }
    cbn [eventBuffer] in Hb.
    unfold stage_and_signal. demo_run. intros H Hlast.
    injection H as <-. cbn [trace] in Hlast.
    rewrite last_snoc in Hlast. injection Hlast as <-.
    unfold otaAppCallback, prvOTAEventBufferFree. rewrite Hsem. demo_run.
    rewrite bool_decide_eq_true_2
      by (rewrite !length_alter; eapply lookup_lt_Some; exact Hb).
    eexists. split; [reflexivity|]. cbn [eventBuffer].
    apply list_eq. intros j. rewrite !list_lookup_fmap.
    destruct (decide (j = k)) as [->|Hne].
    + rewrite !list_lookup_alter_eq, Hb. cbn. rewrite Hfree. reflexivity.
    + rewrite !list_lookup_alter_ne by congruence. reflexivity.
  - demo_run. intros H Hlast. injection H as <-. cbn [trace] in Hlast.
    rewrite last_snoc in Hlast. discriminate.
Qed.

Lemma receive_then_processed_frees_witness :
  exists w2,
    otaAppCallback ext_timeout OtaJobEventProcessed (Some 0%nat)
      (emitted [Log LogDebug "Received OTA image block.";
                OTA_SignalEvent OtaAgentEventReceivedFileBlock (Some 0%nat)]
         (with_eventBuffer
            [{| data := lit "block"; dataLength := 5; bufferUsed := true |};
             free_slot] (fresh_world 2)))
    = Returned (tt, w2)
    /\ bufferUsed <$> eventBuffer w2 = bufferUsed <$> eventBuffer (fresh_world 2).
Proof.
  apply (receive_then_processed_frees 4096 ext_timeout (fresh_world 2) _
           {| pTopicName := lit "t"; pPayload := Some (lit "block") |} 0);
    reflexivity.
Defined.

(** ** The application callback and the pool *)

(** Of the events of the update engine, only the processed event
    touches the pool: for every other event the callback returns with the
    pool as it was; and a processed event without a buffer stops at an
    assertion. *)
Theorem otaAppCallback_pool (ext : Externals) (w : World) :
  (forall event pData, event <> OtaJobEventProcessed ->
     exists w', otaAppCallback ext event pData w = Returned (tt, w')
                /\ eventBuffer w' = eventBuffer w)
  /\ otaAppCallback ext OtaJobEventProcessed None w = AssertFailed.
Proof.
  split; [|reflexivity].
  intros event pData Hne.
  destruct event; try congruence; unfold otaAppCallback;
    try (eexists; split; reflexivity).
  destruct (ext_OTA_SetImageState ext); eexists; split; reflexivity.
Qed.

Lemma otaAppCallback_pool_witness :
  exists w', otaAppCallback ext_timeout OtaJobEventSelfTestFailed None
               (fresh_world 2) = Returned (tt, w')
             /\ eventBuffer w' = eventBuffer (fresh_world 2).
Proof.
  apply (proj1 (otaAppCallback_pool ext_timeout (fresh_world 2))).
  discriminate.
Defined.

(** ** Results of the command bridge *)

Lemma MQTTStatus_eqb_eq (a b : MQTTStatus_t) :
  MQTTStatus_eqb a b = true <-> a = b.
Proof.
  destruct a, b; cbn; split; intros H; try discriminate; try reflexivity.
  - apply Z.eqb_eq in H. subst. reflexivity.
  - injection H as ->. apply Z.eqb_refl.
Qed.

Lemma MQTTStatus_eqb_neq (a b : MQTTStatus_t) :
  MQTTStatus_eqb a b = false <-> a <> b.
Proof.
  rewrite <- MQTTStatus_eqb_eq. destruct (MQTTStatus_eqb a b); split;
    intros; try discriminate; try congruence.
Qed.

(** X11.  A subscribe always returns; it returns success exactly when the
    enqueue succeeds and the completion arrives in time with success, and
    exactly then has the receive callback been handed to the subscription
    registry for the topic filter; it removes nothing from the registry. *)
Theorem prvSubscribeToTopic_registers (ext : Externals) (qos : Z)
    (filter : cstring) (cb : IncomingPubCallback_t) (w : World) :
  exists st es,
    prvSubscribeToTopic ext qos filter cb w = Returned (st, emitted es w)
    /\ (st = MQTTSuccess
        <-> ext_MQTTAgent_Subscribe ext = MQTTSuccess
            /\ ext_xTaskNotifyWait ext = Some MQTTSuccess)
    /\ (addSubscription filter (Some cb) ∈ es <-> st = MQTTSuccess)
    /\ (forall f, removeSubscription f ∉ es).
Proof.
  unfold prvSubscribeToTopic, xTaskNotifyWait_subscription,
    prvSubscriptionCommandCallback.
  destruct (MQTTStatus_eqb (ext_MQTTAgent_Subscribe ext) MQTTSuccess) eqn:Eenq.
  - apply MQTTStatus_eqb_eq in Eenq.
    destruct (ext_xTaskNotifyWait ext) as [st|].
    + destruct (MQTTStatus_eqb st MQTTSuccess) eqn:Est.
      * apply MQTTStatus_eqb_eq in Est. subst st.
        destruct (ext_addSubscription ext);
          (eexists _, _; split;
           [demo_run; trace_norm; reflexivity|]);
          (split; [tauto|]);
          (split; [rewrite !elem_of_cons; tauto|]);
          intros f; rewrite !not_elem_of_cons;
          repeat split; try discriminate; apply not_elem_of_nil.
      * apply MQTTStatus_eqb_neq in Est.
        eexists _, _; split; [demo_run; trace_norm; reflexivity|].
        split; [split; [congruence|intros [_ H]; congruence]|].
        split.
        { rewrite !elem_of_cons, elem_of_nil.
          split; [intros [H|[H|[]]]; discriminate|congruence]. }
        intros f; rewrite !not_elem_of_cons;
          repeat split; try discriminate; apply not_elem_of_nil.
    + eexists _, _; split; [demo_run; trace_norm; reflexivity|].
      split; [split; [discriminate|intros [_ H]; discriminate]|].
      split.
      { rewrite !elem_of_cons, elem_of_nil.
        split; [intros [H|[H|[]]]; discriminate|discriminate]. }
      intros f; rewrite !not_elem_of_cons;
        repeat split; try discriminate; apply not_elem_of_nil.
  - apply MQTTStatus_eqb_neq in Eenq.
    eexists _, _; split; [demo_run; trace_norm; reflexivity|].
    split; [split; [congruence|intros [H _]; congruence]|].
    split.
    { rewrite !elem_of_cons, elem_of_nil.
      split; [intros [H|[H|[]]]; discriminate|congruence]. }
    intros f; rewrite !not_elem_of_cons;
      repeat split; try discriminate; apply not_elem_of_nil.
Qed.

(** Decides whether an event is one of a list of explicit events. *)
Ltac elem_solve :=
  rewrite ?elem_of_cons, ?elem_of_nil;
  first [ solve [intuition (try discriminate; try congruence)]
        | solve [repeat (first [left; reflexivity | right])] ].

Lemma otaMessageCallback_lookup (cls : OtaMessageType_t) :
  otaMessageCallback !! Z.to_nat (OtaMessageType_to_Z cls)
  = match cls with
    | OtaMessageTypeJob => Some cb_prvProcessIncomingJobMessage
    | OtaMessageTypeStream => Some cb_prvProcessIncomingData
    | OtaNumOfMessageType => None
    end.
Proof. destruct cls; reflexivity. Qed.

(** X12.  A subscribe for a job or stream filter that the broker
    acknowledges returns success after handing the registry the callback of
    the filter's class, the job-message callback for a job filter and the
    data-block callback for a stream filter; a registry that refuses the
    entry costs a log line and nothing else. *)
Theorem prvMQTTSubscribe_acknowledged (thing : cstring) (ext : Externals)
    (filter : cstring) (len qos : Z) (w : World) (cls : OtaMessageType_t) :
  0 < len ->
  getOtaMessageType thing filter len = Some cls ->
  cls <> OtaNumOfMessageType ->
  ext_MQTTAgent_Subscribe ext = MQTTSuccess ->
  ext_xTaskNotifyWait ext = Some MQTTSuccess ->
  let cb := match cls with
            | OtaMessageTypeJob => cb_prvProcessIncomingJobMessage
            | _ => cb_prvProcessIncomingData
            end in
  prvMQTTSubscribe thing ext (Some filter) len qos w
  = Returned (OtaMqttSuccess,
      emitted ([Log LogInfo "Subscribing to topic filter";
                MQTTAgent_Subscribe filter qos;
                addSubscription filter (Some cb)]
               ++ (if ext_addSubscription ext then []
                   else [Log LogError "Failed to register an incoming publish callback for topic."])
               ++ [Log LogInfo "SUBSCRIBE topic to broker."]) w).
Proof.
  intros Hlen Hcls Hne Henq Hwait cb. subst cb.
  unfold prvMQTTSubscribe. cbn [from_option id not_NULL]. rewrite Hcls.
  apply Z.ltb_lt in Hlen. rewrite Hlen, otaMessageCallback_lookup.
  unfold prvSubscribeToTopic, xTaskNotifyWait_subscription,
    prvSubscriptionCommandCallback.
  rewrite Henq, Hwait.
  destruct cls; try congruence; destruct (ext_addSubscription ext);
    demo_run; trace_norm; reflexivity.
Qed.

Lemma prvMQTTSubscribe_acknowledged_witness :
  prvMQTTSubscribe (lit "dev1") ext_acknowledged
    (Some (lit "$aws/things/dev1/streams/s/data/cbor")) 36 1 (fresh_world 1)
  = Returned (OtaMqttSuccess,
      emitted [Log LogInfo "Subscribing to topic filter";
               MQTTAgent_Subscribe (lit "$aws/things/dev1/streams/s/data/cbor") 1;
               addSubscription (lit "$aws/things/dev1/streams/s/data/cbor")
                 (Some cb_prvProcessIncomingData);
               Log LogError "Failed to register an incoming publish callback for topic.";
               Log LogInfo "SUBSCRIBE topic to broker."] (fresh_world 1)).
Proof.
  apply (prvMQTTSubscribe_acknowledged (lit "dev1") ext_acknowledged
           (lit "$aws/things/dev1/streams/s/data/cbor") 36 1 (fresh_world 1)
           OtaMessageTypeStream);
    try reflexivity. discriminate.
Defined.

(** X13.  A subscribe returns success only if the filter is a job or stream
    filter, the enqueue succeeded and the completion arrived in time with
    success. *)
Theorem prvMQTTSubscribe_success_only_if (thing : cstring) (ext : Externals)
    (p : option cstring) (len qos : Z) (w w' : World) :
  prvMQTTSubscribe thing ext p len qos w = Returned (OtaMqttSuccess, w') ->
  exists filter cls,
    p = Some filter /\ 0 < len
    /\ getOtaMessageType thing filter len = Some cls
    /\ cls <> OtaNumOfMessageType
    /\ ext_MQTTAgent_Subscribe ext = MQTTSuccess
    /\ ext_xTaskNotifyWait ext = Some MQTTSuccess.
Proof.
  destruct p as [filter|]; [|discriminate].
  unfold prvMQTTSubscribe. cbn [from_option id not_NULL].
  destruct (0 <? len) eqn:Hlen; [|demo_run; discriminate].
  apply Z.ltb_lt in Hlen.
  destruct (getOtaMessageType thing filter len) as [cls|] eqn:Hcls;
    [|demo_run; discriminate].
  rewrite otaMessageCallback_lookup.
  intros H. exists filter, cls.
  assert (Hne : cls <> OtaNumOfMessageType).
  { intros ->. revert H. demo_run. discriminate. }
  repeat split; try assumption.
  - destruct (MQTTStatus_eqb (ext_MQTTAgent_Subscribe ext) MQTTSuccess) eqn:E;
      [apply MQTTStatus_eqb_eq, E|].
    exfalso. revert H.
    unfold prvSubscribeToTopic. rewrite E.
    destruct cls; try congruence; demo_run; rewrite E; discriminate.
  - revert H.
    unfold prvSubscribeToTopic, xTaskNotifyWait_subscription,
      prvSubscriptionCommandCallback.
    destruct (MQTTStatus_eqb (ext_MQTTAgent_Subscribe ext) MQTTSuccess) eqn:E;
      [|destruct cls; try congruence; demo_run; rewrite E; discriminate].
    destruct (ext_xTaskNotifyWait ext) as [st|];
      [|destruct cls; try congruence; demo_run; discriminate].
    destruct (MQTTStatus_eqb st MQTTSuccess) eqn:Est.
    + apply MQTTStatus_eqb_eq in Est. subst st. reflexivity.
    + destruct cls; try congruence; demo_run; rewrite Est; discriminate.
Qed.

Lemma prvMQTTSubscribe_success_only_if_witness :
  exists filter cls,
    Some (lit "$aws/things/dev1/streams/s/data/cbor") = Some filter /\ 0 < 36
    /\ getOtaMessageType (lit "dev1") filter 36 = Some cls
    /\ cls <> OtaNumOfMessageType
    /\ ext_MQTTAgent_Subscribe ext_acknowledged = MQTTSuccess
    /\ ext_xTaskNotifyWait ext_acknowledged = Some MQTTSuccess.
Proof.
  eapply (prvMQTTSubscribe_success_only_if (lit "dev1") ext_acknowledged
            _ 36 1 (fresh_world 1)).
  cbv. reflexivity.
Defined.

(** X14.  A publish always returns: it hands the agent one publish command
    with the given topic, payload and quality of service, writes one log
    line, and returns success exactly when the enqueue succeeds and the
    completion arrives in time with success, the publish-failed code
    otherwise. *)
Theorem prvMQTTPublish_result (ext : Externals) (topic msg : cstring)
    (qos : Z) (w : World) :
  exists r e,
    prvMQTTPublish ext topic msg qos w
    = Returned (r, emitted [MQTTAgent_Publish topic msg qos; e] w)
    /\ is_log e = true
    /\ (r = OtaMqttSuccess
        <-> ext_MQTTAgent_Publish ext = MQTTSuccess
            /\ ext_xTaskNotifyWait ext = Some MQTTSuccess)
    /\ (r = OtaMqttSuccess \/ r = OtaMqttPublishFailed).
Proof.
  unfold prvMQTTPublish, prvMQTTPublish_mqttStatus, xTaskNotifyWait_publish.
  destruct (MQTTStatus_eqb (ext_MQTTAgent_Publish ext) MQTTSuccess) eqn:Eenq.
  - apply MQTTStatus_eqb_eq in Eenq.
    destruct (ext_xTaskNotifyWait ext) as [st|].
    + destruct (MQTTStatus_eqb st MQTTSuccess) eqn:Est.
      * apply MQTTStatus_eqb_eq in Est. subst st.
        eexists _, _. split; [demo_run; trace_norm; reflexivity|].
        repeat split; auto.
      * eexists _, _. split; [demo_run; rewrite Est; demo_run; trace_norm; reflexivity|].
        apply MQTTStatus_eqb_neq in Est.
        repeat split; auto; try discriminate.
        intros [_ H]. congruence.
    + eexists _, _. split; [demo_run; trace_norm; reflexivity|].
      repeat split; auto; try discriminate. intros [_ H]. discriminate.
  - eexists _, _. split; [demo_run; rewrite Eenq; demo_run; trace_norm; reflexivity|].
    apply MQTTStatus_eqb_neq in Eenq.
    repeat split; auto; try discriminate. intros [H _]. congruence.
Qed.

(** X15.  An unsubscribe without a filter or with length zero stops at an
    assertion.  Otherwise it returns for every filter, recognised by the
    classifier or not: success exactly when the enqueue succeeds and the
    completion arrives in time with success, and exactly then has the
    filter been taken out of the subscription registry; it adds nothing to
    the registry. *)
Theorem prvMQTTUnsubscribe_result (ext : Externals) (qos : Z) (w : World) :
  (forall len, prvMQTTUnsubscribe ext None len qos w = AssertFailed)
  /\ (forall p len, len <= 0 -> prvMQTTUnsubscribe ext p len qos w = AssertFailed)
  /\ (forall filter len, 0 < len ->
        exists r es,
          prvMQTTUnsubscribe ext (Some filter) len qos w
          = Returned (r, emitted es w)
          /\ (r = OtaMqttSuccess
              <-> ext_MQTTAgent_Unsubscribe ext = MQTTSuccess
                  /\ ext_xTaskNotifyWait ext = Some MQTTSuccess)
          /\ (removeSubscription filter ∈ es <-> r = OtaMqttSuccess)
          /\ (forall f cb, addSubscription f cb ∉ es)).
Proof.
  split; [reflexivity|]. split.
  { intros p len Hlen. unfold prvMQTTUnsubscribe.
    replace (0 <? len) with false by (symmetry; apply Z.ltb_ge, Hlen).
    destruct p; reflexivity. }
  intros filter len Hlen. unfold prvMQTTUnsubscribe.
  apply Z.ltb_lt in Hlen. rewrite Hlen. cbn [not_NULL from_option id].
  unfold prvUnSubscribeFromTopic, xTaskNotifyWait_subscription,
    prvSubscriptionCommandCallback.
  destruct (MQTTStatus_eqb (ext_MQTTAgent_Unsubscribe ext) MQTTSuccess) eqn:Eenq.
  - apply MQTTStatus_eqb_eq in Eenq.
    destruct (ext_xTaskNotifyWait ext) as [st|].
    + destruct (MQTTStatus_eqb st MQTTSuccess) eqn:Est.
      * apply MQTTStatus_eqb_eq in Est. subst st.
        eexists _, _. split; [demo_run; trace_norm; reflexivity|].
        repeat split; auto; try (intros; elem_solve).
      * eexists _, _.
        split; [demo_run; rewrite Est; demo_run; trace_norm; reflexivity|].
        apply MQTTStatus_eqb_neq in Est.
        repeat split; auto; try discriminate; try (intros; elem_solve);
          try (intros [H1 H2]; congruence);
          try (intros H; rewrite !elem_of_cons, elem_of_nil in H;
               intuition discriminate).
    + eexists _, _. split; [demo_run; trace_norm; reflexivity|].
      repeat split; auto; try discriminate; try (intros; elem_solve);
          try (intros [H1 H2]; congruence);
          try (intros H; rewrite !elem_of_cons, elem_of_nil in H;
               intuition discriminate).
  - eexists _, _.
    split; [demo_run; rewrite Eenq; demo_run; trace_norm; reflexivity|].
    apply MQTTStatus_eqb_neq in Eenq.
    repeat split; auto; try discriminate; try (intros; elem_solve);
          try (intros [H1 H2]; congruence);
          try (intros H; rewrite !elem_of_cons, elem_of_nil in H;
               intuition discriminate).
Qed.

Lemma prvMQTTUnsubscribe_result_witness :
  prvMQTTUnsubscribe ext_acknowledged (Some (lit "any/filter")) 0 1
    (fresh_world 1) = AssertFailed
  /\ exists r es,
       prvMQTTUnsubscribe ext_acknowledged (Some (lit "any/filter")) 10 1
         (fresh_world 1) = Returned (r, emitted es (fresh_world 1))
       /\ (r = OtaMqttSuccess
           <-> ext_MQTTAgent_Unsubscribe ext_acknowledged = MQTTSuccess
               /\ ext_xTaskNotifyWait ext_acknowledged = Some MQTTSuccess)
       /\ (removeSubscription (lit "any/filter") ∈ es <-> r = OtaMqttSuccess)
       /\ (forall f cb, addSubscription f cb ∉ es).
Proof.
  split.
  - apply (proj1 (proj2 (prvMQTTUnsubscribe_result ext_acknowledged 1
                           (fresh_world 1)))). lia.
  - apply (proj2 (proj2 (prvMQTTUnsubscribe_result ext_acknowledged 1
                           (fresh_world 1)))). lia.
Defined.

(** ** Further behaviour of the job action dispatcher *)

Lemma prvProcessJobDocument_print_run (thing : cstring) (ext : Externals)
    (jobId doc pcAction : cstring) (w : World) :
  jobId <> [] -> doc <> [] ->
  ext_JSON_Search ext doc jobsexampleQUERY_KEY_FOR_ACTION = Some pcAction ->
  prvGetAction pcAction (length pcAction) = JOB_ACTION_PRINT ->
  prvProcessJobDocument thing ext (Some jobId) (Some doc) w
  = Returned (tt,
      match ext_JSON_Search ext doc jobsexampleQUERY_KEY_FOR_MESSAGE with
      | Some pcMessage =>
          emitted [Log LogInfo "Received job contains print action.";
                   Log LogInfo (string_of_list_ascii pcMessage);
                   report_event thing ext jobId (MAKE_STATUS_REPORT "SUCCEEDED")] w
      | None =>
          emitted [Log LogInfo "Received job contains print action.";
                   Log LogError "Job document schema is invalid. Missing message for print action type.";
                   report_event thing ext jobId (MAKE_STATUS_REPORT "FAILED")] w
      end).
Proof.
  intros Hj Hd Ha Hact. unfold prvProcessJobDocument.
  rewrite (strlenZ_pos jobId Hj), (strlenZ_pos doc Hd).
  cbn [not_NULL from_option id]. rewrite Ha, Hact.
  unfold mbind, demoM_bind, configASSERT, emit.
  destruct (ext_JSON_Search ext doc jobsexampleQUERY_KEY_FOR_MESSAGE) as [m|];
    rewrite prvSendUpdateForJob_spec by assumption;
    unfold emitted; cbn; trace_norm; reflexivity.
Qed.

(** X16.  A job whose action is taken for print (any beginning of that
    word, the empty action included), the jobs library yielding the update
    topic of the job: with a message, the message is logged and the status
    SUCCEEDED is published on the update topic at QoS 1; without one, an
    error is logged and the status FAILED is published there.  Nothing else
    happens. *)
Theorem prvProcessJobDocument_print (thing : cstring) (ext : Externals)
    (jobId doc pcAction pUpdateJobTopic : cstring) (w : World) :
  jobId <> [] -> doc <> [] ->
  ext_JSON_Search ext doc jobsexampleQUERY_KEY_FOR_ACTION = Some pcAction ->
  prvGetAction pcAction (length pcAction) = JOB_ACTION_PRINT ->
  ext_Jobs_Update ext thing jobId = Some pUpdateJobTopic ->
  prvProcessJobDocument thing ext (Some jobId) (Some doc) w
  = Returned (tt,
      match ext_JSON_Search ext doc jobsexampleQUERY_KEY_FOR_MESSAGE with
      | Some pcMessage =>
          emitted [Log LogInfo "Received job contains print action.";
                   Log LogInfo (string_of_list_ascii pcMessage);
                   MQTTAgent_Publish pUpdateJobTopic
                     (MAKE_STATUS_REPORT "SUCCEEDED") MQTTQoS1] w
      | None =>
          emitted [Log LogInfo "Received job contains print action.";
                   Log LogError "Job document schema is invalid. Missing message for print action type.";
                   MQTTAgent_Publish pUpdateJobTopic
                     (MAKE_STATUS_REPORT "FAILED") MQTTQoS1] w
      end).
Proof.
  intros Hj Hd Ha Hact Hu.
  rewrite (prvProcessJobDocument_print_run thing ext jobId doc pcAction w
             Hj Hd Ha Hact).
  unfold report_event. rewrite Hu. reflexivity.
Qed.

Lemma prvProcessJobDocument_exit_run (thing : cstring) (ext : Externals)
    (jobId doc pcAction : cstring) (w : World) :
  jobId <> [] -> doc <> [] ->
  ext_JSON_Search ext doc jobsexampleQUERY_KEY_FOR_ACTION = Some pcAction ->
  prvGetAction pcAction (length pcAction) = JOB_ACTION_EXIT ->
  prvProcessJobDocument thing ext (Some jobId) (Some doc) w
  = Returned (tt,
      exit_flagged
        (emitted [Log LogInfo "Received job contains exit action. Updating state of demo.";
                  report_event thing ext jobId (MAKE_STATUS_REPORT "SUCCEEDED");
                  MQTTAgent_Terminate] w)).
Proof.
  intros Hj Hd Ha Hact. unfold prvProcessJobDocument.
  rewrite (strlenZ_pos jobId Hj), (strlenZ_pos doc Hd).
  cbn [not_NULL from_option id]. rewrite Ha, Hact.
  unfold mbind, demoM_bind, configASSERT, emit, set_xExitActionJobReceived.
  rewrite prvSendUpdateForJob_spec by assumption.
  unfold emitted, exit_flagged; cbn; trace_norm; reflexivity.
Qed.

(** X17.  A job whose action is taken for exit, the jobs library yielding
    the update topic of the job: the exit flag is raised, the status
    SUCCEEDED is published on the update topic at QoS 1, and after that
    publish the agent is told to terminate the connection, whatever else
    the document holds. *)
Theorem prvProcessJobDocument_exit (thing : cstring) (ext : Externals)
    (jobId doc pcAction pUpdateJobTopic : cstring) (w : World) :
  jobId <> [] -> doc <> [] ->
  ext_JSON_Search ext doc jobsexampleQUERY_KEY_FOR_ACTION = Some pcAction ->
  prvGetAction pcAction (length pcAction) = JOB_ACTION_EXIT ->
  ext_Jobs_Update ext thing jobId = Some pUpdateJobTopic ->
  prvProcessJobDocument thing ext (Some jobId) (Some doc) w
  = Returned (tt,
      exit_flagged
        (emitted [Log LogInfo "Received job contains exit action. Updating state of demo.";
                  MQTTAgent_Publish pUpdateJobTopic
                    (MAKE_STATUS_REPORT "SUCCEEDED") MQTTQoS1;
                  MQTTAgent_Terminate] w)).
Proof.
  intros Hj Hd Ha Hact Hu.
  rewrite (prvProcessJobDocument_exit_run thing ext jobId doc pcAction w
             Hj Hd Ha Hact).
  unfold report_event. rewrite Hu. reflexivity.
Qed.

Lemma prvProcessJobDocument_print_witness :
  prvProcessJobDocument (lit "dev1") ext_print_job
    (Some (lit "job-1")) (Some (lit "{action:pri,message:hi}")) (fresh_world 1)
  = Returned (tt,
      emitted [Log LogInfo "Received job contains print action.";
               Log LogInfo "hi";
               MQTTAgent_Publish (lit "$aws/things/dev1/jobs/job-1/update")
                 (MAKE_STATUS_REPORT "SUCCEEDED") 1] (fresh_world 1)).
Proof.
  apply (prvProcessJobDocument_print (lit "dev1") ext_print_job (lit "job-1")
           (lit "{action:pri,message:hi}") (lit "pri")
           (lit "$aws/things/dev1/jobs/job-1/update") (fresh_world 1));
    try discriminate; reflexivity.
Defined.

Lemma prvProcessJobDocument_exit_witness :
  prvProcessJobDocument (lit "dev1") ext_exit_job
    (Some (lit "job-1")) (Some (lit "{action:exit}")) (fresh_world 1)
  = Returned (tt,
      exit_flagged
        (emitted [Log LogInfo "Received job contains exit action. Updating state of demo.";
                  MQTTAgent_Publish (lit "$aws/things/dev1/jobs/job-1/update")
                    (MAKE_STATUS_REPORT "SUCCEEDED") 1;
                  MQTTAgent_Terminate] (fresh_world 1))).
Proof.
  apply (prvProcessJobDocument_exit (lit "dev1") ext_exit_job (lit "job-1")
           (lit "{action:exit}") (lit "exit")
           (lit "$aws/things/dev1/jobs/job-1/update") (fresh_world 1));
    try discriminate; reflexivity.
Defined.

Lemma prvProcessJobDocument_returns_inv (thing : cstring) (ext : Externals)
    (pcJobId pcJobDocument : option cstring) (w w' : World) :
  prvProcessJobDocument thing ext pcJobId pcJobDocument w = Returned (tt, w') ->
  exists jobId doc,
    pcJobId = Some jobId /\ pcJobDocument = Some doc
    /\ jobId <> [] /\ doc <> [].
Proof.
  unfold prvProcessJobDocument. intros H.
  destruct pcJobId as [jobId|]; [|discriminate].
  destruct pcJobDocument as [doc|].
  2:{ revert H. demo_run. destruct (0 <? strlenZ (Some jobId)); discriminate. }
  exists jobId, doc. repeat split.
  - intros ->. discriminate.
  - intros ->. revert H. demo_run.
    destruct (0 <? strlenZ (Some jobId)); discriminate.
Qed.

(** X18.  Whatever the job document, the dispatcher hands the agent at most
    one status publish for it, tells the agent to terminate only for the
    exit action, and leaves the pool alone. *)
Theorem prvProcessJobDocument_at_most_one_report (thing : cstring)
    (ext : Externals) (pcJobId pcJobDocument : option cstring) (w w' : World) :
  prvProcessJobDocument thing ext pcJobId pcJobDocument w = Returned (tt, w') ->
  exists es,
    trace w' = trace w ++ es
    /\ (length (List.filter is_agent_publish es) <= 1)%nat
    /\ (MQTTAgent_Terminate ∈ es -> xExitActionJobReceived w' = true)
    /\ eventBuffer w' = eventBuffer w.
Proof.
  intros Hrun.
  destruct (prvProcessJobDocument_returns_inv _ _ _ _ _ _ Hrun)
    as (jobId & doc & -> & -> & Hj & Hd).
  destruct (ext_JSON_Search ext doc jobsexampleQUERY_KEY_FOR_ACTION)
    as [pcAction|] eqn:Ha.
  2:{ rewrite (prvProcessJobDocument_missing_action _ _ _ _ _ Hj Hd Ha) in Hrun.
      injection Hrun as <-. eexists. split; [reflexivity|].
      unfold report_event. destruct (ext_Jobs_Update _ _ _); cbn;
        repeat split; try lia; intros H; exfalso; revert H; elem_solve. }
  destruct (prvGetAction pcAction (length pcAction)) eqn:Hact.
  - rewrite (prvProcessJobDocument_print_run _ _ _ _ _ _ Hj Hd Ha Hact) in Hrun.
    injection Hrun as <-.
    destruct (ext_JSON_Search ext doc jobsexampleQUERY_KEY_FOR_MESSAGE);
      (eexists; split; [reflexivity|]);
      unfold report_event; destruct (ext_Jobs_Update _ _ _); cbn;
      repeat split; try lia; intros H; exfalso; revert H; elem_solve.
  - assert (Hrun' := Hrun).
    unfold prvProcessJobDocument in Hrun.
    rewrite (strlenZ_pos jobId Hj), (strlenZ_pos doc Hd) in Hrun.
    cbn [not_NULL from_option id] in Hrun. rewrite Ha, Hact in Hrun.
    unfold mbind, demoM_bind, configASSERT, emit, mret, demoM_ret,
      set_xDemoEncounteredError in Hrun.
    destruct (ext_JSON_Search ext doc jobsexampleQUERY_KEY_FOR_TOPIC);
      [destruct (ext_JSON_Search ext doc jobsexampleQUERY_KEY_FOR_MESSAGE);
       [destruct (ext_xPublishToTopic ext)|]|];
      rewrite prvSendUpdateForJob_spec in Hrun by assumption;
      injection Hrun as <-; cbn [trace emitted eventBuffer];
      (eexists; split; [rewrite <- ?app_assoc; reflexivity|]);
      unfold report_event; destruct (ext_Jobs_Update _ _ _); cbn;
      repeat split; try lia; intros H; exfalso; revert H; elem_solve.
  - rewrite (prvProcessJobDocument_exit_run _ _ _ _ _ _ Hj Hd Ha Hact) in Hrun.
    injection Hrun as <-. eexists. split; [reflexivity|].
    unfold report_event. destruct (ext_Jobs_Update _ _ _); cbn;
      repeat split; lia.
  - rewrite (prvProcessJobDocument_unknown_action _ _ _ _ _ _ Hj Hd Ha Hact)
      in Hrun.
    injection Hrun as <-. eexists. split; [reflexivity|].
    cbn. repeat split; try lia. intros H; exfalso; revert H; elem_solve.
Qed.

Lemma prvProcessJobDocument_at_most_one_report_witness :
  exists es,
    trace (emitted [Log configPRINTF "Received Job document with unknown action"]
             (fresh_world 1))
    = trace (fresh_world 1) ++ es
    /\ (length (List.filter is_agent_publish es) <= 1)%nat
    /\ (MQTTAgent_Terminate ∈ es ->
        xExitActionJobReceived
          (emitted [Log configPRINTF "Received Job document with unknown action"]
             (fresh_world 1)) = true)
    /\ eventBuffer
         (emitted [Log configPRINTF "Received Job document with unknown action"]
            (fresh_world 1))
       = eventBuffer (fresh_world 1).
Proof.
  apply (prvProcessJobDocument_at_most_one_report (lit "dev1") ext_bogus_job
           (Some (lit "job-1")) (Some (lit "{action:bogus}"))).
  reflexivity.
Defined.

(** ** The handler of next-job messages *)

(** X19.  A next-job message is set aside with a log line, and without any
    status report, when its payload is no valid JSON, when it names no job,
    or when it names a job but carries no job document. *)
Theorem prvNextJobHandler_sets_aside (thing : cstring) (jobIdMax : Z)
    (ext : Externals) (info : MQTTPublishInfo_t) (payload : cstring)
    (w : World) :
  pPayload info = Some payload -> payload <> [] ->
  (ext_JSON_Validate ext payload = false ->
   prvNextJobHandler thing jobIdMax ext (Some info) w
   = Returned (tt,
       emitted [Log LogError "Received invalid JSON payload from AWS IoT Jobs service"] w))
  /\ (ext_JSON_Validate ext payload = true ->
      ext_JSON_Search ext payload jobsexampleQUERY_KEY_FOR_JOB_ID = None ->
      prvNextJobHandler thing jobIdMax ext (Some info) w
      = Returned (tt,
          emitted [Log LogWarn "Failed to parse Job ID in message received from AWS IoT Jobs service"] w))
  /\ (forall pcJobId,
        ext_JSON_Validate ext payload = true ->
        ext_JSON_Search ext payload jobsexampleQUERY_KEY_FOR_JOB_ID = Some pcJobId ->
        Z.of_nat (length pcJobId) < jobIdMax ->
        ext_JSON_Search ext payload jobsexampleQUERY_KEY_FOR_JOBS_DOC = None ->
        prvNextJobHandler thing jobIdMax ext (Some info) w
        = Returned (tt,
            emitted [Log LogInfo "Received a Job from AWS IoT Jobs service";
                     Log LogWarn "Failed to parse document of next job received from AWS IoT Jobs service"] w)).
Proof.
  intros Hp Hne.
  assert (Hpos : (0 <? payloadLength info) = true).
  { unfold payloadLength. rewrite Hp. cbn [from_option id].
    apply Z.ltb_lt. destruct payload; [congruence|cbn [length]; lia]. }
  unfold prvNextJobHandler. rewrite Hp, Hpos. cbn [not_NULL andb from_option id].
  split; [|split].
  - intros ->. reflexivity.
  - intros -> ->. reflexivity.
  - intros pcJobId -> -> Hlen ->. apply Z.ltb_lt in Hlen.
    demo_run. rewrite Hlen. demo_run. trace_norm. reflexivity.
Qed.

Lemma prvNextJobHandler_sets_aside_witness :
  prvNextJobHandler (lit "dev1") 64 ext_no_document (Some sample_next_job)
    (fresh_world 1)
  = Returned (tt,
      emitted [Log LogInfo "Received a Job from AWS IoT Jobs service";
               Log LogWarn "Failed to parse document of next job received from AWS IoT Jobs service"]
        (fresh_world 1)).
Proof.
  apply (proj2 (proj2 (prvNextJobHandler_sets_aside (lit "dev1") 64
                         ext_no_document sample_next_job
                         (lit "{execution:{jobId:job-1}}") (fresh_world 1)
                         eq_refl ltac:(discriminate))) (lit "job-1"));
    reflexivity.
Defined.

(** X20.  A next-job message stops the handler at an assertion when it has
    no payload, when the job identifier it names is not shorter than the
    maximum, when that identifier is empty, or when the length of its job
    document is a multiple of 65536, which the 16-bit length parameter of
    the dispatcher turns into zero. *)
Theorem prvNextJobHandler_asserts (thing : cstring) (jobIdMax : Z)
    (ext : Externals) (info : MQTTPublishInfo_t) (w : World) :
  (pPayload info = None \/ pPayload info = Some [] ->
   prvNextJobHandler thing jobIdMax ext (Some info) w = AssertFailed)
  /\ (forall payload pcJobId,
        pPayload info = Some payload -> payload <> [] ->
        ext_JSON_Validate ext payload = true ->
        ext_JSON_Search ext payload jobsexampleQUERY_KEY_FOR_JOB_ID = Some pcJobId ->
        (jobIdMax <= Z.of_nat (length pcJobId)
         \/ (pcJobId = []
             /\ is_Some (ext_JSON_Search ext payload jobsexampleQUERY_KEY_FOR_JOBS_DOC))
         \/ (exists doc,
               ext_JSON_Search ext payload jobsexampleQUERY_KEY_FOR_JOBS_DOC = Some doc
               /\ Z.of_nat (length doc) mod 65536 = 0)) ->
        prvNextJobHandler thing jobIdMax ext (Some info) w = AssertFailed).
Proof.
  split.
  - intros [H|H]; unfold prvNextJobHandler, payloadLength; rewrite H; reflexivity.
  - intros payload pcJobId Hp Hne Hv Hid Hcase.
    assert (Hpos : (0 <? payloadLength info) = true).
    { unfold payloadLength. rewrite Hp. cbn [from_option id].
      apply Z.ltb_lt. destruct payload; [congruence|cbn [length]; lia]. }
    unfold prvNextJobHandler. rewrite Hp, Hpos.
    cbn [not_NULL andb from_option id]. rewrite Hv, Hid.
    demo_run.
    destruct (Z.of_nat (length pcJobId) <? jobIdMax) eqn:Hlt; [|reflexivity].
    apply Z.ltb_lt in Hlt.
    destruct Hcase as [Hlong|[[-> [doc Hdoc]]|(doc & Hdoc & Hmod)]]; [lia| |].
    + rewrite Hdoc. reflexivity.
    + rewrite Hdoc. unfold prvProcessJobDocument. demo_run.
      destruct (0 <? strlenZ (Some (truncate16 pcJobId))); [|reflexivity].
      replace (0 <? strlenZ (Some (truncate16 doc))) with false; [reflexivity|].
      symmetry. apply Z.ltb_ge. unfold strlenZ, truncate16, uint16_t.
      cbn [from_option id]. rewrite Hmod.
      change (Z.to_nat 0) with 0%nat. rewrite take_0. cbn. lia.
Qed.

Lemma prvNextJobHandler_asserts_witness :
  prvNextJobHandler (lit "dev1") 4 ext_no_document (Some sample_next_job)
    (fresh_world 1) = AssertFailed.
Proof.
  apply (proj2 (prvNextJobHandler_asserts (lit "dev1") 4 ext_no_document
                  sample_next_job (fresh_world 1))
           (lit "{execution:{jobId:job-1}}") (lit "job-1") eq_refl
           ltac:(discriminate) eq_refl eq_refl).
  left. cbn. lia.
Defined.

(** X21.  A next-job message with valid JSON, a job identifier below the
    maximum and a job document, both shorter than 65536 bytes, is logged
    and handed to the dispatcher with that identifier and that document. *)
Theorem prvNextJobHandler_dispatches (thing : cstring) (jobIdMax : Z)
    (ext : Externals) (info : MQTTPublishInfo_t)
    (payload pcJobId doc : cstring) (w : World) :
  pPayload info = Some payload -> payload <> [] ->
  ext_JSON_Validate ext payload = true ->
  ext_JSON_Search ext payload jobsexampleQUERY_KEY_FOR_JOB_ID = Some pcJobId ->
  Z.of_nat (length pcJobId) < jobIdMax ->
  Z.of_nat (length pcJobId) < 65536 ->
  ext_JSON_Search ext payload jobsexampleQUERY_KEY_FOR_JOBS_DOC = Some doc ->
  Z.of_nat (length doc) < 65536 ->
  prvNextJobHandler thing jobIdMax ext (Some info) w
  = prvProcessJobDocument thing ext (Some pcJobId) (Some doc)
      (emitted [Log LogInfo "Received a Job from AWS IoT Jobs service"] w).
Proof.
  intros Hp Hne Hv Hid Hlt Hid16 Hdoc Hdoc16.
  assert (Hpos : (0 <? payloadLength info) = true).
  { unfold payloadLength. rewrite Hp. cbn [from_option id].
    apply Z.ltb_lt. destruct payload; [congruence|cbn [length]; lia]. }
  unfold prvNextJobHandler. rewrite Hp, Hpos.
  cbn [not_NULL andb from_option id]. rewrite Hv, Hid, Hdoc.
  apply Z.ltb_lt in Hlt.
  unfold mbind at 1, demoM_bind at 1. cbn [configASSERT not_NULL].
  cbn [negb].
  unfold mbind at 1, demoM_bind at 1. rewrite Hlt. cbn [configASSERT].
  unfold mbind at 1, demoM_bind at 1, emit at 1.
  assert (Htr : forall s : cstring,
            Z.of_nat (length s) < 65536 -> truncate16 s = s).
  { intros s Hs. unfold truncate16. rewrite uint16_t_small by lia.
    rewrite Nat2Z.id. apply firstn_all. }
  rewrite !Htr by assumption. reflexivity.
Qed.

Lemma prvNextJobHandler_dispatches_witness :
  prvNextJobHandler (lit "dev1") 64 ext_exit_message (Some sample_next_job)
    (fresh_world 1)
  = prvProcessJobDocument (lit "dev1") ext_exit_message
      (Some (lit "job-1")) (Some (lit "{action:exit}"))
      (emitted [Log LogInfo "Received a Job from AWS IoT Jobs service"]
         (fresh_world 1)).
Proof.
  apply (prvNextJobHandler_dispatches (lit "dev1") 64 ext_exit_message
           sample_next_job (lit "{execution:{jobId:job-1}}") (lit "job-1")
           (lit "{action:exit}") (fresh_world 1));
    try reflexivity; try discriminate.
Defined.

(** ** Further behaviour of the job-message callback *)

Lemma only_emits_bind {A B : Type} (P : Event -> bool) (m : demoM A)
    (f : A -> demoM B) :
  only_emits P m -> (forall a, only_emits P (f a)) -> only_emits P (m ≫= f).
Proof.
  intros Hm Hf w b w' H. unfold mbind, demoM_bind in H.
  destruct (m w) as [[a w1]| |] eqn:E; try discriminate.
  destruct (Hm w a w1 E) as (es1 & H1 & P1).
  destruct (Hf a w1 b w' H) as (es2 & H2 & P2).
  exists (es1 ++ es2). split.
  - rewrite H2, H1, app_assoc. reflexivity.
  - rewrite forallb_app, P1, P2. reflexivity.
Qed.

Lemma only_emits_ret {A : Type} (P : Event -> bool) (a : A) :
  only_emits P (mret a).
Proof.
  intros w b w' H. injection H as _ <-. exists []. rewrite app_nil_r.
  split; reflexivity.
Qed.

Lemma only_emits_emit (P : Event -> bool) (e : Event) :
  P e = true -> only_emits P (emit e).
Proof.
  intros He w b w' H. injection H as _ <-. exists [e]. cbn. rewrite He.
  split; reflexivity.
Qed.

Lemma only_emits_configASSERT (P : Event -> bool) (b : bool) :
  only_emits P (configASSERT b).
Proof.
  intros w a w' H. unfold configASSERT in H.
  destruct b; [|discriminate]. injection H as _ <-.
  exists []. rewrite app_nil_r. split; reflexivity.
Qed.

Lemma only_emits_set_error (P : Event -> bool) (b : bool) :
  only_emits P (set_xDemoEncounteredError b).
Proof.
  intros w a w' H. injection H as _ <-. exists []. cbn. rewrite app_nil_r.
  split; reflexivity.
Qed.

Lemma only_emits_set_exit (P : Event -> bool) (b : bool) :
  only_emits P (set_xExitActionJobReceived b).
Proof.
  intros w a w' H. injection H as _ <-. exists []. cbn. rewrite app_nil_r.
  split; reflexivity.
Qed.

Create HintDb only_emits.
#[global] Hint Resolve only_emits_ret only_emits_configASSERT
  only_emits_set_error only_emits_set_exit : only_emits.

(** Walks through a computation built from binds and case distinctions,
    checking every event it emits. *)
Ltac only_emits_walk :=
  repeat first
    [ solve [auto with only_emits]
    | solve [apply only_emits_emit; reflexivity]
    | progress cbv zeta
    | apply only_emits_bind; [|intros ?]
    | match goal with
      | |- only_emits _ (match ?x with _ => _ end) => destruct x
      end ].

Lemma prvSendUpdateForJob_no_signal (thing : cstring) (ext : Externals)
    (pcJobId pcJobStatusReport : option cstring) :
  only_emits not_signal (prvSendUpdateForJob thing ext pcJobId pcJobStatusReport).
Proof. unfold prvSendUpdateForJob. only_emits_walk. Qed.

#[global] Hint Resolve prvSendUpdateForJob_no_signal : only_emits.

Lemma prvProcessJobDocument_no_signal (thing : cstring) (ext : Externals)
    (pcJobId pcJobDocument : option cstring) :
  only_emits not_signal (prvProcessJobDocument thing ext pcJobId pcJobDocument).
Proof. unfold prvProcessJobDocument. only_emits_walk. Qed.

#[global] Hint Resolve prvProcessJobDocument_no_signal : only_emits.

Lemma prvNextJobHandler_no_signal (thing : cstring) (jobIdMax : Z)
    (ext : Externals) (pxPublishInfo : option MQTTPublishInfo_t) :
  only_emits not_signal (prvNextJobHandler thing jobIdMax ext pxPublishInfo).
Proof. unfold prvNextJobHandler. only_emits_walk. Qed.

#[global] Hint Resolve prvNextJobHandler_no_signal : only_emits.

Lemma prvProcessIncomingJobMessage_no_signal (thing : cstring)
    (blockSize jobIdMax : Z) (ext : Externals)
    (pPublishInfo : option MQTTPublishInfo_t) :
  only_emits not_signal
    (prvProcessIncomingJobMessage thing blockSize jobIdMax ext pPublishInfo).
Proof.
  unfold prvProcessIncomingJobMessage.
  apply only_emits_bind; [auto with only_emits|intros _].
  destruct pPublishInfo as [info|]; [|auto with only_emits].
  rewrite AFR_OTA_test_never_holds. only_emits_walk.
Qed.

(** X22.  Whatever the message, the job-message callback sends no event to
    the update engine and leaves the pool as it was. *)
Theorem prvProcessIncomingJobMessage_never_signals (thing : cstring)
    (blockSize jobIdMax : Z) (ext : Externals)
    (pPublishInfo : option MQTTPublishInfo_t) (w w' : World) :
  prvProcessIncomingJobMessage thing blockSize jobIdMax ext pPublishInfo w
  = Returned (tt, w') ->
  eventBuffer w' = eventBuffer w
  /\ exists es, trace w' = trace w ++ es /\ forallb not_signal es = true.
Proof.
  intros H. split.
  - exact (prvProcessIncomingJobMessage_keeps_pool thing blockSize jobIdMax ext
             pPublishInfo w tt w' H).
  - exact (prvProcessIncomingJobMessage_no_signal thing blockSize jobIdMax ext
             pPublishInfo w tt w' H).
Qed.

Lemma prvProcessIncomingJobMessage_never_signals_witness :
  exists es,
    trace (emitted [Log LogInfo "Received job message callback.";
                    Log LogInfo "Job update status request has been accepted by AWS Iot Jobs service."]
             (fresh_world 2))
    = trace (fresh_world 2) ++ es
    /\ forallb not_signal es = true.
Proof.
  apply (prvProcessIncomingJobMessage_never_signals (lit "dev1") 4096 64
           ext_timeout (Some sample_job_message) (fresh_world 2)).
  reflexivity.
Defined.

(** The job-message callback stops at an assertion when it is given
    no publish info, when the payload exceeds the block size, and when the
    jobs library does not match the topic of the message. *)
Theorem prvProcessIncomingJobMessage_asserts (thing : cstring)
    (blockSize jobIdMax : Z) (ext : Externals) (w : World) :
  prvProcessIncomingJobMessage thing blockSize jobIdMax ext None w = AssertFailed
  /\ (forall info,
        blockSize < payloadLength info
        \/ match_status (ext_Jobs_MatchTopic ext (pTopicName info) thing)
           <> JobsSuccess ->
        prvProcessIncomingJobMessage thing blockSize jobIdMax ext (Some info) w
        = AssertFailed).
Proof.
  split; [reflexivity|]. intros info Hcase.
  unfold prvProcessIncomingJobMessage. demo_run.
  destruct (payloadLength info <=? blockSize) eqn:Hsize; [|reflexivity].
  apply Z.leb_le in Hsize.
  destruct Hcase as [Hbig|Hst]; [lia|].
  destruct (match_status (ext_Jobs_MatchTopic ext (pTopicName info) thing));
    [congruence|reflexivity|reflexivity].
Qed.

Lemma prvProcessIncomingJobMessage_asserts_witness :
  prvProcessIncomingJobMessage (lit "dev1") 4096 64 ext_no_match
    (Some sample_job_message) (fresh_world 1) = AssertFailed.
Proof.
  apply (proj2 (prvProcessIncomingJobMessage_asserts (lit "dev1") 4096 64
                  ext_no_match (fresh_world 1))).
  right. discriminate.
Defined.

(** X23.  A job message that the jobs library does not report as a new or
    changed job leaves log lines and nothing else: no status report, no
    flag and no command to the agent, also for a rejected status update,
    whose log line announces the end of the demo. *)
Theorem prvProcessIncomingJobMessage_only_logs (thing : cstring)
    (blockSize jobIdMax : Z) (ext : Externals) (info : MQTTPublishInfo_t)
    (w : World) :
  payloadLength info <= blockSize ->
  match_status (ext_Jobs_MatchTopic ext (pTopicName info) thing) = JobsSuccess ->
  match_api (ext_Jobs_MatchTopic ext (pTopicName info) thing) <> JobsDescribeSuccess ->
  match_api (ext_Jobs_MatchTopic ext (pTopicName info) thing) <> JobsNextJobChanged ->
  exists es,
    prvProcessIncomingJobMessage thing blockSize jobIdMax ext (Some info) w
    = Returned (tt, emitted es w)
    /\ forallb is_log es = true.
Proof.
  intros Hsize Hst Hd Hn. unfold prvProcessIncomingJobMessage.
  rewrite AFR_OTA_test_never_holds. apply Z.leb_le in Hsize.
  rewrite Hsize, Hst.
  destruct (match_api (ext_Jobs_MatchTopic ext (pTopicName info) thing));
    try congruence;
    (eexists; split; [demo_run; trace_norm; reflexivity|reflexivity]).
Qed.

Lemma prvProcessIncomingJobMessage_only_logs_witness :
  exists es,
    prvProcessIncomingJobMessage (lit "dev1") 4096 64 ext_update_rejected
      (Some sample_job_message) (fresh_world 1)
    = Returned (tt, emitted es (fresh_world 1))
    /\ forallb is_log es = true.
Proof.
  apply (prvProcessIncomingJobMessage_only_logs (lit "dev1") 4096 64
           ext_update_rejected sample_job_message (fresh_world 1));
    try discriminate; try reflexivity.
Defined.

(** * The life cycle of the demo tasks *)

Lemma OtaState_eqb_eq (a b : OtaState_t) : OtaState_eqb a b = true <-> a = b.
Proof. destruct a, b; cbn; split; intros H; try discriminate; reflexivity. Qed.

Lemma OtaState_eqb_neq (a b : OtaState_t) : OtaState_eqb a b = false <-> a <> b.
Proof.
  destruct a, b; cbn; split; intros H; try discriminate; try reflexivity;
    try congruence.
Qed.

Lemma resume_loop_spec (k : nat) :
  forall (s : OtaState_t) (rest : list OtaState_t) (calls : list TaskCall),
    s <> OtaAgentStateSuspended ->
    resume_loop (replicate k OtaAgentStateSuspended ++ s :: rest) calls
    = Some (calls ++ replicate k (vTaskDelay otaexampleTASK_DELAY_MS), rest).
Proof.
  induction k as [|k IH]; intros s rest calls Hs; cbn.
  - apply OtaState_eqb_neq in Hs. rewrite Hs, app_nil_r. reflexivity.
  - rewrite IH by assumption. rewrite <- app_assoc. reflexivity.
Qed.

Lemma resume_loop_waits (answers : list OtaState_t) :
  Forall (fun s => s = OtaAgentStateSuspended) answers ->
  forall calls, resume_loop answers calls = None.
Proof.
  induction 1 as [|s answers Hs _ IH]; intros calls; cbn; [reflexivity|].
  subst s. cbn. apply IH.
Qed.

(** X24.  A resume is a no-op unless the engine is suspended at the first
    poll.  If it is, the engine is resumed once and the task then delays
    once for every further poll that finds the engine suspended, returning
    at the first poll that does not; and while every poll finds the engine
    suspended the call does not return. *)
Theorem vResumeOTACodeSigningDemo_spec :
  (forall s rest, s <> OtaAgentStateSuspended ->
     vResumeOTACodeSigningDemo (s :: rest) = Some ([], rest))
  /\ (forall k s rest, s <> OtaAgentStateSuspended ->
        vResumeOTACodeSigningDemo
          (OtaAgentStateSuspended :: replicate k OtaAgentStateSuspended ++ s :: rest)
        = Some (OTA_Resume :: replicate k (vTaskDelay otaexampleTASK_DELAY_MS),
                rest))
  /\ (forall answers,
        Forall (fun s => s = OtaAgentStateSuspended) answers ->
        vResumeOTACodeSigningDemo answers = None).
Proof.
  split; [|split].
  - intros s rest Hs. unfold vResumeOTACodeSigningDemo. cbn.
    apply OtaState_eqb_neq in Hs. rewrite Hs. reflexivity.
  - intros k s rest Hs. unfold vResumeOTACodeSigningDemo. cbn.
    apply resume_loop_spec, Hs.
  - intros answers H. unfold vResumeOTACodeSigningDemo.
    destruct H as [|s answers Hs H]; [reflexivity|]. subst s. cbn.
    apply resume_loop_waits, H.
Qed.

Lemma vResumeOTACodeSigningDemo_spec_witness :
  vResumeOTACodeSigningDemo
    [OtaAgentStateSuspended; OtaAgentStateSuspended; OtaAgentStateSuspended;
     OtaAgentStateOther; OtaAgentStateStopped]
  = Some ([OTA_Resume; vTaskDelay 1000; vTaskDelay 1000], [OtaAgentStateStopped]).
Proof.
  apply (proj1 (proj2 vResumeOTACodeSigningDemo_spec) 2%nat OtaAgentStateOther
           [OtaAgentStateStopped]).
  discriminate.
Defined.

(** ** The demo task *)

Lemma statistics_loop_spec (run : list OtaState_t) :
  forall (rest : list OtaState_t) (calls : list TaskCall),
    Forall (fun s => s <> OtaAgentStateStopped) run ->
    statistics_loop (run ++ OtaAgentStateStopped :: rest) calls
    = Some (calls ++ concat (replicate (length run) statistics_round), rest).
Proof.
  induction run as [|s run IH]; intros rest calls Hrun; cbn [app statistics_loop].
  - cbn. rewrite app_nil_r. reflexivity.
  - apply Forall_cons in Hrun as [Hs Hrun]. apply OtaState_eqb_neq in Hs.
    rewrite Hs. cbn [negb]. rewrite IH by assumption.
    cbn [length replicate concat]. rewrite <- app_assoc. reflexivity.
Qed.

Lemma statistics_loop_waits (answers : list OtaState_t) :
  Forall (fun s => s <> OtaAgentStateStopped) answers ->
  forall calls, statistics_loop answers calls = None.
Proof.
  induction 1 as [|s answers Hs _ IH]; intros calls; cbn; [reflexivity|].
  apply OtaState_eqb_neq in Hs. rewrite Hs. cbn. apply IH.
Qed.

(** Shows that a call is none of a list of explicit calls, possibly under
    a premise on the answers of the start-up calls. *)
Ltac not_among :=
  try match goal with |- _ = _ -> _ => let H := fresh in intros H end;
  first [ discriminate
        | rewrite ?not_elem_of_cons; repeat split; try discriminate;
          apply not_elem_of_nil ].

(** X25.  When the start-up of the demo task fails, at the mutex, at the
    initialisation of the engine or at the creation of the agent task, the
    task sends no start event, polls nothing and reports no statistics; it
    logs that the agent stopped and deletes itself.  The pool is cleared
    only once the mutex exists. *)
Theorem prvOTADemoTask_startup_failure (text : TaskExternals)
    (pool : list OtaEventData_t) (answers : list OtaState_t) :
  ext_xSemaphoreCreateMutex text && ext_OTA_Init text && ext_xTaskCreate text
  = false ->
  exists calls,
    prvOTADemoTask text pool answers
    = Some (if ext_xSemaphoreCreateMutex text then memset_zero <$> pool else pool,
            calls ++ [DemoEvent (Log LogInfo "OTA agent task stopped. Exiting OTA demo.");
                      vTaskDelete],
            answers)
    /\ (DemoEvent (OTA_SignalEvent OtaAgentEventStart None) ∉ calls)
    /\ (OTA_GetStatistics ∉ calls)
    /\ (ext_xSemaphoreCreateMutex text = false -> OTA_Init ∉ calls)
    /\ (ext_OTA_Init text = false -> xTaskCreate "OTAAgentTask" ∉ calls).
Proof.
  intros Hfail. unfold prvOTADemoTask.
  destruct (ext_xSemaphoreCreateMutex text);
    [destruct (ext_OTA_Init text);
     [destruct (ext_xTaskCreate text); [discriminate|]|]|].
  - exists [DemoEvent (Log LogInfo "OTA over MQTT demo, Application version");
            xSemaphoreCreateMutex; OTA_Init; xTaskCreate "OTAAgentTask";
            DemoEvent (Log LogError "Failed to start OTA Agent task")].
    split; [reflexivity|].
    split; [not_among|]. split; [not_among|]. split; not_among.
  - exists [DemoEvent (Log LogInfo "OTA over MQTT demo, Application version");
            xSemaphoreCreateMutex; OTA_Init;
            DemoEvent (Log LogError "Failed to initialize OTA Agent, exiting")].
    split; [reflexivity|].
    split; [not_among|]. split; [not_among|]. split; not_among.
  - exists [DemoEvent (Log LogInfo "OTA over MQTT demo, Application version");
            xSemaphoreCreateMutex].
    split; [reflexivity|].
    split; [not_among|]. split; [not_among|]. split; not_among.
Qed.

Lemma prvOTADemoTask_startup_failure_witness :
  exists calls,
    prvOTADemoTask
      {| ext_xSemaphoreCreateMutex := true; ext_OTA_Init := false;
         ext_xTaskCreate := true |}
      [set_bufferUsed true free_slot] [OtaAgentStateOther]
    = Some (memset_zero <$> [set_bufferUsed true free_slot],
            calls ++ [DemoEvent (Log LogInfo "OTA agent task stopped. Exiting OTA demo.");
                      vTaskDelete],
            [OtaAgentStateOther])
    /\ DemoEvent (OTA_SignalEvent OtaAgentEventStart None) ∉ calls.
Proof.
  destruct (prvOTADemoTask_startup_failure
              {| ext_xSemaphoreCreateMutex := true; ext_OTA_Init := false;
                 ext_xTaskCreate := true |}
              [set_bufferUsed true free_slot] [OtaAgentStateOther] eq_refl)
    as (calls & H1 & H2 & _).
  exists calls. split; assumption.
Defined.

(** X26.  When the start-up succeeds, the demo task clears the pool, so
    that every slot is free and of its old size, creates the agent task,
    sends one start event, and then reports the statistics and delays once
    for every poll that finds the engine not stopped; at the first poll
    that finds it stopped the task logs that and deletes itself.  While no
    poll finds the engine stopped the task does not end. *)
Theorem prvOTADemoTask_run (text : TaskExternals) (pool : list OtaEventData_t)
    (run rest : list OtaState_t) :
  ext_xSemaphoreCreateMutex text = true ->
  ext_OTA_Init text = true ->
  ext_xTaskCreate text = true ->
  Forall (fun s => s <> OtaAgentStateStopped) run ->
  prvOTADemoTask text pool (run ++ OtaAgentStateStopped :: rest)
  = Some (memset_zero <$> pool,
          [DemoEvent (Log LogInfo "OTA over MQTT demo, Application version");
           xSemaphoreCreateMutex; OTA_Init; xTaskCreate "OTAAgentTask";
           DemoEvent (OTA_SignalEvent OtaAgentEventStart None)]
          ++ concat (replicate (length run) statistics_round)
          ++ [DemoEvent (Log LogInfo "OTA agent task stopped. Exiting OTA demo.");
              vTaskDelete],
          rest)
  /\ all_free (memset_zero <$> pool)
  /\ length (memset_zero <$> pool) = length pool
  /\ prvOTADemoTask text pool run = None.
Proof.
  intros Hm Hi Ht Hrun. unfold prvOTADemoTask. rewrite Hm, Hi, Ht.
  rewrite statistics_loop_spec by assumption.
  rewrite statistics_loop_waits by assumption.
  split; [cbn; rewrite <- ?app_assoc; reflexivity|].
  split; [apply Forall_fmap, Forall_true; reflexivity|].
  split; [apply length_fmap|reflexivity].
Qed.

Lemma prvOTADemoTask_run_witness :
  prvOTADemoTask
    {| ext_xSemaphoreCreateMutex := true; ext_OTA_Init := true;
       ext_xTaskCreate := true |}
    [set_bufferUsed true free_slot]
    [OtaAgentStateOther; OtaAgentStateStopped]
  = Some ([free_slot],
          [DemoEvent (Log LogInfo "OTA over MQTT demo, Application version");
           xSemaphoreCreateMutex; OTA_Init; xTaskCreate "OTAAgentTask";
           DemoEvent (OTA_SignalEvent OtaAgentEventStart None);
           OTA_GetStatistics;
           DemoEvent (Log LogInfo "Received: Queued: Processed: Dropped:");
           vTaskDelay 1000;
           DemoEvent (Log LogInfo "OTA agent task stopped. Exiting OTA demo.");
           vTaskDelete],
          []).
Proof.
  apply (proj1 (prvOTADemoTask_run
                  {| ext_xSemaphoreCreateMutex := true; ext_OTA_Init := true;
                     ext_xTaskCreate := true |}
                  [set_bufferUsed true free_slot] [OtaAgentStateOther] []
                  eq_refl eq_refl eq_refl ltac:(repeat constructor; discriminate))).
Defined.

(** ** Suspending the demo *)

Lemma suspend_loop_inv (fuel : nat) :
  forall (answers : list OtaState_t) (calls calls' : list TaskCall)
         (rest : list OtaState_t),
    suspend_loop fuel answers calls = Some (calls', rest) ->
    exists used n,
      answers = used ++ rest
      /\ calls' = calls ++ replicate n (vTaskDelay otaexampleTASK_DELAY_MS)
      /\ (last used = Some OtaAgentStateSuspended
          \/ last used = Some OtaAgentStateStopped).
Proof.
  induction fuel as [|fuel IH]; intros answers calls calls' rest H;
    [discriminate|].
  cbn [suspend_loop] in H. unfold neither_suspended_nor_stopped in H.
  destruct answers as [|s1 answers]; [discriminate|]. cbn [OTA_GetState] in H.
  destruct (OtaState_eqb s1 OtaAgentStateSuspended) eqn:E1; cbn [negb] in H.
  - apply OtaState_eqb_eq in E1. subst s1. injection H as <- <-.
    exists [OtaAgentStateSuspended], 0%nat. cbn. rewrite app_nil_r. auto.
  - destruct answers as [|s2 answers]; [discriminate|].
    cbn [OTA_GetState] in H.
    destruct (OtaState_eqb s2 OtaAgentStateStopped) eqn:E2; cbn [negb] in H.
    + apply OtaState_eqb_eq in E2. subst s2. injection H as <- <-.
      exists [s1; OtaAgentStateStopped], 0%nat. cbn. rewrite app_nil_r. auto.
    + destruct (IH _ _ _ _ H) as (used & n & -> & -> & Hlast).
      exists (s1 :: s2 :: used), (S n). split; [reflexivity|]. split.
      * rewrite <- app_assoc. reflexivity.
      * rewrite !last_cons.
        destruct Hlast as [-> | ->]; [left|right]; reflexivity.
Qed.

(** With more iterations allowed than there are answers, one more changes
    nothing: the loop ends by itself or the answers end first. *)
Lemma suspend_loop_fuel (fuel : nat) :
  forall (answers : list OtaState_t) (calls : list TaskCall),
    (length answers < fuel)%nat ->
    suspend_loop (S fuel) answers calls = suspend_loop fuel answers calls.
Proof.
  induction fuel as [|fuel IH]; intros answers calls Hlen; [lia|].
  change (suspend_loop (S (S fuel)) answers calls) with
    (match neither_suspended_nor_stopped answers with
     | None => None
     | Some (true, rest) =>
         suspend_loop (S fuel) rest
           (calls ++ [vTaskDelay otaexampleTASK_DELAY_MS])
     | Some (false, rest) => Some (calls, rest)
     end).
  cbn [suspend_loop].
  unfold neither_suspended_nor_stopped.
  destruct answers as [|s1 [|s2 answers]]; cbn [OTA_GetState];
    try reflexivity.
  - destruct (negb (OtaState_eqb s1 OtaAgentStateSuspended)); reflexivity.
  - destruct (negb (OtaState_eqb s1 OtaAgentStateSuspended)); [|reflexivity].
    destruct (negb (OtaState_eqb s2 OtaAgentStateStopped)); [|reflexivity].
    apply IH. cbn [length] in Hlen. lia.
Qed.

(** X27.  A suspend is a no-op when the first poll finds the engine
    suspended, or the second poll finds it stopped.  Whenever a suspend
    returns, the last state it read was suspended or stopped, and it has
    asked the engine to suspend at most once, before any delay. *)
Theorem vSuspendOTACodeSigningDemo_spec :
  (forall rest,
     vSuspendOTACodeSigningDemo (OtaAgentStateSuspended :: rest) = Some ([], rest))
  /\ (forall s rest, s <> OtaAgentStateSuspended ->
        vSuspendOTACodeSigningDemo (s :: OtaAgentStateStopped :: rest)
        = Some ([], rest))
  /\ (forall answers calls rest,
        vSuspendOTACodeSigningDemo answers = Some (calls, rest) ->
        exists used,
          answers = used ++ rest
          /\ (last used = Some OtaAgentStateSuspended
              \/ last used = Some OtaAgentStateStopped)
          /\ (calls = []
              \/ exists n,
                   calls = OTA_Suspend
                           :: replicate n (vTaskDelay otaexampleTASK_DELAY_MS))).
Proof.
  split; [reflexivity|]. split.
  - intros s rest Hs. unfold vSuspendOTACodeSigningDemo,
      neither_suspended_nor_stopped. cbn.
    apply OtaState_eqb_neq in Hs. rewrite Hs. reflexivity.
  - intros answers calls rest H.
    unfold vSuspendOTACodeSigningDemo, neither_suspended_nor_stopped in H.
    destruct answers as [|s1 answers]; [discriminate|]. cbn [OTA_GetState] in H.
    destruct (OtaState_eqb s1 OtaAgentStateSuspended) eqn:E1; cbn [negb] in H.
    + apply OtaState_eqb_eq in E1. subst s1. injection H as <- <-.
      exists [OtaAgentStateSuspended]. cbn. auto.
    + destruct answers as [|s2 answers]; [discriminate|].
      cbn [OTA_GetState] in H.
      destruct (OtaState_eqb s2 OtaAgentStateStopped) eqn:E2; cbn [negb] in H.
      * apply OtaState_eqb_eq in E2. subst s2. injection H as <- <-.
        exists [s1; OtaAgentStateStopped]. cbn. auto.
      * destruct (suspend_loop_inv _ _ _ _ _ H) as (used & n & -> & -> & Hlast).
        exists (s1 :: s2 :: used). split; [reflexivity|]. split.
        -- rewrite !last_cons.
           destruct Hlast as [-> | ->]; [left|right]; reflexivity.
        -- right. exists n. reflexivity.
Qed.

Lemma vSuspendOTACodeSigningDemo_spec_witness :
  vSuspendOTACodeSigningDemo
    [OtaAgentStateOther; OtaAgentStateStopped; OtaAgentStateOther]
  = Some ([], [OtaAgentStateOther]).
Proof.
  apply (proj1 (proj2 vSuspendOTACodeSigningDemo_spec)). discriminate.
Defined.

Lemma suspend_loop_returns_pair (j : nat) :
  suspend_loop_returns_after j /\ suspend_loop_returns_after (S j).
Proof.
  induction j as [|j [IH0 IH1]].
  - split; intros fuel tail calls Hfuel.
    + destruct fuel as [|fuel]; [lia|]. cbn. rewrite app_nil_r. reflexivity.
    + destruct fuel as [|[|fuel]]; try lia. reflexivity.
  - split; [exact IH1|]. intros fuel tail calls Hfuel.
    destruct fuel as [|fuel]; [lia|].
    change (replicate (S (S j)) OtaAgentStateOther
            ++ OtaAgentStateSuspended :: OtaAgentStateSuspended :: tail)
      with (OtaAgentStateOther :: OtaAgentStateOther
            :: (replicate j OtaAgentStateOther
                ++ OtaAgentStateSuspended :: OtaAgentStateSuspended :: tail)).
    cbn [suspend_loop neither_suspended_nor_stopped OTA_GetState OtaState_eqb negb].
    rewrite IH0 by lia. rewrite <- app_assoc. reflexivity.
Qed.

Lemma suspend_loop_returns (j : nat) : suspend_loop_returns_after j.
Proof. apply suspend_loop_returns_pair. Qed.

(** X28.  Once the engine reports the suspended state at two polls in a
    row, after any number [m] of polls that found it in another state than
    suspended or stopped, the suspend returns.  It has asked the engine to
    suspend if [m] is not zero, and delayed once for every two polls that
    followed its request. *)
Theorem vSuspendOTACodeSigningDemo_returns (m : nat) (tail : list OtaState_t) :
  vSuspendOTACodeSigningDemo
    (replicate m OtaAgentStateOther
     ++ OtaAgentStateSuspended :: OtaAgentStateSuspended :: tail)
  = Some (match m with
          | O => []
          | S _ => OTA_Suspend
                   :: replicate (Nat.div2 (m - 1))
                        (vTaskDelay otaexampleTASK_DELAY_MS)
          end,
          if Nat.even m then OtaAgentStateSuspended :: tail else tail).
Proof.
  destruct m as [|[|j]]; [reflexivity|reflexivity|].
  unfold vSuspendOTACodeSigningDemo.
  change (replicate (S (S j)) OtaAgentStateOther
          ++ OtaAgentStateSuspended :: OtaAgentStateSuspended :: tail)
    with (OtaAgentStateOther :: OtaAgentStateOther
          :: (replicate j OtaAgentStateOther
              ++ OtaAgentStateSuspended :: OtaAgentStateSuspended :: tail)).
  cbn [neither_suspended_nor_stopped OTA_GetState OtaState_eqb negb].
  rewrite suspend_loop_returns
    by (rewrite length_app, length_replicate; cbn [length]; lia).
  replace (S (S j) - 1)%nat with (S j) by lia. reflexivity.
Qed.
